(** * Fisquality simulation engine: a shallow embedding and its properties

    The development follows the server sources:
    - [holidays.ts]    French holiday calendar (Easter by the Anonymous
                       Gregorian algorithm),
    - [occurrences.ts] expansion of revenue and expense patterns into dated
                       occurrences with their VAT split and account postings,
    - [engine.ts]      the monthly ledger, the fiscal roll-forward, the
                       summaries, the invariant checks and [runSimulation],
    - [schema.ts]      the day-mask utilities and the refinement of the
                       insert schemas,
    - [summarizer.ts]  the helpers of the financial report.

    Conventions of the embedding.
    - A JavaScript number is an exact rational ([Q]); [NaN], the infinities
      and binary rounding are outside the model.  Equality of amounts is
      therefore [Qeq] ([==]); where a statement gives an amount with [=],
      it gives the operations of the code in their order.
    - A text is its sequence of bytes; the white space that [trim] and the
      number parsers skip is the ASCII white space.
    - A [Date] is its local clock reading in minutes since 1970-01-01T00:00
      local time, in a zone with a fixed offset [tz] (minutes east of UTC).
    - A thrown exception is the [Err] outcome of the error monad [res]. *)

From Stdlib Require Import ZArith QArith Qabs Lqa Lia String Ascii DecimalString
  Sorted Permutation.
From stdpp Require Import gmap strings list fin_maps.
From Stdlib Require OrderedTypeEx.

Local Open Scope string_scope.
Local Open Scope Z_scope.

(** ** JavaScript built-ins used by the sources *)

Module JS.

(** [String(n)] for an integral number. *)
Definition toString (n : Z) : string := NilZero.string_of_int (Z.to_int n).

(** [s.padStart(2, '0')]. *)
Definition padStart2 (s : string) : string :=
  match s with
  | EmptyString => "00"
  | String c EmptyString => String "0"%char (String c EmptyString)
  | _ => s
  end.

(** [s.substring(a, b)] for [0 <= a <= b]. *)
Definition substring (a b : nat) (s : string) : string :=
  String.substring a (b - a) s.

Definition isWhite (c : ascii) : bool :=
  match c with
  | " "%char | "009"%char | "010"%char | "011"%char | "012"%char | "013"%char => true
  | _ => false
  end.

Fixpoint skipWhite (s : string) : string :=
  match s with
  | String c s' => if isWhite c then skipWhite s' else s
  | EmptyString => s
  end.

Definition digitVal (c : ascii) : option Z :=
  let n := Z.of_nat (nat_of_ascii c) in
  if (48 <=? n) && (n <=? 57) then Some (n - 48) else None.

Definition hexVal (c : ascii) : option Z :=
  let n := Z.of_nat (nat_of_ascii c) in
  if (48 <=? n) && (n <=? 57) then Some (n - 48)
  else if (97 <=? n) && (n <=? 102) then Some (n - 87)
  else if (65 <=? n) && (n <=? 70) then Some (n - 55)
  else None.

(** Longest prefix of digits in the given base: the value read so far, the
    number of digits read, and the rest of the text. *)
Fixpoint readDigits (val : ascii -> option Z) (base : Z) (s : string)
         (acc : Z) (n : nat) : Z * nat * string :=
  match s with
  | String c s' =>
      match val c with
      | Some d => readDigits val base s' (base * acc + d) (S n)
      | None => (acc, n, s)
      end
  | EmptyString => (acc, n, s)
  end.

Definition readSign (s : string) : bool * string :=
  match s with
  | String "-"%char s' => (true, s')
  | String "+"%char s' => (false, s')
  | _ => (false, s)
  end.

(** [parseInt(s)] without a radix; [None] is [NaN]. *)
Definition parseInt (s : string) : option Z :=
  let '(neg, s1) := readSign (skipWhite s) in
  let '(v, n, _) :=
    match s1 with
    | String "0"%char (String "x"%char s2)
    | String "0"%char (String "X"%char s2) => readDigits hexVal 16 s2 0 0%nat
    | _ => readDigits digitVal 10 s1 0 0%nat
    end in
  match n with
  | O => None
  | _ => Some (if neg then - v else v)
  end.

(** [parseFloat(s)] on decimal literals without exponent (the text of a
    numeric column); [None] is [NaN]. *)
Definition parseFloat (s : string) : option Q :=
  let '(neg, s1) := readSign (skipWhite s) in
  let '(ip, n, s2) := readDigits digitVal 10 s1 0 0%nat in
  let '(fp, k) :=
    match s2 with
    | String "."%char s3 =>
        let '(f, k, _) := readDigits digitVal 10 s3 0 0%nat in (f, k)
    | _ => (0, 0%nat)
    end in
  match n, k with
  | O, O => None
  | _, _ =>
      let q := Qred (inject_Z ip + inject_Z fp / inject_Z (10 ^ Z.of_nat k))%Q in
      Some (if neg then Qopp q else q)
  end.

(** The text between double quotes. *)
Definition quoted (s : string) : string :=
  let q := String (ascii_of_nat 34) EmptyString in q ++ s ++ q.

(** Truthiness of a string. *)
Definition truthyStr (s : string) : bool :=
  match s with EmptyString => false | _ => true end.

(** [s.trim()] is empty. *)
Definition trimIsEmpty (s : string) : bool :=
  match skipWhite s with EmptyString => true | _ => false end.

(** [a.localeCompare(b) <= 0] on ASCII texts of digits, lower-case letters
    and dashes, where the collation agrees with the code-unit order. *)
Definition localeLeb (a b : string) : bool := String.leb a b.

(** [Array.prototype.sort] with a comparator: a stable insertion sort. *)
Section Sort.
Context {A : Type} (le : A -> A -> bool).

Fixpoint insertSorted (x : A) (l : list A) : list A :=
  match l with
  | [] => [x]
  | y :: l' => if le y x then y :: insertSorted x l' else x :: l
  end.

Definition sort (l : list A) : list A :=
  fold_left (fun acc x => insertSorted x acc) l [].
End Sort.

End JS.

(** ** Outcomes of code that may throw *)

Inductive res (A : Type) : Type :=
| Ok (a : A)
| Err (msg : string).
Arguments Ok {A} a.
Arguments Err {A} msg.

#[global] Instance res_ret : MRet res := fun A a => Ok a.
#[global] Instance res_bind : MBind res := fun A B f m =>
match m with
| Ok a => f a
| Err e => Err e
end.

Definition isOk {A} (m : res A) : bool :=
match m with Ok _ => true | Err _ => false end.

(** ** Dates *)

Module DateKernel.

(** Day number (days since 1970-01-01) of a proleptic Gregorian date. *)
Definition daysFromCivil (y m d : Z) : Z :=
  let y' := if m <=? 2 then y - 1 else y in
  let era := y' / 400 in
  let yoe := y' - era * 400 in
  let mp := (m + 9) mod 12 in
  let doy := (153 * mp + 2) / 5 + d - 1 in
  let doe := yoe * 365 + yoe / 4 - yoe / 100 + doy in
  era * 146097 + doe - 719468.

(** Year, month (1..12) and day of month of a day number. *)
Definition civilFromDays (z : Z) : Z * Z * Z :=
  let z' := z + 719468 in
  let era := z' / 146097 in
  let doe := z' - era * 146097 in
  let yoe := (doe - doe / 1460 + doe / 36524 - doe / 146096) / 365 in
  let doy := doe - (365 * yoe + yoe / 4 - yoe / 100) in
  let mp := (5 * doy + 2) / 153 in
  let d := doy - (153 * mp + 2) / 5 + 1 in
  let m := if mp <? 10 then mp + 3 else mp - 9 in
  let y := yoe + era * 400 in
  (if m <=? 2 then y + 1 else y, m, d).

(** A [Date]: minutes of local time since the local epoch. *)
Definition Date := Z.

Definition dayOf (t : Date) : Z := t / 1440.

(** [new Date(year, monthIndex, day)]: local midnight; month and day
    overflow are normalised, and a year in 0..99 means 1900 + year. *)
Definition mkDate (year monthIndex day : Z) : Date :=
  let year := if (0 <=? year) && (year <=? 99) then 1900 + year else year in
  let ym := year + monthIndex / 12 in
  let mn := monthIndex mod 12 in
  (daysFromCivil ym (mn + 1) 1 + (day - 1)) * 1440.

Definition getFullYear (t : Date) : Z := fst (fst (civilFromDays (dayOf t))).
(** [getMonth()] is zero-based. *)
Definition getMonth (t : Date) : Z := snd (fst (civilFromDays (dayOf t))) - 1.
Definition getDate (t : Date) : Z := snd (civilFromDays (dayOf t)).
(** [getDay()]: 0 = Sunday .. 6 = Saturday. *)
Definition getDay (t : Date) : Z := (dayOf t + 4) mod 7.

(** [d.setDate(n)]: day [n] of the month of [d], same time of day. *)
Definition setDate (t : Date) (n : Z) : Date := t + 1440 * (n - getDate t).

(** [new Date(text)] on a date-only text of the form YYYY-MM-DD: midnight UTC,
    read on the local clock of a zone [tz] minutes east of UTC; a day beyond
    the end of its month is carried into the next month; [None] is an invalid
    date. *)
Definition parseISO (tz : Z) (s : string) : option Date :=
  match s with
  | String y1 (String y2 (String y3 (String y4 (String "-"%char
    (String m1 (String m2 (String "-"%char (String d1 (String d2 EmptyString))))))))) =>
      match JS.digitVal y1, JS.digitVal y2, JS.digitVal y3, JS.digitVal y4,
            JS.digitVal m1, JS.digitVal m2, JS.digitVal d1, JS.digitVal d2 with
      | Some a, Some b, Some c, Some d, Some e, Some f, Some g, Some h =>
          let y := 1000 * a + 100 * b + 10 * c + d in
          let m := 10 * e + f in
          let dd := 10 * g + h in
          if (1 <=? m) && (m <=? 12) && (1 <=? dd) && (dd <=? 31)
          then Some (daysFromCivil y m 1 * 1440 + (dd - 1) * 1440 + tz)
          else None
      | _, _, _, _, _, _, _, _ => None
      end
  | _ => None
  end.

(** [formatDateISO]: [YYYY-MM-DD] from the local calendar fields. *)
Definition formatDateISO (date : Date) : string :=
  let year := getFullYear date in
  let month := JS.padStart2 (JS.toString (getMonth date + 1)) in
  let day := JS.padStart2 (JS.toString (getDate date)) in
  JS.toString year ++ "-" ++ month ++ "-" ++ day.

(** [addDays]: copy the date, then [setDate(getDate() + days)]. *)
Definition addDays (date : Date) (days : Z) : Date :=
  let result := date in
  setDate result (getDate result + days).

Definition getFirstDayOfMonth (year month : Z) : Date := mkDate year (month - 1) 1.
Definition getLastDayOfMonth (year month : Z) : Date := mkDate year month 0.

End DateKernel.

(** ** holidays.ts *)

Module Holidays.
Import DateKernel.

(** JavaScript [%] keeps the sign of the dividend ([Z.rem]);
    [Math.floor(x / y)] with [y > 0] is [Z.div]. *)
Definition getEasterSunday (year : Z) : Date :=
  let a := Z.rem year 19 in
  let b := year / 100 in
  let c := Z.rem year 100 in
  let d := b / 4 in
  let e := Z.rem b 4 in
  let f := (b + 8) / 25 in
  let g := (b - f + 1) / 3 in
  let h := Z.rem (19 * a + b - d - g + 15) 30 in
  let i := c / 4 in
  let k := Z.rem c 4 in
  let l := Z.rem (32 + 2 * e + 2 * i - h - k) 7 in
  let m := (a + 11 * h + 22 * l) / 451 in
  let n := (h + l - 7 * m + 114) / 31 in
  let p := Z.rem (h + l - 7 * m + 114) 31 in
  mkDate year (n - 1) (p + 1).

Definition fixedHolidays (year : Z) : list string :=
  let y := JS.toString year in
  [ y ++ "-01-01"; y ++ "-05-01"; y ++ "-05-08"; y ++ "-07-14";
    y ++ "-08-15"; y ++ "-11-01"; y ++ "-11-11"; y ++ "-12-25" ].

Definition easterBasedHolidays : list Z := [1; 39; 50].

Definition isAlsaceMoselle (region : string) : bool :=
  String.eqb region "FR-67" || String.eqb region "FR-68" || String.eqb region "FR-57".

(** [holidays.add(x)] on a [Set<string>]. *)
Definition add (x : string) (s : gset string) : gset string := {[ x ]} ∪ s.

Definition getFrenchHolidays (year : Z) (region : string) : gset string :=
  let holidays : gset string := ∅ in
  let easter := getEasterSunday year in
  let holidays := fold_left (fun hs date => add date hs) (fixedHolidays year) holidays in
  let holidays :=
    fold_left (fun hs offset => add (formatDateISO (addDays easter offset)) hs)
              easterBasedHolidays holidays in
  if isAlsaceMoselle region then
    let goodFriday := addDays easter (-2) in
    let holidays := add (formatDateISO goodFriday) holidays in
    add (JS.toString year ++ "-12-26") holidays
  else holidays.

End Holidays.

(** ** shared/schema.ts: the rows the engine reads *)

Inductive Account := operating | savings | personal | vat.

#[global] Instance Account_eq_dec : EqDecision Account.
Proof. solve_decision. Defined.

#[global] Instance Account_countable : Countable Account.
Proof.
refine (inj_countable'
  (fun a => match a with operating => 0%nat | savings => 1%nat
                       | personal => 2%nat | vat => 3%nat end)
  (fun n => match n with 0%nat => operating | 1%nat => savings
                       | 2%nat => personal | _ => vat end) _).
intros []; reflexivity.
Defined.

Definition accountName (a : Account) : string :=
match a with
| operating => "operating" | savings => "savings"
| personal => "personal" | vat => "vat"
end.

Record DayOffOverride := {
o_date : string;
o_active : bool;
o_reason : option string;
}.

(** The keys that tell a revenue row from an expense row: a revenue pattern
  has [vatRate] (a numeric column read as text, or null), an expense
  pattern has [category] and [vatDeductible] (an integer column). *)
Inductive PatternKind :=
| RevenueFields (vatRate : option string)
| ExpenseFields (category : string) (vatDeductible : option Z).

Record Pattern := {
p_id : string;
p_name : string;
p_amount : string;
p_frequency : string;
p_startMonth : Z;
p_kind : PatternKind;
p_isRecurring : option Z;
p_excludeWeekends : option Z;
p_excludeHolidays : option Z;
p_daysMask : option Z;
p_dayOffOverrides : option (list DayOffOverride);
p_startDate : option string;
}.

Record Company := {
c_id : string;
c_userId : string;
c_name : string;
c_legalForm : string;
c_activitySector : string;
c_capital : option Z;
c_bankPartner : string;
c_fiscalYear : option string;
c_holidayRegion : string;
}.

(** Truthiness of a nullable integer column and of a nullable text. *)
Definition truthyInt (v : option Z) : bool :=
match v with Some n => negb (n =? 0) | None => false end.

Definition truthyText (v : option string) : bool :=
match v with Some s => JS.truthyStr s | None => false end.

(** A parsed number; [NaN] is outside the number model and read as 0
  (a numeric column always parses). *)
Definition num (v : option Q) : Q := default 0%Q v.

(** [x > y] on numbers. *)
Definition Qgtb (x y : Q) : bool := negb (Qle_bool x y).

(** ** occurrences.ts *)

Module Occurrences.
Import DateKernel Holidays.

Inductive OccType := revenue | expense.

#[global] Instance OccType_eq_dec : EqDecision OccType.
Proof. solve_decision. Defined.

Record AccountPosting := {
  account : Account;
  amount : Q;
  description : string;
}.

Record Occurrence := {
  id : string;
  patternId : string;
  patternName : string;
  date : string;
  type : OccType;
  category : option string;
  grossAmount : Q;
  vatRate : Q;
  vatAmount : Q;
  netAmount : Q;
  vatDeductible : option bool;
  accountPostings : list AccountPosting;
  frequency : string;
  generatedBy : string;
  isRecurring : bool;
}.

Definition generateOccurrenceId (patternId date : string) : string :=
  patternId ++ "-" ++ date.

Definition calculateVAT (grossAmount vatRate : Q) : Q * Q :=
  let vatAmount := (grossAmount * vatRate / (1 + vatRate))%Q in
  let netAmount := (grossAmount - vatAmount)%Q in
  (vatAmount, netAmount).

Definition generateRevenuePostings (occurrence : Occurrence) : list AccountPosting :=
  [ {| account := operating;
       amount := netAmount occurrence;
       description := "Revenue: " ++ patternName occurrence |};
    {| account := vat;
       amount := vatAmount occurrence;
       description := "VAT on revenue: " ++ patternName occurrence |} ].


Definition generateExpensePostings (occurrence : Occurrence) : list AccountPosting :=
  let postings :=
    [ {| account := operating;
         amount := (- netAmount occurrence)%Q;
         description := "Expense: " ++ patternName occurrence |} ] in
  if default false (vatDeductible occurrence) && Qgtb (vatAmount occurrence) 0
  then (postings ++
    [ {| account := vat;
         amount := (- vatAmount occurrence)%Q;
         description := "Deductible VAT: " ++ patternName occurrence |} ])%list
  else postings.

(** [overrides.find(o => o.date === dateStr)]. *)
Definition findOverride (dateStr : string) (overrides : list DayOffOverride)
  : option DayOffOverride :=
  List.find (fun o => String.eqb (o_date o) dateStr) overrides.

Definition isDateActive (date : Date) (pattern : Pattern)
           (holidays : gset string) : bool :=
  let dateStr := formatDateISO date in
  let dayOfWeek := getDay date in
  match
    match p_dayOffOverrides pattern with
    | Some overrides => findOverride dateStr overrides
    | None => None
    end
  with
  | Some override => o_active override
  | None =>
      let isActive :=
        match p_daysMask pattern with
        | Some daysMask =>
            let dayBit := Z.shiftl 1 dayOfWeek in
            negb (Z.land daysMask dayBit =? 0)
        | None => true
        end in
      let isActive :=
        if isActive && truthyInt (p_excludeWeekends pattern)
        then (if (dayOfWeek =? 0) || (dayOfWeek =? 6) then false else isActive)
        else isActive in
      let isActive :=
        if isActive && truthyInt (p_excludeHolidays pattern)
        then (if bool_decide (dateStr ∈ holidays) then false else isActive)
        else isActive in
      isActive
  end.

(** [occurrence.accountPostings = postings]. *)
Definition setPostings (o : Occurrence) (postings : list AccountPosting) : Occurrence :=
  {| id := id o; patternId := patternId o; patternName := patternName o;
     date := date o; type := type o; category := category o;
     grossAmount := grossAmount o; vatRate := vatRate o;
     vatAmount := vatAmount o; netAmount := netAmount o;
     vatDeductible := vatDeductible o; accountPostings := postings;
     frequency := frequency o; generatedBy := generatedBy o;
     isRecurring := isRecurring o |}.

Definition createOccurrence (pattern : Pattern) (company : Company)
           (d : Date) : Occurrence :=
  let grossAmount := num (JS.parseFloat (p_amount pattern)) in
  let vatRate :=
    match p_kind pattern with
    | RevenueFields (Some r) =>
        if JS.truthyStr r then (num (JS.parseFloat r) / 100)%Q else 0.20%Q
    | _ => 0.20%Q
    end in
  let '(vatAmount, netAmount) := calculateVAT grossAmount vatRate in
  let occurrence :=
    {| id := generateOccurrenceId (p_id pattern) (formatDateISO d);
       patternId := p_id pattern;
       patternName := p_name pattern;
       date := formatDateISO d;
       type := match p_kind pattern with
               | RevenueFields _ => revenue
               | ExpenseFields _ _ => expense
               end;
       category := match p_kind pattern with
                   | ExpenseFields c _ => Some c
                   | RevenueFields _ => None
                   end;
       grossAmount := grossAmount;
       vatRate := vatRate;
       vatAmount := vatAmount;
       netAmount := netAmount;
       vatDeductible := match p_kind pattern with
                        | ExpenseFields _ dd => Some (truthyInt dd)
                        | RevenueFields _ => None
                        end;
       accountPostings := [];
       frequency := p_frequency pattern;
       generatedBy := "pattern-expansion";
       isRecurring := truthyInt (p_isRecurring pattern) |} in
  match type occurrence with
  | revenue => setPostings occurrence (generateRevenuePostings occurrence)
  | expense => setPostings occurrence (generateExpensePostings occurrence)
  end.

(** The [while (currentDate <= endDate)] loop of [expandDailyPattern];
    [fuel] bounds the number of iterations. *)
Fixpoint dailyLoop (fuel : nat) (pattern : Pattern) (company : Company)
         (holidays : gset string) (endDate currentDate : Date)
         (occurrences : list Occurrence) : list Occurrence :=
  match fuel with
  | O => occurrences
  | S fuel' =>
      if currentDate <=? endDate then
        let occurrences :=
          if isDateActive currentDate pattern holidays
          then (occurrences ++ [createOccurrence pattern company currentDate])%list
          else occurrences in
        dailyLoop fuel' pattern company holidays endDate
                  (setDate currentDate (getDate currentDate + 1)) occurrences
      else occurrences
  end.

(** Iterations the loop needs from [currentDate]: one per day up to
    [endDate]. *)
Definition dailyFuel (endDate currentDate : Date) : nat :=
  Z.to_nat ((endDate - currentDate) / 1440 + 1).

Definition expandDailyPattern (tz : Z) (pattern : Pattern) (company : Company)
           (year : Z) (holidays : gset string) : list Occurrence :=
  let startDate : option Date :=
    if truthyText (p_startDate pattern)
    then parseISO tz (default "" (p_startDate pattern))
    else Some (getFirstDayOfMonth year (p_startMonth pattern)) in
  match startDate with
  | None => []
  | Some startDate =>
      let endDate := mkDate year 11 31 in
      let startDate :=
        if getFullYear startDate <? year then mkDate year 0 1 else startDate in
      if getFullYear startDate >? year then []
      else
        let currentDate := startDate in
        dailyLoop (dailyFuel endDate currentDate) pattern company holidays
                  endDate currentDate []
  end.

(** [for (let month = startMonth; month <= 12; month++)]: the months the
    loop visits. *)
Definition monthsFrom (startMonth : Z) : list Z :=
  map (fun k => startMonth + Z.of_nat k) (seq 0 (Z.to_nat (12 - startMonth + 1))).

Definition expandMonthlyPattern (pattern : Pattern) (company : Company)
           (year : Z) : list Occurrence :=
  map (fun month => createOccurrence pattern company (getFirstDayOfMonth year month))
      (monthsFrom (p_startMonth pattern)).

(** [Math.ceil(startMonth / 3)] on an integer. *)
Definition ceilDiv3 (n : Z) : Z := - ((- n) / 3).

Definition quartersFrom (startQuarter : Z) : list Z :=
  map (fun k => startQuarter + Z.of_nat k) (seq 0 (Z.to_nat (4 - startQuarter + 1))).

Definition expandQuarterlyPattern (pattern : Pattern) (company : Company)
           (year : Z) : list Occurrence :=
  let startQuarter := ceilDiv3 (p_startMonth pattern) in
  map (fun quarter =>
         let quarterStartMonth := (quarter - 1) * 3 + 1 in
         createOccurrence pattern company (getFirstDayOfMonth year quarterStartMonth))
      (quartersFrom startQuarter).

Definition expandYearlyPattern (pattern : Pattern) (company : Company)
           (year : Z) : list Occurrence :=
  [createOccurrence pattern company (getFirstDayOfMonth year (p_startMonth pattern))].

Definition expandPattern (tz : Z) (pattern : Pattern) (company : Company)
           (year : Z) : list Occurrence :=
  let holidayRegion :=
    if JS.truthyStr (c_holidayRegion company) then c_holidayRegion company else "FR" in
  let holidays := getFrenchHolidays year holidayRegion in
  if String.eqb (p_frequency pattern) "daily"
  then expandDailyPattern tz pattern company year holidays
  else if String.eqb (p_frequency pattern) "monthly"
  then expandMonthlyPattern pattern company year
  else if String.eqb (p_frequency pattern) "quarterly"
  then expandQuarterlyPattern pattern company year
  else if String.eqb (p_frequency pattern) "yearly"
  then expandYearlyPattern pattern company year
  else [].

Definition expandAllPatterns (tz : Z) (revenuePatterns expensePatterns : list Pattern)
           (company : Company) (year : Z) : list Occurrence :=
  let allOccurrences :=
    fold_left (fun acc pattern => (acc ++ expandPattern tz pattern company year)%list)
              revenuePatterns [] in
  let allOccurrences :=
    fold_left (fun acc pattern => (acc ++ expandPattern tz pattern company year)%list)
              expensePatterns allOccurrences in
  JS.sort (fun a b => JS.localeLeb (date a) (date b)) allOccurrences.

End Occurrences.

(** ** engine.ts *)

Module Engine.
Import DateKernel Occurrences.

Record Summary := {
  totalDebits : Q;
  totalCredits : Q;
  netChange : Q;
}.

Record TransactionRecord := {
  t_id : string;
  t_date : string;
  t_description : string;
  t_amount : Q;
  t_sourceOccurrenceId : string;
  t_patternName : string;
  t_type : OccType;
  t_category : option string;
}.

Record MonthlyAccountBalance := {
  mb_account : Account;
  month : Z;
  openingBalance : Q;
  transactions : list TransactionRecord;
  closingBalance : Q;
  summary : Summary;
}.

(** An object with one number per account: [startingBalances],
    [accountBalances], [finalAccountBalances]. *)
Record Balances := {
  b_operating : Q;
  b_savings : Q;
  b_personal : Q;
  b_vat : Q;
}.

Definition balanceOf (b : Balances) (a : Account) : Q :=
  match a with
  | operating => b_operating b | savings => b_savings b
  | personal => b_personal b | vat => b_vat b
  end.

Record RevenueTotals := { gross : Q; net : Q; vatTotal : Q }.
Record ExpenseTotals := { e_gross : Q; e_net : Q; e_vat : Q; deductibleVat : Q }.

Record MonthlySummary := {
  ms_month : Z;
  monthName : string;
  ms_revenue : RevenueTotals;
  ms_expenses : ExpenseTotals;
  ms_netProfit : Q;
  netVatPosition : Q;
  accountBalances : Balances;
}.

Record OverallSummary := {
  totalRevenue : RevenueTotals;
  totalExpenses : ExpenseTotals;
  netProfit : Q;
  totalVatCollected : Q;
  totalVatDeductible : Q;
  netVatOwed : Q;
  finalAccountBalances : Balances;
}.

Record SimulationInputs := {
  year : Z;
  fiscalStartMonth : Z;
  startingBalances : Balances;
}.

(** [processingTimeMs] is a wall-clock reading and is left out. *)
Record Metadata := {
  totalOccurrences : Z;
  engineVersion : string;
}.

Record SimulationResults := {
  r_year : Z;
  r_fiscalStartMonth : Z;
  monthlyBalances : list MonthlyAccountBalance;
  monthlyTotals : list MonthlySummary;
  overallTotals : OverallSummary;
  metadata : Metadata;
}.

Record EngineConfig := {
  version : string;
  performanceTarget : Z;
  maxPatterns : Z;
}.

Definition DEFAULT_ENGINE_CONFIG : EngineConfig :=
  {| version := "v1"; performanceTarget := 200; maxPatterns := 100 |}.

(** [arr[i]] for a number [i] ([None] for [NaN]); [None] is [undefined]. *)
Definition arrayGet {A} (l : list A) (i : option Z) : option A :=
  match i with
  | Some i => if i <? 0 then None else l !! Z.to_nat i
  | None => None
  end.

(** [l.reduce((sum, x) => sum + f(x), 0)]. *)
Definition reduceSum {A} (f : A -> Q) (l : list A) : Q :=
  fold_left (fun sum x => (sum + f x)%Q) l 0%Q.

(** A loop whose body may throw. *)
Fixpoint forEachM {A S} (f : S -> A -> res S) (l : list A) (st : S) : res S :=
  match l with
  | [] => Ok st
  | x :: l' => st' ← f st x; forEachM f l' st'
  end.

Definition getMonthName (m : Z) : string :=
  match m with
  | 1 => "January" | 2 => "February" | 3 => "March" | 4 => "April"
  | 5 => "May" | 6 => "June" | 7 => "July" | 8 => "August"
  | 9 => "September" | 10 => "October" | 11 => "November"
  | 12 => "December"
  | _ => "Month " ++ JS.toString m
  end.

Definition getFiscalMonthName (calendarMonth fiscalStartMonth : Z) : string :=
  let monthName := getMonthName calendarMonth in
  if fiscalStartMonth =? 1 then monthName
  else
    let fiscalMonth := Z.rem (calendarMonth - fiscalStartMonth + 12) 12 + 1 in
    monthName ++ " (FY Month " ++ JS.toString fiscalMonth ++ ")".

Definition calendarToFiscalMonth (calendarMonth fiscalStartMonth : Z) : Z :=
  Z.rem (calendarMonth - fiscalStartMonth + 12) 12 + 1.

Definition fiscalToCalendarMonth (fiscalMonth fiscalStartMonth : Z) : Z :=
  Z.rem (fiscalMonth - 1 + fiscalStartMonth - 1) 12 + 1.

Definition getFiscalMonthOrder (fiscalStartMonth : Z) : list Z :=
  map (fun i => Z.rem (fiscalStartMonth + Z.of_nat i - 1) 12 + 1) (seq 0 12).

Definition accounts : list Account := [operating; savings; personal; vat].

Definition zeroSummary : Summary :=
  {| totalDebits := 0; totalCredits := 0; netChange := 0 |}.

Definition createInitialBalances (startingBalances : Balances)
           (fiscalStartMonth : Z) : gmap Account (list MonthlyAccountBalance) :=
  fold_left
    (fun balanceMap account =>
       let monthlyBalances :=
         map (fun month =>
                if month =? fiscalStartMonth then
                  {| mb_account := account; month := month;
                     openingBalance := balanceOf startingBalances account;
                     transactions := [];
                     closingBalance := balanceOf startingBalances account;
                     summary := zeroSummary |}
                else
                  {| mb_account := account; month := month;
                     openingBalance := 0; transactions := [];
                     closingBalance := 0; summary := zeroSummary |})
             (map (fun k => 1 + Z.of_nat k) (seq 0 12)) in
       <[account := monthlyBalances]> balanceMap)
    accounts ∅.

(** [parseInt(date.substring(5, 7))]. *)
Definition monthOfDate (d : string) : option Z := JS.parseInt (JS.substring 5 7 d).

(** The bucket after one posting: the transaction is appended and the
    month's summary updated. *)
Definition postToBucket (occurrence : Occurrence) (posting : AccountPosting)
           (monthlyBalance : MonthlyAccountBalance) : MonthlyAccountBalance :=
  let transaction :=
    {| t_id := id occurrence ++ "-" ++ accountName (account posting);
       t_date := date occurrence;
       t_description := description posting;
       t_amount := amount posting;
       t_sourceOccurrenceId := id occurrence;
       t_patternName := patternName occurrence;
       t_type := type occurrence;
       t_category := category occurrence |} in
  let sm := summary monthlyBalance in
  let sm :=
    if Qgtb (amount posting) 0
    then {| totalDebits := totalDebits sm + amount posting;
            totalCredits := totalCredits sm; netChange := netChange sm |}
    else {| totalDebits := totalDebits sm;
            totalCredits := totalCredits sm + Qabs (amount posting);
            netChange := netChange sm |} in
  let sm := {| totalDebits := totalDebits sm; totalCredits := totalCredits sm;
               netChange := netChange sm + amount posting |} in
  {| mb_account := mb_account monthlyBalance; month := month monthlyBalance;
     openingBalance := openingBalance monthlyBalance;
     transactions := (transactions monthlyBalance ++ [transaction])%list;
     closingBalance := closingBalance monthlyBalance;
     summary := sm |}.

Definition applyOccurrenceToBalances (occurrence : Occurrence)
           (balanceMap : gmap Account (list MonthlyAccountBalance))
  : res (gmap Account (list MonthlyAccountBalance)) :=
  let month := monthOfDate (date occurrence) in
  forEachM
    (fun (balanceMap : gmap Account (list MonthlyAccountBalance)) posting =>
       match balanceMap !! account posting with
       | None => Ok balanceMap
       | Some accountBalances =>
           match arrayGet accountBalances ((fun m => m - 1) <$> month) with
           | None =>
               Err "Cannot read properties of undefined (reading 'transactions')"
           | Some monthlyBalance =>
               Ok (<[account posting :=
                      <[Z.to_nat (default 0 month - 1) :=
                          postToBucket occurrence posting monthlyBalance]>
                        accountBalances]> balanceMap)
           end
       end)
    (accountPostings occurrence) balanceMap.

(** [occurrencesByMonth]: a [Map] from the month number read off the date
    text to the occurrences of that month, in arrival order. *)
Definition groupBy (key : Occurrence -> option Z) (occurrences : list Occurrence)
  : gmap (option Z) (list Occurrence) :=
  fold_left
    (fun (m : gmap (option Z) (list Occurrence)) occ =>
       let k := key occ in
       match m !! k with
       | None => <[k := [occ]]> m
       | Some l => <[k := (l ++ [occ])%list]> m
       end)
    occurrences ∅.

(** [balanceMap.get(a)![month - 1].closingBalance]: on a map without the
    account the index is read off [undefined]. *)
Definition closingAt (balanceMap : gmap Account (list MonthlyAccountBalance))
           (a : Account) (month : Z) : res Q :=
  match balanceMap !! a with
  | None =>
      Err ("Cannot read properties of undefined (reading '"
           ++ JS.toString (month - 1) ++ "')")
  | Some l =>
      match arrayGet l (Some (month - 1)) with
      | None => Err "Cannot read properties of undefined (reading 'closingBalance')"
      | Some mb => Ok (closingBalance mb)
      end
  end.

Definition isRevenue (occ : Occurrence) : bool := bool_decide (type occ = revenue).
Definition isExpense (occ : Occurrence) : bool := bool_decide (type occ = expense).

Definition monthlySummaryOf (balanceMap : gmap Account (list MonthlyAccountBalance))
           (occurrencesByMonth : gmap (option Z) (list Occurrence))
           (fiscalStartMonth : Z) (month : Z) : res MonthlySummary :=
  let monthOccurrences := default [] (occurrencesByMonth !! Some month) in
  let revenueOccurrences := List.filter isRevenue monthOccurrences in
  let revenue :=
    {| gross := reduceSum grossAmount revenueOccurrences;
       net := reduceSum netAmount revenueOccurrences;
       vatTotal := reduceSum vatAmount revenueOccurrences |} in
  let expenseOccurrences := List.filter isExpense monthOccurrences in
  let expenses :=
    {| e_gross := reduceSum grossAmount expenseOccurrences;
       e_net := reduceSum netAmount expenseOccurrences;
       e_vat := reduceSum vatAmount expenseOccurrences;
       deductibleVat :=
         reduceSum (fun occ => if default false (vatDeductible occ)
                               then vatAmount occ else 0%Q)
                   expenseOccurrences |} in
  op ← closingAt balanceMap operating month;
  sa ← closingAt balanceMap savings month;
  pe ← closingAt balanceMap personal month;
  va ← closingAt balanceMap vat month;
  Ok {| ms_month := month;
        monthName := getFiscalMonthName month fiscalStartMonth;
        ms_revenue := revenue;
        ms_expenses := expenses;
        ms_netProfit := net revenue - e_net expenses;
        netVatPosition := vatTotal revenue - deductibleVat expenses;
        accountBalances :=
          {| b_operating := op; b_savings := sa; b_personal := pe; b_vat := va |} |}.

Definition calculateMonthlySummaries
           (balanceMap : gmap Account (list MonthlyAccountBalance))
           (occurrences : list Occurrence) (fiscalStartMonth : Z)
  : res (list MonthlySummary) :=
  let occurrencesByMonth := groupBy (fun occ => monthOfDate (date occ)) occurrences in
  let fiscalMonthOrder := getFiscalMonthOrder fiscalStartMonth in
  forEachM
    (fun monthlySummaries month =>
       ms ← monthlySummaryOf balanceMap occurrencesByMonth fiscalStartMonth month;
       Ok (monthlySummaries ++ [ms])%list)
    fiscalMonthOrder [].

(** One account's row of twelve buckets, rolled forward in fiscal order. *)
Definition rollForward (fiscalMonthOrder : list Z)
           (accountBalances : list MonthlyAccountBalance)
  : res (list MonthlyAccountBalance) :=
  forEachM
    (fun (accountBalances : list MonthlyAccountBalance) '(fiscalIndex, month) =>
       match arrayGet accountBalances (Some (month - 1)) with
       | None => Err "Cannot read properties of undefined (reading 'openingBalance')"
       | Some monthlyBalance =>
           if (fiscalIndex =? 0)%nat then
             Ok (<[Z.to_nat (month - 1) :=
                     {| mb_account := mb_account monthlyBalance;
                        month := Engine.month monthlyBalance;
                        openingBalance := openingBalance monthlyBalance;
                        transactions := transactions monthlyBalance;
                        closingBalance :=
                          openingBalance monthlyBalance
                          + netChange (summary monthlyBalance);
                        summary := summary monthlyBalance |}]> accountBalances)
           else
             match arrayGet accountBalances
                     ((fun previousFiscalMonth => previousFiscalMonth - 1)
                        <$> fiscalMonthOrder !! (fiscalIndex - 1)%nat) with
             | None =>
                 Err "Cannot read properties of undefined (reading 'closingBalance')"
             | Some previousMonthBalance =>
                 Ok (<[Z.to_nat (month - 1) :=
                         {| mb_account := mb_account monthlyBalance;
                            month := Engine.month monthlyBalance;
                            openingBalance := closingBalance previousMonthBalance;
                            transactions := transactions monthlyBalance;
                            closingBalance :=
                              closingBalance previousMonthBalance
                              + netChange (summary monthlyBalance);
                            summary := summary monthlyBalance |}]> accountBalances)
             end
       end)
    (imap (fun i m => (i, m)) fiscalMonthOrder) accountBalances.

Definition finalizeBalances (balanceMap : gmap Account (list MonthlyAccountBalance))
           (fiscalStartMonth : Z)
  : res (gmap Account (list MonthlyAccountBalance)) :=
  let fiscalMonthOrder := getFiscalMonthOrder fiscalStartMonth in
  forEachM
    (fun (balanceMap : gmap Account (list MonthlyAccountBalance)) account =>
       match balanceMap !! account with
       | None => Ok balanceMap
       | Some accountBalances =>
           accountBalances ← rollForward fiscalMonthOrder accountBalances;
           Ok (<[account := accountBalances]> balanceMap)
       end)
    accounts balanceMap.

Definition zeroBalances : Balances :=
  {| b_operating := 0; b_savings := 0; b_personal := 0; b_vat := 0 |}.

Definition calculateOverallSummary (monthlySummaries : list MonthlySummary)
  : OverallSummary :=
  let totals :=
    fold_left
      (fun (acc : RevenueTotals * ExpenseTotals) monthly =>
         ({| gross := gross (fst acc) + gross (ms_revenue monthly);
             net := net (fst acc) + net (ms_revenue monthly);
             vatTotal := vatTotal (fst acc) + vatTotal (ms_revenue monthly) |},
          {| e_gross := e_gross (snd acc) + e_gross (ms_expenses monthly);
             e_net := e_net (snd acc) + e_net (ms_expenses monthly);
             e_vat := e_vat (snd acc) + e_vat (ms_expenses monthly);
             deductibleVat :=
               deductibleVat (snd acc) + deductibleVat (ms_expenses monthly) |}))
      monthlySummaries
      ({| gross := 0; net := 0; vatTotal := 0 |},
       {| e_gross := 0; e_net := 0; e_vat := 0; deductibleVat := 0 |}) in
  let finalMonth := last monthlySummaries in
  {| totalRevenue := fst totals;
     totalExpenses := snd totals;
     netProfit := net (fst totals) - e_net (snd totals);
     totalVatCollected := vatTotal (fst totals);
     totalVatDeductible := deductibleVat (snd totals);
     netVatOwed := vatTotal (fst totals) - deductibleVat (snd totals);
     finalAccountBalances :=
       match finalMonth with
       | Some finalMonth => accountBalances finalMonth
       | None => zeroBalances
       end |}.

(** [!inputs.year || inputs.year < 2020 || inputs.year > 2030], and the same
    for the fiscal start month.  [startingBalances] is a field every
    [SimulationInputs] has, so the third check never adds an error. *)
Definition validateSimulationInputs (inputs : SimulationInputs)
           (revenuePatterns expensePatterns : list Pattern) : list string :=
  let errors := [] in
  let errors :=
    if (year inputs =? 0) || (year inputs <? 2020) || (year inputs >? 2030)
    then (errors ++ ["Year must be between 2020 and 2030"])%list else errors in
  let errors :=
    if (fiscalStartMonth inputs =? 0) || (fiscalStartMonth inputs <? 1)
       || (fiscalStartMonth inputs >? 12)
    then (errors ++ ["Fiscal start month must be between 1 and 12"])%list
    else errors in
  let totalPatterns :=
    Z.of_nat (length revenuePatterns) + Z.of_nat (length expensePatterns) in
  let errors :=
    if totalPatterns >? maxPatterns DEFAULT_ENGINE_CONFIG
    then (errors ++ [("Too many patterns (" ++ JS.toString totalPatterns
                      ++ "). Maximum allowed: "
                      ++ JS.toString (maxPatterns DEFAULT_ENGINE_CONFIG))%string])%list
    else errors in
  errors.

(** [company] is a record here, so the leading [!company] check never fires;
    the other checks follow in source order. *)
Definition validateCompanyForSimulation (company : Company) : list string :=
  let errors := [] in
  let errors :=
    if negb (JS.truthyStr (c_id company))
    then (errors ++ ["Company ID is required"])%list else errors in
  let errors :=
    if negb (JS.truthyStr (c_userId company))
    then (errors ++ ["Company must be associated with a user"])%list else errors in
  let errors :=
    if negb (JS.truthyStr (c_name company)) || JS.trimIsEmpty (c_name company)
    then (errors ++ ["Company name is required"])%list else errors in
  let errors :=
    if negb (JS.truthyStr (c_legalForm company))
    then (errors ++ ["Company legal form is required"])%list else errors in
  let errors :=
    if negb (JS.truthyStr (c_activitySector company))
    then (errors ++ ["Company activity sector is required"])%list else errors in
  let errors :=
    match c_capital company with
    | None => (errors ++ ["Company capital is required"])%list
    | Some _ => errors
    end in
  let errors :=
    if negb (JS.truthyStr (c_bankPartner company))
    then (errors ++ ["Company bank partner is required"])%list else errors in
  let errors :=
    match c_fiscalYear company with
    | Some fy =>
        if JS.truthyStr fy && negb (String.eqb fy "calendar" || String.eqb fy "fiscal")
        then (errors ++ [("Company fiscal year must be either " ++ JS.quoted "calendar"
                          ++ " or " ++ JS.quoted "fiscal")%string])%list
        else errors
    | None => errors
    end in
  errors.

(** The messages of the invariant checks are kept without the figures they
    interpolate: only whether a check added a message is read afterwards. *)
Definition tolerance : Q := 0.01.

Definition balanceErrorsFor (inputs : SimulationInputs) (fiscalStartMonth : Z)
           (fiscalMonthOrder : list Z) (account : Account)
           (accountBalances : list MonthlyAccountBalance) : res (list string) :=
  let fiscalStartMonthIndex := fiscalStartMonth - 1 in
  let initialBalance := balanceOf (startingBalances inputs) account in
  match arrayGet accountBalances (Some fiscalStartMonthIndex) with
  | None => Err "Cannot read properties of undefined (reading 'openingBalance')"
  | Some fiscalStartBalance =>
      let errors :=
        if Qgtb (Qabs (openingBalance fiscalStartBalance - initialBalance)) tolerance
        then [("Account " ++ accountName account
               ++ ": Fiscal start opening balance does not match initial balance")%string]
        else [] in
      let totalNetPostings :=
        reduceSum (fun monthly => netChange (summary monthly)) accountBalances in
      match arrayGet accountBalances
              ((fun lastFiscalMonth => lastFiscalMonth - 1)
                 <$> fiscalMonthOrder !! 11%nat) with
      | None => Err "Cannot read properties of undefined (reading 'closingBalance')"
      | Some lastBalance =>
          let finalBalance := closingBalance lastBalance in
          let expectedFinalBalance := (initialBalance + totalNetPostings)%Q in
          let balanceDifference := Qabs (finalBalance - expectedFinalBalance) in
          Ok (if Qgtb balanceDifference tolerance
              then (errors ++ [("Account " ++ accountName account
                                ++ ": Final balance invariant failed")%string])%list
              else errors)
      end
  end.

Definition validateBalanceInvariants
           (balanceMap : gmap Account (list MonthlyAccountBalance))
           (inputs : SimulationInputs) (fiscalStartMonth : Z) : res (list string) :=
  let fiscalMonthOrder := getFiscalMonthOrder fiscalStartMonth in
  forEachM
    (fun errors account =>
       match balanceMap !! account with
       | None =>
           Ok (errors ++ [("Missing balance data for account: "
                           ++ accountName account)%string])%list
       | Some accountBalances =>
           es ← balanceErrorsFor inputs fiscalStartMonth fiscalMonthOrder
                                 account accountBalances;
           Ok (errors ++ es)%list
       end)
    accounts [].

Definition rollForwardErrorsAt (fiscalMonthOrder : list Z) (account : Account)
           (accountBalances : list MonthlyAccountBalance) (fiscalIndex : nat)
  : res (list string) :=
  match arrayGet accountBalances ((fun m => m - 1) <$> fiscalMonthOrder !! fiscalIndex),
        arrayGet accountBalances
                 ((fun m => m - 1) <$> fiscalMonthOrder !! (fiscalIndex - 1)%nat) with
  | Some currentMonthBalance, Some previousMonthBalance =>
      let rollForwardDifference :=
        Qabs (openingBalance currentMonthBalance
              - closingBalance previousMonthBalance) in
      let errors :=
        if Qgtb rollForwardDifference tolerance
        then [("Account " ++ accountName account
               ++ ": Roll-forward invariant failed")%string]
        else [] in
      let expectedClosingBalance :=
        (openingBalance currentMonthBalance
         + netChange (summary currentMonthBalance))%Q in
      let closingBalanceDifference :=
        Qabs (closingBalance currentMonthBalance - expectedClosingBalance) in
      Ok (if Qgtb closingBalanceDifference tolerance
          then (errors ++ [("Account " ++ accountName account
                            ++ ": Closing balance calculation error")%string])%list
          else errors)
  | _, _ => Err "Cannot read properties of undefined (reading 'openingBalance')"
  end.

Definition validateRollForwardInvariants
           (balanceMap : gmap Account (list MonthlyAccountBalance))
           (fiscalStartMonth : Z) : res (list string) :=
  let fiscalMonthOrder := getFiscalMonthOrder fiscalStartMonth in
  forEachM
    (fun errors account =>
       match balanceMap !! account with
       | None =>
           Ok (errors ++ [("Missing balance data for account: "
                           ++ accountName account)%string])%list
       | Some accountBalances =>
           forEachM
             (fun errors fiscalIndex =>
                es ← rollForwardErrorsAt fiscalMonthOrder account
                                         accountBalances fiscalIndex;
                Ok (errors ++ es)%list)
             (seq 1 11) errors
       end)
    accounts [].

Definition validateVATInvariants (monthlyTotals : list MonthlySummary)
           (overallTotals : OverallSummary) : list string :=
  let totalMonthlyVATCollected :=
    reduceSum (fun month => vatTotal (ms_revenue month)) monthlyTotals in
  let totalMonthlyVATDeductible :=
    reduceSum (fun month => deductibleVat (ms_expenses month)) monthlyTotals in
  let vatCollectedDifference :=
    Qabs (totalMonthlyVATCollected - totalVatCollected overallTotals) in
  let vatDeductibleDifference :=
    Qabs (totalMonthlyVATDeductible - totalVatDeductible overallTotals) in
  let errors :=
    if Qgtb vatCollectedDifference tolerance
    then ["VAT collected total mismatch"] else [] in
  let errors :=
    if Qgtb vatDeductibleDifference tolerance
    then (errors ++ ["VAT deductible total mismatch"])%list else errors in
  let expectedNetVAT :=
    (totalVatCollected overallTotals - totalVatDeductible overallTotals)%Q in
  let netVATDifference := Qabs (expectedNetVAT - netVatOwed overallTotals) in
  if Qgtb netVATDifference tolerance
  then (errors ++ ["Net VAT calculation error"])%list else errors.

(** *** runSimulation *)

Record Taxes := { tva : Q; urssaf : Q; netCashFlow : Q }.

(** The object handed to the progress callback. *)
Record Progress := {
  simulationId : string;
  currentMonth : Z;
  progress : Q;
  partialBalances : option (list (Account * Q));
  taxes : option Taxes;
}.

(** A run threads the calls made to the progress callback so far and may
    throw. *)
Definition Run (A : Type) : Type := list Progress -> list Progress * res A.

#[global] Instance run_ret : MRet Run := fun A a tr => (tr, Ok a).
#[global] Instance run_bind : MBind Run := fun A B f m tr =>
  match m tr with
  | (tr1, Ok a) => f a tr1
  | (tr1, Err e) => (tr1, Err e)
  end.

Definition liftRes {A} (r : res A) : Run A := fun tr => (tr, r).

Fixpoint forEachR {A S} (f : S -> A -> Run S) (l : list A) (st : S) : Run S :=
  match l with
  | [] => mret st
  | x :: l' => st' ← f st x; forEachR f l' st'
  end.

(** [emitProgress]: the callback is called when both it and the simulation
    id are given; whatever it throws is caught and logged. *)
Definition emitProgress (progressCallback : bool) (simulationId : option string)
           (month : Z) (progress : Q)
           (partialBalances : option (list (Account * Q)))
           (taxes : option Taxes) : Run () :=
  fun tr =>
    if progressCallback && truthyText simulationId
    then ((tr ++ [ {| simulationId := default "" simulationId;
                      currentMonth := month;
                      progress := progress;
                      partialBalances := partialBalances;
                      taxes := taxes |} ])%list, Ok ())
    else (tr, Ok ()).

(** [new Date(occurrence.date).getMonth() + 1]. *)
Definition localMonth (tz : Z) (d : string) : option Z :=
  (fun t => getMonth t + 1) <$> parseISO tz d.

(** An [Occurrence] has [accountPostings] and no property named [postings]:
    reading [o.postings] yields [undefined]. *)
Definition postings (o : Occurrence) : option (list AccountPosting) := None.

(** [os.reduce((sum, o) => sum + o.postings.reduce((s, p) => s + p.amount, 0), 0)]. *)
Definition sumPostings (os : list Occurrence) : res Q :=
  forEachM
    (fun (sum : Q) o =>
       match postings o with
       | None => Err "Cannot read properties of undefined (reading 'reduce')"
       | Some ps => Ok (sum + reduceSum amount ps)%Q
       end)
    os 0%Q.

Definition currentBalancesOf (balanceMap : gmap Account (list MonthlyAccountBalance))
           (month : Z) : list (Account * Q) :=
  flat_map
    (fun account =>
       match balanceMap !! account with
       | Some accountBalances =>
           match List.find (fun b => Engine.month b =? month) accountBalances with
           | Some monthBalance => [(account, closingBalance monthBalance)]
           | None => []
           end
       | None => []
       end)
    accounts.

Definition lookupBalance (a : Account) (l : list (Account * Q)) : option Q :=
  snd <$> List.find (fun p => bool_decide (fst p = a)) l.

Definition processMonth (progressCallback : bool) (simulationId : option string)
           (monthlyOccurrences : gmap (option Z) (list Occurrence))
           (balanceMap : gmap Account (list MonthlyAccountBalance))
           (step : nat * Z) : Run (gmap Account (list MonthlyAccountBalance)) :=
  let '(i, month) := step in
  let monthOccurrences := default [] (monthlyOccurrences !! Some month) in
  balanceMap ← liftRes (forEachM (fun balanceMap occurrence =>
                                    applyOccurrenceToBalances occurrence balanceMap)
                                 monthOccurrences balanceMap);
  let monthProgress := (20 + ((inject_Z (Z.of_nat i) + 1) / 12) * 60)%Q in
  let currentBalances := currentBalancesOf balanceMap month in
  monthRevenue ← liftRes (sumPostings (List.filter isRevenue monthOccurrences));
  monthExpenses ← liftRes (sumPostings (List.filter isExpense monthOccurrences));
  let taxes :=
    {| tva := Qabs (default 0%Q (lookupBalance vat currentBalances));
       urssaf := monthRevenue * 0.45;
       netCashFlow := monthRevenue + monthExpenses |} in
  _ ← emitProgress progressCallback simulationId month monthProgress
                   (Some currentBalances) (Some taxes);
  mret balanceMap.

(** [order.indexOf(m)]. *)
Fixpoint indexOf (order : list Z) (m : Z) : Z :=
  match order with
  | [] => -1
  | x :: order' =>
      if x =? m then 0
      else let i := indexOf order' m in if i <? 0 then -1 else i + 1
  end.

(** The comparator of the final sort is at most zero. *)
Definition fiscalLeb (sortingFiscalOrder : list Z) (a b : MonthlyAccountBalance) : bool :=
  let aFiscalIndex := indexOf sortingFiscalOrder (month a) in
  let bFiscalIndex := indexOf sortingFiscalOrder (month b) in
  if negb (aFiscalIndex =? bFiscalIndex) then aFiscalIndex - bFiscalIndex <=? 0
  else JS.localeLeb (accountName (mb_account a)) (accountName (mb_account b)).

(** [balanceMap.forEach(...)] visits the keys in insertion order, the order
    in which [createInitialBalances] set them. *)
Definition flattenBalances (balanceMap : gmap Account (list MonthlyAccountBalance))
  : list MonthlyAccountBalance :=
  flat_map (fun account => default [] (balanceMap !! account)) accounts.

Definition join (sep : string) (l : list string) : string :=
  match l with
  | [] => ""
  | x :: l' => fold_left (fun acc y => (acc ++ sep ++ y)%string) l' x
  end.

Record PartialConfig := {
  cfg_version : option string;
  cfg_performanceTarget : option Z;
  cfg_maxPatterns : option Z;
}.

Definition noConfig : PartialConfig :=
  {| cfg_version := None; cfg_performanceTarget := None; cfg_maxPatterns := None |}.

(** [{ ...DEFAULT_ENGINE_CONFIG, ...config }]. *)
Definition mergeConfig (config : PartialConfig) : EngineConfig :=
  {| version := default (version DEFAULT_ENGINE_CONFIG) (cfg_version config);
     performanceTarget :=
       default (performanceTarget DEFAULT_ENGINE_CONFIG) (cfg_performanceTarget config);
     maxPatterns := default (maxPatterns DEFAULT_ENGINE_CONFIG) (cfg_maxPatterns config) |}.

(** The body of the [try] block. *)
Definition simulationBody (tz : Z) (inputs : SimulationInputs)
           (revenuePatterns expensePatterns : list Pattern) (company : Company)
           (engineConfig : EngineConfig) (simulationId : option string)
           (progressCallback : bool) : Run SimulationResults :=
  let emit := emitProgress progressCallback simulationId in
  _ ← emit 1 10%Q None None;
  let occurrences :=
    expandAllPatterns tz revenuePatterns expensePatterns company (year inputs) in
  _ ← emit 1 20%Q None None;
  let balanceMap :=
    createInitialBalances (startingBalances inputs) (fiscalStartMonth inputs) in
  let processingFiscalOrder := getFiscalMonthOrder (fiscalStartMonth inputs) in
  let monthlyOccurrences := groupBy (fun o => localMonth tz (date o)) occurrences in
  balanceMap ← forEachR (processMonth progressCallback simulationId monthlyOccurrences)
                        (imap (fun i m => (i, m)) processingFiscalOrder) balanceMap;
  _ ← emit 12 85%Q None None;
  balanceMap ← liftRes (finalizeBalances balanceMap (fiscalStartMonth inputs));
  _ ← emit 12 90%Q None None;
  monthlyTotals ← liftRes (calculateMonthlySummaries balanceMap occurrences
                                                     (fiscalStartMonth inputs));
  _ ← emit 12 95%Q None None;
  let overallTotals := calculateOverallSummary monthlyTotals in
  balanceErrors ← liftRes (validateBalanceInvariants balanceMap inputs
                                                     (fiscalStartMonth inputs));
  rollForwardErrors ← liftRes (validateRollForwardInvariants balanceMap
                                                             (fiscalStartMonth inputs));
  let vatErrors := validateVATInvariants monthlyTotals overallTotals in
  let invariantErrors := (balanceErrors ++ rollForwardErrors ++ vatErrors)%list in
  match invariantErrors with
  | _ :: _ =>
      liftRes (Err ("Critical simulation invariants violated: "
                    ++ join "; " invariantErrors))
  | [] =>
      let monthlyBalances := flattenBalances balanceMap in
      let sortingFiscalOrder := getFiscalMonthOrder (fiscalStartMonth inputs) in
      let sortedMonthlyBalances :=
        JS.sort (fiscalLeb sortingFiscalOrder) monthlyBalances in
      _ ← emit 12 100%Q None None;
      mret {| r_year := year inputs;
              r_fiscalStartMonth := fiscalStartMonth inputs;
              monthlyBalances := sortedMonthlyBalances;
              monthlyTotals := monthlyTotals;
              overallTotals := overallTotals;
              metadata := {| totalOccurrences := Z.of_nat (length occurrences);
                             engineVersion := version engineConfig |} |}
  end.

(** [runSimulation]: the calls made to the progress callback, and the value
    returned or the error thrown.  [progressCallback] tells whether a callback
    was passed; the ids of a [Company] are texts, so the two [typeof] checks
    reduce to their truthiness.  The 100 ms pause after each month and the
    processing-time warning read the clock and are left out. *)
Definition runSimulation (tz : Z) (inputs : SimulationInputs)
           (revenuePatterns expensePatterns : list Pattern) (company : Company)
           (config : PartialConfig) (simulationId : option string)
           (progressCallback : bool) : list Progress * res SimulationResults :=
  let engineConfig := mergeConfig config in
  let inputValidationErrors :=
    validateSimulationInputs inputs revenuePatterns expensePatterns in
  let companyValidationErrors := validateCompanyForSimulation company in
  let allValidationErrors :=
    (inputValidationErrors ++ companyValidationErrors)%list in
  match allValidationErrors with
  | _ :: _ =>
      ([], Err ("Simulation validation failed: " ++ join ", " allValidationErrors))
  | [] =>
      if negb (JS.truthyStr (c_id company))
      then ([], Err "Company validation failed: Invalid company ID format")
      else if negb (JS.truthyStr (c_userId company))
      then ([], Err "Company validation failed: Invalid user ID format")
      else
        match simulationBody tz inputs revenuePatterns expensePatterns company
                             engineConfig simulationId progressCallback [] with
        | (tr, Ok results) => (tr, Ok results)
        | (tr, Err message) => (tr, Err ("Simulation failed: " ++ message))
        end
  end.

End Engine.

(** ** Reference values used in the statements *)

Module Reference.
Import DateKernel Holidays Occurrences Engine.

(** The dates [getFrenchHolidays] adds to its set, in the order it adds
    them; [t + 1440 * n] is [n] days after [t]. *)
Definition nationalHolidays (year : Z) : list string :=
  let y := JS.toString year in
  let easter := getEasterSunday year in
  [ y ++ "-01-01"; y ++ "-05-01"; y ++ "-05-08"; y ++ "-07-14";
    y ++ "-08-15"; y ++ "-11-01"; y ++ "-11-11"; y ++ "-12-25";
    formatDateISO (easter + 1440 * 1);
    formatDateISO (easter + 1440 * 39);
    formatDateISO (easter + 1440 * 50) ].

Definition alsaceMoselleHolidays (year : Z) : list string :=
  (nationalHolidays year ++
   [ formatDateISO (getEasterSunday year + 1440 * (-2));
     (JS.toString year ++ "-12-26")%string ])%list.

(** The calendar's own account of the same dates, for comparison.  Easter
    Sunday of a Gregorian year from the golden number and the epact (Knuth,
    The Art of Computer Programming, 1.3.2, exercise 14), as a day of March:
    22 is March 22, 32 is April 1 and 56 is April 25. *)
Definition easterMarchDay (year : Z) : Z :=
  let golden := year mod 19 + 1 in
  let century := year / 100 + 1 in
  let droppedLeapYears := 3 * century / 4 - 12 in
  let moonCorrection := (8 * century + 5) / 25 - 5 in
  let sunday := 5 * year / 4 - droppedLeapYears - 10 in
  let epact := (11 * golden + 20 + moonCorrection - droppedLeapYears) mod 30 in
  let epact :=
    if ((epact =? 25) && (11 <? golden)) || (epact =? 24) then epact + 1 else epact in
  let fullMoon := 44 - epact in
  let fullMoon := if fullMoon <? 21 then fullMoon + 30 else fullMoon in
  fullMoon + 7 - (sunday + fullMoon) mod 7.

(** Month and day of the [n]-th day counted from March 1 ([n] = 1), up to
    June 30 ([n] = 122): March has 31 days, April 30 and May 31. *)
Definition marchDay (n : Z) : Z * Z :=
  if n <=? 31 then (3, n)
  else if n <=? 61 then (4, n - 31)
  else if n <=? 92 then (5, n - 61)
  else (6, n - 92).

(** A number below 100 in two decimal digits, and a date as YYYY-MM-DD. *)
Definition twoDigits (n : Z) : string :=
  String (ascii_of_nat (48 + Z.to_nat (n / 10)))
         (String (ascii_of_nat (48 + Z.to_nat (n mod 10))) EmptyString).

Definition isoDate (year : Z) (monthDay : Z * Z) : string :=
  JS.toString year ++ "-" ++ twoDigits (fst monthDay) ++ "-" ++ twoDigits (snd monthDay).

(** The eleven national holidays of a year: the eight fixed ones, Easter
    Monday, Ascension Thursday and Whit Monday; Alsace-Moselle adds Good
    Friday and December 26. *)
Definition nationalDates (year : Z) : list string :=
  let easter := easterMarchDay year in
  [ isoDate year (1, 1); isoDate year (5, 1); isoDate year (5, 8);
    isoDate year (7, 14); isoDate year (8, 15); isoDate year (11, 1);
    isoDate year (11, 11); isoDate year (12, 25);
    isoDate year (marchDay (easter + 1));
    isoDate year (marchDay (easter + 39));
    isoDate year (marchDay (easter + 50)) ].

Definition alsaceMoselleDates (year : Z) : list string :=
  (nationalDates year
   ++ [ isoDate year (marchDay (easterMarchDay year - 2)); isoDate year (12, 26) ])%list.

(** Account and signed amount of a posting, without its description. *)
Definition entry (p : AccountPosting) : Account * Q := (account p, amount p).

(** The dates the loop of [expandDailyPattern] visits, in order. *)
Fixpoint dailyCandidates (fuel : nat) (endDate currentDate : Date) : list Date :=
  match fuel with
  | O => []
  | S fuel' =>
      if currentDate <=? endDate
      then currentDate
           :: dailyCandidates fuel' endDate (setDate currentDate (getDate currentDate + 1))
      else []
  end.

(** Every day from [a] to [b] inclusive, at the time of day of [a]. *)
Definition daysFromTo (a b : Date) : list Date :=
  map (fun k => a + 1440 * Z.of_nat k) (seq 0 (Z.to_nat ((b - a) / 1440 + 1))).

(** The expansion window of a daily pattern: the days it is tried on. *)
Definition dailyWindow (tz : Z) (pattern : Pattern) (year : Z) : list Date :=
  let startDate : option Date :=
    if truthyText (p_startDate pattern)
    then parseISO tz (default "" (p_startDate pattern))
    else Some (getFirstDayOfMonth year (p_startMonth pattern)) in
  match startDate with
  | None => []
  | Some startDate =>
      let startDate :=
        if getFullYear startDate <? year then mkDate year 0 1 else startDate in
      if getFullYear startDate >? year then []
      else daysFromTo startDate (mkDate year 11 31)
  end.

(** The progress values of a complete run, in emission order: 10, 20, one
    value per fiscal month, then 85, 90, 95 and 100. *)
Definition progressSchedule : list Q :=
  ([10; 20]
   ++ map (fun i => 20 + ((inject_Z (Z.of_nat i) + 1) / 12) * 60) (seq 0 12)
   ++ [85; 90; 95; 100])%Q%list.

(** What a run emits is an initial part of [vs], all of it when the run
    does not throw. *)
Definition emitsPrefixOf {A} (vs : list Q) (m : Run A) : Prop :=
  forall tr, exists ext r,
    m tr = ((tr ++ ext)%list, r)
    /\ map progress ext `prefix_of` vs
    /\ (isOk r = true -> map progress ext = vs).

(** A month summary is consistent: debits and credits are non-negative and
    the net change is their difference. *)
Definition summaryOk (sm : Summary) : Prop :=
  (0 <= totalDebits sm /\ 0 <= totalCredits sm
   /\ netChange sm == totalDebits sm - totalCredits sm)%Q.

(** The row of an account: twelve buckets, the one at index [i] being that
    of calendar month [i + 1], each with a consistent summary. *)
Definition rowOk (a : Account) (l : list MonthlyAccountBalance) : Prop :=
  length l = 12%nat
  /\ forall i mb, l !! i = Some mb ->
       mb_account mb = a /\ month mb = Z.of_nat i + 1 /\ summaryOk (summary mb).

Definition ledgerOk (balanceMap : gmap Account (list MonthlyAccountBalance)) : Prop :=
  forall a, exists l, balanceMap !! a = Some l /\ rowOk a l.

(** The buckets of an account in the results, the bucket of an account and
    month, and the last month of the fiscal year. *)
Definition bucketsOf (results : SimulationResults) (a : Account)
  : list MonthlyAccountBalance :=
  List.filter (fun mb => bool_decide (mb_account mb = a)) (monthlyBalances results).

Definition bucketAt (results : SimulationResults) (a : Account) (m : Z)
  : option MonthlyAccountBalance :=
  List.find (fun mb => bool_decide (mb_account mb = a) && (month mb =? m))
            (monthlyBalances results).

Definition lastFiscalMonth (fiscalStartMonth : Z) : Z :=
  default 0 (last (getFiscalMonthOrder fiscalStartMonth)).

(** The row [createInitialBalances] builds for an account. *)
Definition initialRow (sb : Balances) (s : Z) (a : Account)
  : list MonthlyAccountBalance :=
  map (fun month =>
         if month =? s then
           {| mb_account := a; month := month;
              openingBalance := balanceOf sb a; transactions := [];
              closingBalance := balanceOf sb a; summary := zeroSummary |}
         else
           {| mb_account := a; month := month;
              openingBalance := 0; transactions := [];
              closingBalance := 0; summary := zeroSummary |})
      (map (fun k => 1 + Z.of_nat k) (seq 0 12)).

(** The occurrences the month loop of [runSimulation] finds for a month. *)
Definition occurrencesOfMonth (groups : gmap (option Z) (list Occurrence)) (m : Z)
  : list Occurrence :=
  default [] (groups !! Some m).

(** The same inputs with another fiscal start month. *)
Definition withFiscalStart (inputs : SimulationInputs) (s : Z) : SimulationInputs :=
  {| year := year inputs; fiscalStartMonth := s;
     startingBalances := startingBalances inputs |}.

(** The last entry of an override list for a date, as opposed to the first. *)
Definition lastOverrideFor (dateStr : string) (overrides : list DayOffOverride)
  : option DayOffOverride :=
  List.find (fun o => String.eqb (o_date o) dateStr) (rev overrides).

End Reference.

(** ** Concrete inputs: the scenarios of the integration tests and a few
    small patterns *)

Module Scenarios.
Import DateKernel Holidays Occurrences Engine.

Definition testCompany : Company :=
  {| c_id := "test-company-001"; c_userId := "test-user-001";
     c_name := "Test Company SAS"; c_legalForm := "sas";
     c_activitySector := "technology"; c_capital := Some 10000;
     c_bankPartner := "Test Bank"; c_fiscalYear := Some "calendar";
     c_holidayRegion := "FR" |}.

Definition revenuePattern (id name amount frequency : string) (startMonth : Z)
           (vatRate : string) : Pattern :=
  {| p_id := id; p_name := name; p_amount := amount; p_frequency := frequency;
     p_startMonth := startMonth; p_kind := RevenueFields (Some vatRate);
     p_isRecurring := Some 1; p_excludeWeekends := Some 0;
     p_excludeHolidays := Some 0; p_daysMask := None;
     p_dayOffOverrides := None; p_startDate := None |}.

Definition expensePattern (id name amount category frequency : string)
           (startMonth : Z) (vatDeductible : Z) : Pattern :=
  {| p_id := id; p_name := name; p_amount := amount; p_frequency := frequency;
     p_startMonth := startMonth;
     p_kind := ExpenseFields category (Some vatDeductible);
     p_isRecurring := Some 1; p_excludeWeekends := Some 0;
     p_excludeHolidays := Some 0; p_daysMask := None;
     p_dayOffOverrides := None; p_startDate := None |}.

(** Test scenario 1, pure revenue. *)
Definition rev001 : Pattern :=
  revenuePattern "rev-001" "Monthly Service Revenue" "12000.00" "monthly" 1 "20.00".
Definition rev002 : Pattern :=
  revenuePattern "rev-002" "Quarterly Consulting Revenue" "15000.00" "quarterly" 3 "20.00".

Definition pureRevenueInputs : SimulationInputs :=
  {| year := 2024; fiscalStartMonth := 1;
     startingBalances :=
       {| b_operating := 1000; b_savings := 5000; b_personal := 0; b_vat := 0 |} |}.

(** Test scenario 4, roll-forward: a fiscal year from July, one monthly
    revenue and one monthly deductible expense, both from July. *)
Definition fiscalCompany : Company :=
  {| c_id := "test-company-001"; c_userId := "test-user-001";
     c_name := "Test Company SAS"; c_legalForm := "sas";
     c_activitySector := "technology"; c_capital := Some 10000;
     c_bankPartner := "Test Bank"; c_fiscalYear := Some "fiscal";
     c_holidayRegion := "FR" |}.

Definition irregularRevenue : Pattern :=
  revenuePattern "rev-001" "Irregular Revenue" "3600.00" "monthly" 7 "20.00".
Definition variableCosts : Pattern :=
  expensePattern "exp-001" "Variable Costs" "1800.00" "general" "monthly" 7 1.

Definition rollForwardInputs : SimulationInputs :=
  {| year := 2024; fiscalStartMonth := 7;
     startingBalances :=
       {| b_operating := 15000; b_savings := 25000; b_personal := 5000;
          b_vat := -2000 |} |}.

(** A revenue pattern at the reduced rate and one at the zero rate. *)
Definition revReduced : Pattern :=
  revenuePattern "rev-r" "Books" "1055.00" "monthly" 1 "5.50".
Definition revZeroRated : Pattern :=
  revenuePattern "rev-z" "Export" "800.00" "yearly" 6 "0.00".

(** A deductible expense. *)
Definition rent : Pattern :=
  expensePattern "exp-001" "Office Rent" "2400.00" "rent" "monthly" 1 1.

(** An expense whose VAT is not deductible. *)
Definition meals : Pattern :=
  expensePattern "exp-002" "Business Meals" "600.00" "general" "monthly" 4 0.

(** A daily pattern on every day of the week from startMonth 7, with no
    start date, no exclusion and no override. *)
Definition dailyFromJuly : Pattern :=
  {| p_id := "rev-d"; p_name := "Daily sales"; p_amount := "120.00";
     p_frequency := "daily"; p_startMonth := 7;
     p_kind := RevenueFields (Some "20.00");
     p_isRecurring := Some 1; p_excludeWeekends := Some 0;
     p_excludeHolidays := Some 0; p_daysMask := Some 127;
     p_dayOffOverrides := Some []; p_startDate := None |}.

(** A Monday-to-Friday daily pattern that skips holidays and carries two
    overrides for Labour Day 2024: the first forces it on, the last off. *)
Definition labourDayOn : DayOffOverride :=
  {| o_date := "2024-05-01"; o_active := true; o_reason := Some "open" |}.
Definition labourDayOff : DayOffOverride :=
  {| o_date := "2024-05-01"; o_active := false; o_reason := None |}.

Definition dailyDuplicateOverrides : Pattern :=
  {| p_id := "rev-o"; p_name := "Daily service"; p_amount := "240.00";
     p_frequency := "daily"; p_startMonth := 1;
     p_kind := RevenueFields (Some "20.00");
     p_isRecurring := Some 1; p_excludeWeekends := Some 0;
     p_excludeHolidays := Some 1; p_daysMask := Some 62;
     p_dayOffOverrides := Some [labourDayOn; labourDayOff]; p_startDate := None |}.

End Scenarios.

(** ** holidays.ts: the queries built on the holiday set *)

Module HolidayQueries.
Import DateKernel Holidays.

Inductive HolidayType := fixed | easter_based | regional.

Record FrenchHoliday := {
  h_name : string;
  h_date : string;
  h_type : HolidayType;
  h_region : option string;
}.

Definition getFrenchHolidaysDetailed (year : Z) (region : string) : list FrenchHoliday :=
  let easter := getEasterSunday year in
  let y := JS.toString year in
  let fixedHolidays :=
    [ {| h_name := "Jour de l'An"; h_date := y ++ "-01-01"; h_type := fixed; h_region := None |};
      {| h_name := "Fête du Travail"; h_date := y ++ "-05-01"; h_type := fixed; h_region := None |};
      {| h_name := "Victoire 1945"; h_date := y ++ "-05-08"; h_type := fixed; h_region := None |};
      {| h_name := "Fête Nationale"; h_date := y ++ "-07-14"; h_type := fixed; h_region := None |};
      {| h_name := "Assomption"; h_date := y ++ "-08-15"; h_type := fixed; h_region := None |};
      {| h_name := "Toussaint"; h_date := y ++ "-11-01"; h_type := fixed; h_region := None |};
      {| h_name := "Armistice"; h_date := y ++ "-11-11"; h_type := fixed; h_region := None |};
      {| h_name := "Noël"; h_date := y ++ "-12-25"; h_type := fixed; h_region := None |} ] in
  let holidays := fixedHolidays in
  let easterBasedHolidays :=
    [ ("Lundi de Pâques", 1); ("Ascension", 39); ("Lundi de Pentecôte", 50) ] in
  let holidays :=
    fold_left
      (fun hs (holiday : string * Z) =>
         (hs ++ [ {| h_name := fst holiday;
                     h_date := formatDateISO (addDays easter (snd holiday));
                     h_type := easter_based; h_region := None |} ])%list)
      easterBasedHolidays holidays in
  let holidays :=
    if isAlsaceMoselle region then
      let goodFriday := addDays easter (-2) in
      (holidays
       ++ [ {| h_name := "Vendredi Saint"; h_date := formatDateISO goodFriday;
               h_type := regional; h_region := Some region |};
            {| h_name := "Saint-Étienne"; h_date := y ++ "-12-26";
               h_type := regional; h_region := Some region |} ])%list
    else holidays in
  JS.sort (fun a b => JS.localeLeb (h_date a) (h_date b)) holidays.

Definition isFrenchHoliday (dateStr : string) (year : Z) (region : string) : bool :=
  let holidays := getFrenchHolidays year region in
  bool_decide (dateStr ∈ holidays).

(** A day that is neither a Saturday, nor a Sunday, nor in [holidays]. *)
Definition isWorkingDay (holidays : gset string) (d : Date) : bool :=
  let dayOfWeek := getDay d in
  let dateStr := formatDateISO d in
  negb (dayOfWeek =? 0) && negb (dayOfWeek =? 6)
  && negb (bool_decide (dateStr ∈ holidays)).

(** The [while (true)] loop of [getNextWorkingDay]; [fuel] bounds the number
    of iterations, [None] meaning that it ran out.  Merging the holidays of a
    new year adds each of them to the set, which is the union. *)
Fixpoint nextWorkingLoop (fuel : nat) (region : string) (year : Z)
         (holidays : gset string) (nextDay : Date) : option Date :=
  match fuel with
  | O => None
  | S fuel' =>
      if isWorkingDay holidays nextDay then Some nextDay
      else
        let nextDay := addDays nextDay 1 in
        let holidays :=
          if negb (getFullYear nextDay =? year)
          then getFrenchHolidays (getFullYear nextDay) region ∪ holidays
          else holidays in
        nextWorkingLoop fuel' region year holidays nextDay
  end.

Definition getNextWorkingDay (fuel : nat) (date : Date) (region : string) : option Date :=
  let nextDay := addDays date 1 in
  let year := getFullYear nextDay in
  let holidays := getFrenchHolidays year region in
  nextWorkingLoop fuel region year holidays nextDay.

(** [for (let year = a; year <= b; year++)]: the years visited. *)
Definition yearsFromTo (a b : Z) : list Z :=
  map (fun k => a + Z.of_nat k) (seq 0 (Z.to_nat (b - a + 1))).

(** The [while (current <= endDate)] loop of [countWorkingDays]. *)
Fixpoint countLoop (fuel : nat) (holidays : gset string) (endDate current : Date)
         (count : Z) : Z :=
  match fuel with
  | O => count
  | S fuel' =>
      if current <=? endDate then
        let count := if isWorkingDay holidays current then count + 1 else count in
        countLoop fuel' holidays endDate (setDate current (getDate current + 1)) count
      else count
  end.

Definition countWorkingDays (startDate endDate : Date) (region : string) : Z :=
  if startDate >? endDate then 0
  else
    let count := 0 in
    let current := startDate in
    let holidays :=
      fold_left (fun hs year => getFrenchHolidays year region ∪ hs)
                (yearsFromTo (getFullYear startDate) (getFullYear endDate))
                (∅ : gset string) in
    countLoop (Z.to_nat ((endDate - current) / 1440 + 1)) holidays endDate current count.

End HolidayQueries.

(** ** occurrences.ts: filtering, grouping and totals *)

Module OccurrenceQueries.
Import Occurrences.

(** [a <= b] on texts compares code units. *)
Definition filterOccurrencesByDateRange (occurrences : list Occurrence)
           (startDate endDate : string) : list Occurrence :=
  List.filter (fun occ => String.leb startDate (date occ) && String.leb (date occ) endDate)
              occurrences.

(** The [Map] from the YYYY-MM prefix of the date to the occurrences. *)
Definition groupOccurrencesByMonth (occurrences : list Occurrence)
  : gmap string (list Occurrence) :=
  fold_left
    (fun (grouped : gmap string (list Occurrence)) occ =>
       let monthKey := JS.substring 0 7 (date occ) in
       let grouped :=
         match grouped !! monthKey with
         | None => <[monthKey := []]> grouped
         | Some _ => grouped
         end in
       <[monthKey := (default [] (grouped !! monthKey) ++ [occ])%list]> grouped)
    occurrences ∅.

Record OccurrenceTotals := {
  totalRevenue : Q;
  totalExpenses : Q;
  netProfit : Q;
  totalVAT : Q;
  deductibleVAT : Q;
  netVAT : Q;
}.

Definition calculateOccurrenceTotals (occurrences : list Occurrence) : OccurrenceTotals :=
  let '(totalRevenue, totalExpenses, collectedVAT, deductibleVAT) :=
    fold_left
      (fun '(totalRevenue, totalExpenses, collectedVAT, deductibleVAT) occ =>
         match type occ with
         | revenue =>
             ((totalRevenue + netAmount occ)%Q, totalExpenses,
              (collectedVAT + vatAmount occ)%Q, deductibleVAT)
         | expense =>
             (totalRevenue, (totalExpenses + netAmount occ)%Q, collectedVAT,
              if default false (vatDeductible occ)
              then (deductibleVAT + vatAmount occ)%Q else deductibleVAT)
         end)
      occurrences (0%Q, 0%Q, 0%Q, 0%Q) in
  {| totalRevenue := totalRevenue;
     totalExpenses := totalExpenses;
     netProfit := totalRevenue - totalExpenses;
     totalVAT := collectedVAT;
     deductibleVAT := deductibleVAT;
     netVAT := collectedVAT - deductibleVAT |}.

End OccurrenceQueries.

(** ** shared/schema.ts: DailyPatternUtils and the refinement of the insert
    schemas *)

Module DailyPatternUtils.

(** The bit operators act on 32-bit integers; on the masks of the schema
    (an integer column) they agree with [Z.land], [Z.lor] and [Z.lnot]. *)
Definition daysMaskToArray (mask : Z) : list Z :=
  List.filter (fun i => negb (Z.land mask (Z.shiftl 1 i) =? 0)) [0; 1; 2; 3; 4; 5; 6].

Definition arrayToDaysMask (days : list Z) : Z :=
  fold_left (fun mask day => Z.lor mask (Z.shiftl 1 day)) days 0.

Definition applyExcludeWeekends (daysMask : Z) (excludeWeekends : bool) : Z :=
  if negb excludeWeekends then daysMask
  else Z.land (Z.land daysMask (Z.lnot (Z.shiftl 1 0))) (Z.lnot (Z.shiftl 1 6)).

Definition requiresDailyFields (frequency : string) : bool :=
  String.eqb frequency "daily".

(** A [Partial<DailyPatternEngine>]: [None] is an absent ([undefined]) field. *)
Record DailyPatternPartial := {
  dp_daysMask : option Z;
  dp_excludeWeekends : option bool;
  dp_excludeHolidays : option bool;
  dp_dayOffOverrides : option (list DayOffOverride);
}.

Definition validateDailyPattern (pattern : DailyPatternPartial) (frequency : string)
  : list string :=
  let isDaily := String.eqb frequency "daily" in
  if isDaily then
    match dp_daysMask pattern with
    | Some m =>
        if (m <? 0) || (m >? 127)
        then ["daysMask is required for daily patterns and must be between 0-127"]
        else []
    | None => ["daysMask is required for daily patterns and must be between 0-127"]
    end
  else
    if match dp_daysMask pattern with Some _ => true | None => false end
       || match dp_dayOffOverrides pattern with
          | Some (_ :: _) => true
          | _ => false
          end
       || match dp_excludeWeekends pattern with Some _ => true | None => false end
       || match dp_excludeHolidays pattern with Some _ => true | None => false end
    then [("Daily pattern fields (daysMask, dayOffOverrides, excludeWeekends, "
           ++ "excludeHolidays) are ignored for " ++ frequency ++ " frequency")%string]
    else [].

(** What the base insert schema hands to the refinement: the frequency, the
    optional mask and flags (numbers 0 or 1), and the override list, which
    defaults to the empty list. *)
Record PatternInsertData := {
  i_frequency : string;
  i_daysMask : option Z;
  i_excludeWeekends : option Z;
  i_excludeHolidays : option Z;
  i_dayOffOverrides : list DayOffOverride;
}.

(** [x === 1] on an optional number. *)
Definition isOne (v : option Z) : bool :=
  match v with Some n => n =? 1 | None => false end.

(** The refinement of [insertRevenuePatternSchema] and of
    [insertExpensePatternSchema]: it throws a [ZodError] carrying the joined
    messages, or returns [true]. *)
Definition dailyFieldsRefinement (data : PatternInsertData) : res bool :=
  let validationErrors :=
    validateDailyPattern
      {| dp_daysMask := i_daysMask data;
         dp_excludeWeekends := Some (isOne (i_excludeWeekends data));
         dp_excludeHolidays := Some (isOne (i_excludeHolidays data));
         dp_dayOffOverrides := Some (i_dayOffOverrides data) |}
      (i_frequency data) in
  match validationErrors with
  | _ :: _ => Err (Engine.join "; " validationErrors)
  | [] => Ok true
  end.

End DailyPatternUtils.

(** ** The ledger between the month loop and the roll-forward *)

Module Ledger.
Import Occurrences Engine.

(** The posting loop of a month: each occurrence applied in turn. *)
Definition applyOccurrences (occurrences : list Occurrence)
           (balanceMap : gmap Account (list MonthlyAccountBalance))
  : res (gmap Account (list MonthlyAccountBalance)) :=
  forEachM (fun balanceMap occurrence => applyOccurrenceToBalances occurrence balanceMap)
           occurrences balanceMap.

(** Every account has twelve buckets, and its bucket of the fiscal start
    month opens at the starting balance. *)
Definition opensAt (sb : Balances) (s : Z)
           (balanceMap : gmap Account (list MonthlyAccountBalance)) : Prop :=
  forall a, exists row mb,
    balanceMap !! a = Some row /\ length row = 12%nat
    /\ row !! Z.to_nat (s - 1) = Some mb
    /\ openingBalance mb = balanceOf sb a.

(** Every account has its row of twelve buckets. *)
Definition rows12 (balanceMap : gmap Account (list MonthlyAccountBalance)) : Prop :=
  forall a, exists row, balanceMap !! a = Some row /\ length row = 12%nat.

(** The bucket of an account and a calendar month. *)
Definition bucket (balanceMap : gmap Account (list MonthlyAccountBalance))
           (a : Account) (m : Z) : option MonthlyAccountBalance :=
  row ← balanceMap !! a; row !! Z.to_nat (m - 1).

(** The net change of the bucket of calendar month [m] in a row. *)
Definition netChangeAt (row : list MonthlyAccountBalance) (m : Z) : Q :=
  match row !! Z.to_nat (m - 1) with
  | Some mb => netChange (summary mb)
  | None => 0
  end.

(** A balance rolled through the months of the fiscal year in order, as
    [finalizeBalances] does: each month adds its net change. *)
Definition rolledBalance (row : list MonthlyAccountBalance) (fiscalStartMonth : Z)
           (startingBalance : Q) : Q :=
  fold_left (fun balance m => (balance + netChangeAt row m)%Q)
            (getFiscalMonthOrder fiscalStartMonth) startingBalance.

(** A transaction of a positive amount is a debit, any other a credit. *)
Definition isDebit (t : TransactionRecord) : bool := Qgtb (t_amount t) 0.
Definition isCredit (t : TransactionRecord) : bool := negb (isDebit t).

(** The three counters of a bucket against its transactions: each is the
    sum, in posting order, that [applyOccurrenceToBalances] accumulates. *)
Definition bookkept (mb : MonthlyAccountBalance) : Prop :=
  totalDebits (summary mb)
  = reduceSum t_amount (List.filter isDebit (transactions mb))
  /\ totalCredits (summary mb)
     = reduceSum (fun t => Qabs (t_amount t)) (List.filter isCredit (transactions mb))
  /\ netChange (summary mb) = reduceSum t_amount (transactions mb).

(** A property of every bucket of a ledger. *)
Definition allBuckets (P : MonthlyAccountBalance -> Prop)
           (balanceMap : gmap Account (list MonthlyAccountBalance)) : Prop :=
  forall a row mb, balanceMap !! a = Some row -> In mb row -> P mb.

(** The amounts an occurrence posts to an account, in posting order. *)
Definition postedTo (a : Account) (occurrence : Occurrence) : list Q :=
  map amount (List.filter (fun p => bool_decide (account p = a))
                          (accountPostings occurrence)).

End Ledger.

(** ** Checks over a range of integers *)

Module Bounded.

(** [P] holds of the [n] integers from [z] on. *)
Fixpoint forallFrom (P : Z -> bool) (n : nat) (z : Z) : bool :=
  match n with
  | O => true
  | S n' => P z && forallFrom P n' (z + 1)
  end.

End Bounded.

(** ** Bounded checks of the holiday calendar *)

Module HolidayChecks.
Import DateKernel Holidays HolidayQueries.

(** [e] is midnight of the [n]-th day counted from March 1, the day
    numbered [march1]; that day is one from March 22 to April 25 and a
    Sunday (day 0 was a Thursday). *)
Definition easterAgrees (e : Date) (march1 n : Z) : bool :=
  (e =? (march1 + (n - 1)) * 1440) && (22 <=? n) && (n <=? 56)
  && ((march1 + (n - 1) + 4) mod 7 =? 0).

(** A working day with respect to the holidays of its own year. *)
Definition workingDay (region : string) (d : Date) : bool :=
  isWorkingDay (getFrenchHolidays (getFullYear d) region) d.

(** The holiday dates of a year as a list; [am] tells whether the region
    is one of Alsace-Moselle. *)
Definition holidayList (year : Z) (am : bool) : list string :=
  if am then Reference.alsaceMoselleHolidays year else Reference.nationalHolidays year.

(** [isWorkingDay] on a list of holiday dates. *)
Definition workingL (l : list string) (d : Date) : bool :=
  negb (getDay d =? 0) && negb (getDay d =? 6)
  && negb (existsb (String.eqb (formatDateISO d)) l).

(** The loop of [getNextWorkingDay] on lists of holiday dates. *)
Fixpoint nextWorkingLoopL (fuel : nat) (am : bool) (year : Z) (l : list string)
         (nextDay : Date) : option Date :=
  match fuel with
  | O => None
  | S fuel' =>
      if workingL l nextDay then Some nextDay
      else
        let nextDay := nextDay + 1440 in
        let l :=
          if negb (getFullYear nextDay =? year)
          then (holidayList (getFullYear nextDay) am ++ l)%list
          else l in
        nextWorkingLoopL fuel' am year l nextDay
  end.

(** The first working day, with respect to the holidays of its own year,
    among [n] days, the first candidate being [j] days after [d]. *)
Fixpoint firstWorkingAfter (am : bool) (d : Date) (n : nat) (j : Z) : option Date :=
  match n with
  | O => None
  | S n' =>
      if workingL (holidayList (getFullYear (d + 1440 * j)) am) (d + 1440 * j)
      then Some (d + 1440 * j)
      else firstWorkingAfter am d n' (j + 1)
  end.

(** The holidays of a year as day numbers, in the order of
    [holidayList]. *)
Definition holidayDays (year : Z) (am : bool) : list Z :=
  let easter := dayOf (getEasterSunday year) in
  ([ dayOf (mkDate year 0 1); dayOf (mkDate year 4 1); dayOf (mkDate year 4 8);
     dayOf (mkDate year 6 14); dayOf (mkDate year 7 15); dayOf (mkDate year 10 1);
     dayOf (mkDate year 10 11); dayOf (mkDate year 11 25);
     easter + 1; easter + 39; easter + 50 ]
   ++ if am then [easter - 2; dayOf (mkDate year 11 26)] else [])%list.

(** [workingL] on day numbers: [k] is the day, [hs] the holidays. *)
Definition workingZ (hs : list Z) (k : Z) : bool :=
  negb (getDay (1440 * k) =? 0) && negb (getDay (1440 * k) =? 6)
  && negb (existsb (Z.eqb k) hs).

(** The first of [n] days, from [j] days after day [k] on, that is a working
    day with respect to the holidays [h] gives for it, as an offset. *)
Fixpoint firstWorkingH (h : Z -> list Z) (k : Z) (n : nat) (j : Z) : option Z :=
  match n with
  | O => None
  | S n' =>
      if workingZ (h (k + j)) (k + j) then Some j
      else firstWorkingH h k n' (j + 1)
  end.

(** The same with the holidays of the year of each day. *)
Definition firstWorkingZ (am : bool) : Z -> nat -> Z -> option Z :=
  firstWorkingH (fun c => holidayDays (getFullYear (1440 * c)) am).

(** The years the engine accepts, each with its first day, its last day
    and its holidays, and the holidays of the year a day falls in. *)
Definition validatedYears : list Z :=
  [2020; 2021; 2022; 2023; 2024; 2025; 2026; 2027; 2028; 2029; 2030].

Definition yearSpan (am : bool) (year : Z) : Z * Z * list Z :=
  (dayOf (mkDate year 0 1), dayOf (mkDate year 11 31), holidayDays year am).

Definition holidaysOn (table : list (Z * Z * list Z)) (c : Z) : list Z :=
  match List.find (fun e => (fst (fst e) <=? c) && (c <=? snd (fst e))) table with
  | Some e => snd e
  | None => []
  end.

(** A working day is found among the five days after each of the [n] days
    from [k] on. *)
Definition workingWithinFive (am : bool) (n : nat) (k : Z) : bool :=
  let table := map (yearSpan am) validatedYears in
  Bounded.forallFrom
    (fun k => match firstWorkingH (holidaysOn table) k 5 1 with
              | Some _ => true
              | None => false
              end) n k.

(** Both are the same date. *)
Definition sameDate (a b : option Date) : bool :=
  match a, b with
  | Some d, Some d' => d =? d'
  | _, _ => false
  end.

End HolidayChecks.

(** ** Further concrete inputs *)

Module MoreScenarios.
Import Occurrences.

(** A Monday-to-Friday daily pattern that skips weekends and holidays. *)
Definition workweekDaily : Pattern :=
  {| p_id := "rev-w"; p_name := "Workweek service"; p_amount := "300.00";
     p_frequency := "daily"; p_startMonth := 1;
     p_kind := RevenueFields (Some "20.00");
     p_isRecurring := Some 1; p_excludeWeekends := Some 1;
     p_excludeHolidays := Some 1; p_daysMask := Some 62;
     p_dayOffOverrides := Some []; p_startDate := None |}.

(** The monthly summary of a March with one sale of 120 and one purchase
    of 60, both at 20%. *)
Definition marchSummary : Engine.MonthlySummary :=
  {| Engine.ms_month := 3; Engine.monthName := "March";
     Engine.ms_revenue := {| Engine.gross := 120; Engine.net := 100; Engine.vatTotal := 20 |};
     Engine.ms_expenses :=
       {| Engine.e_gross := 60; Engine.e_net := 50; Engine.e_vat := 10;
          Engine.deductibleVat := 10 |};
     Engine.ms_netProfit := 50; Engine.netVatPosition := 10;
     Engine.accountBalances := Engine.zeroBalances |}.

End MoreScenarios.

(** ** summarizer.ts: helpers of the financial report *)

Module Summarizer.
Import Engine.

Inductive Trend := increasing | decreasing | stable.

(** [values.slice(1).reduce((count, val, i) => count + (val > values[i] ? 1 : 0), 0)]:
    [i] is the index in the slice, so [values[i]] is the value before [val];
    a comparison with [undefined] is false. *)
Definition countIncreases (values : list Q) : Z :=
  fold_left
    (fun count (iv : nat * Q) =>
       count + match values !! fst iv with
               | Some previous => if Qgtb (snd iv) previous then 1 else 0
               | None => 0
               end)
    (imap (fun i val => (i, val)) (tail values)) 0.

Definition calculateTrend (values : list Q) : Trend :=
  if (length values <? 2)%nat then stable
  else
    let increases := countIncreases values in
    let total := Z.of_nat (length values) - 1 in
    if Qgtb (inject_Z increases / inject_Z total) 0.6 then increasing
    else if Qgtb 0.4 (inject_Z increases / inject_Z total) then decreasing
    else stable.

Record QuarterlyVAT := {
  quarter : Z;
  months : list Z;
  collected : Q;
  deductible : Q;
  netPosition : Q;
  dueDate : string;
}.

(** The loop over the four quarters; reading [monthlyTotals[0].month] of an
    empty list throws a TypeError. *)
Definition generateQuarterlyVAT (monthlyTotals : list MonthlySummary)
  : res (list QuarterlyVAT) :=
  forEachM
    (fun quarters q =>
       let quarterMonths := [q * 3 - 2; q * 3 - 1; q * 3] in
       let quarterData :=
         List.filter (fun m => existsb (Z.eqb (ms_month m)) quarterMonths) monthlyTotals in
       let collected := reduceSum (fun m => vatTotal (ms_revenue m)) quarterData in
       let deductible := reduceSum (fun m => deductibleVat (ms_expenses m)) quarterData in
       let dueMonth := q * 3 + 1 in
       let dueDateMonth := if dueMonth >? 12 then dueMonth - 12 else dueMonth in
       match head monthlyTotals with
       | None => Err "Cannot read properties of undefined (reading 'month')"
       | Some first =>
           let dueYear := if dueMonth >? 12 then ms_month first + 1 else ms_month first in
           Ok (quarters
               ++ [ {| quarter := q;
                       months := quarterMonths;
                       collected := collected;
                       deductible := deductible;
                       netPosition := collected - deductible;
                       dueDate := JS.toString dueYear ++ "-"
                                  ++ JS.padStart2 (JS.toString dueDateMonth) ++ "-19" |} ])%list
       end)
    [1; 2; 3; 4] [].

End Summarizer.

(** * Properties *)

Import DateKernel Holidays Occurrences Engine Reference Scenarios.
Import Ledger HolidayQueries DailyPatternUtils Bounded HolidayChecks MoreScenarios Summarizer.

(** ** Holiday calendar *)

Lemma addDays_shift (t n : Z) : addDays t n = t + 1440 * n.
Proof. unfold addDays, setDate, Date. lia. Qed.

Lemma isAlsaceMoselle_false region :
  region <> "FR-67" -> region <> "FR-68" -> region <> "FR-57" ->
  isAlsaceMoselle region = false.
Proof.
  intros H1 H2 H3. unfold isAlsaceMoselle.
  apply String.eqb_neq in H1, H2, H3. rewrite H1, H2, H3. reflexivity.
Qed.

Lemma isAlsaceMoselle_true region :
  region = "FR-67" \/ region = "FR-68" \/ region = "FR-57" ->
  isAlsaceMoselle region = true.
Proof. intros [-> | [-> | ->]]; reflexivity. Qed.

Lemma holidays_national year region :
  isAlsaceMoselle region = false ->
  getFrenchHolidays year region = list_to_set (nationalHolidays year).
Proof.
  intros Hr. unfold getFrenchHolidays. rewrite Hr.
  unfold nationalHolidays, fixedHolidays, easterBasedHolidays.
  cbn [fold_left list_to_set].
  rewrite !addDays_shift. unfold add. apply set_eq. intros x.
  rewrite !elem_of_union, !elem_of_singleton, !elem_of_empty. tauto.
Qed.

Lemma holidays_regional year region :
  isAlsaceMoselle region = true ->
  getFrenchHolidays year region = list_to_set (alsaceMoselleHolidays year).
Proof.
  intros Hr. unfold getFrenchHolidays. rewrite Hr.
  unfold alsaceMoselleHolidays, nationalHolidays, fixedHolidays, easterBasedHolidays.
  cbn [fold_left list_to_set app].
  rewrite !addDays_shift. unfold add. apply set_eq. intros x.
  rewrite !elem_of_union, !elem_of_singleton, !elem_of_empty. tauto.
Qed.

Lemma validated_year_cases (year : Z) :
  2020 <= year <= 2030 ->
  In year [2020; 2021; 2022; 2023; 2024; 2025; 2026; 2027; 2028; 2029; 2030].
Proof. intros H. simpl. lia. Qed.

Lemma forallFrom_spec (P : Z -> bool) (n : nat) (z : Z) :
  forallFrom P n z = true -> forall k, z <= k < z + Z.of_nat n -> P k = true.
Proof.
  revert z. induction n as [| n IH]; intros z H k Hk; [lia |].
  cbn [forallFrom] in H. apply andb_true_iff in H as [H0 H1].
  destruct (Z.eq_dec k z) as [-> | Hne]; [exact H0 |].
  apply (IH (z + 1) H1). lia.
Qed.

Lemma In_by_eqb (s : string) (l : list string) :
  existsb (String.eqb s) l = true -> In s l.
Proof.
  intros H. apply existsb_exists in H as (x & Hin & Hx).
  apply String.eqb_eq in Hx. subst x. exact Hin.
Qed.

(** The dates of the calendar against those of [formatDateISO]. *)

Lemma civil_from_march (year j : Z) :
  0 <= j <= 121 ->
  civilFromDays (daysFromCivil year 3 1 + j)
  = (year, fst (marchDay (j + 1)), snd (marchDay (j + 1))).
Proof.
  intros Hj. unfold daysFromCivil. cbv zeta.
  change (3 <=? 2) with false. cbv iota.
  change ((3 + 9) mod 12) with 0. change ((153 * 0 + 2) / 5 + 1 - 1) with 0.
  set (era := year / 400). set (yoe := year - era * 400).
  assert (Hyoe : 0 <= yoe <= 399) by (subst yoe era; Z.to_euclidean_division_equations; lia).
  assert (Hyear : year = yoe + era * 400) by (subst yoe; lia).
  clearbody yoe era. subst year.
  unfold civilFromDays. cbv zeta.
  set (S := yoe * 365 + yoe / 4 - yoe / 100 + 0).
  assert (HS : 0 <= S <= 145731) by (subst S; Z.to_euclidean_division_equations; lia).
  replace (era * 146097 + S - 719468 + j + 719468) with (S + j + era * 146097) by lia.
  rewrite Z.div_add by lia. rewrite (Z.div_small (S + j)) by lia.
  replace (S + j + era * 146097 - (0 + era) * 146097) with (S + j) by lia.
  assert (Hy : (S + j - (S + j) / 1460 + (S + j) / 36524 - (S + j) / 146096) / 365 = yoe).
  { subst S. Z.to_euclidean_division_equations. lia. }
  rewrite Hy.
  replace (S + j - (365 * yoe + yoe / 4 - yoe / 100)) with j by (subst S; lia).
  clear Hy HS. clearbody S.
  assert (Hmp : (5 * j + 2) / 153 < 10) by (Z.to_euclidean_division_equations; lia).
  apply Z.ltb_lt in Hmp. rewrite Hmp.
  assert (Hm : ((5 * j + 2) / 153 + 3 <=? 2) = false)
    by (apply Z.leb_gt; Z.to_euclidean_division_equations; lia).
  rewrite Hm. unfold marchDay.
  f_equal; [f_equal |].
  - repeat (destruct (_ <=? _) eqn:?; rewrite ?Z.leb_le, ?Z.leb_gt in *); cbn [fst];
      Z.to_euclidean_division_equations; lia.
  - repeat (destruct (_ <=? _) eqn:?; rewrite ?Z.leb_le, ?Z.leb_gt in *); cbn [snd];
      Z.to_euclidean_division_equations; lia.
Qed.

Lemma twoDigits_pad (n : Z) :
  0 <= n <= 99 -> JS.padStart2 (JS.toString n) = twoDigits n.
Proof.
  intros Hn. apply String.eqb_eq.
  apply (forallFrom_spec (fun n => String.eqb (JS.padStart2 (JS.toString n)) (twoDigits n))
                         100 0); [vm_compute; reflexivity | lia].
Qed.

Lemma format_from_march (year j : Z) :
  0 <= j <= 121 ->
  formatDateISO ((daysFromCivil year 3 1 + j) * 1440) = isoDate year (marchDay (j + 1)).
Proof.
  intros Hj. unfold formatDateISO, getFullYear, getMonth, getDate, dayOf.
  rewrite Z.div_mul by lia. rewrite (civil_from_march year j Hj). cbn [fst snd].
  unfold isoDate.
  assert (Hr : 3 <= fst (marchDay (j + 1)) <= 6 /\ 1 <= snd (marchDay (j + 1)) <= 31).
  { unfold marchDay.
    repeat (destruct (_ <=? _) eqn:?; rewrite ?Z.leb_le, ?Z.leb_gt in *); cbn [fst snd]; lia. }
  replace (fst (marchDay (j + 1)) - 1 + 1) with (fst (marchDay (j + 1))) by lia.
  rewrite !twoDigits_pad by lia. reflexivity.
Qed.

(** Easter Sunday as [getEasterSunday] computes it is the Easter Sunday of
    the calendar, for the Gregorian years of four digits; it is a day from
    March 22 to April 25 and a Sunday. *)
Lemma easter_checked (year : Z) :
  1583 <= year <= 9999 ->
  getEasterSunday year = (daysFromCivil year 3 1 + (easterMarchDay year - 1)) * 1440
  /\ 22 <= easterMarchDay year <= 56
  /\ (daysFromCivil year 3 1 + (easterMarchDay year - 1) + 4) mod 7 = 0.
Proof.
  intros Hy.
  assert (H : easterAgrees (getEasterSunday year) (daysFromCivil year 3 1)
                           (easterMarchDay year) = true).
  { apply (forallFrom_spec
             (fun y => easterAgrees (getEasterSunday y) (daysFromCivil y 3 1)
                                    (easterMarchDay y))
             (Z.to_nat 8417) 1583); [vm_cast_no_check (eq_refl true) |].
    rewrite Z2Nat.id by lia. lia. }
  revert H. generalize (getEasterSunday year) (daysFromCivil year 3 1) (easterMarchDay year).
  intros e march1 n H. unfold easterAgrees in H.
  rewrite !andb_true_iff in H. destruct H as [[[H1 H2] H3] H4].
  apply Z.eqb_eq in H1, H4. apply Z.leb_le in H2, H3. tauto.
Qed.

(** Easter Sunday of the years 2020 to 2030, as month and day. *)
Lemma easterMarchDay_2020_2030 :
  map (fun year => marchDay (easterMarchDay year)) validatedYears
  = [(4, 12); (4, 4); (4, 17); (4, 9); (3, 31); (4, 20); (4, 5); (3, 28); (4, 16);
     (4, 1); (4, 21)].
Proof. vm_compute. reflexivity. Qed.

Lemma easter_holiday_text (year k : Z) :
  1583 <= year <= 9999 -> -2 <= k <= 50 ->
  formatDateISO (getEasterSunday year + 1440 * k)
  = isoDate year (marchDay (easterMarchDay year + k)).
Proof.
  intros Hy Hk. destruct (easter_checked year Hy) as (-> & He & _).
  replace ((daysFromCivil year 3 1 + (easterMarchDay year - 1)) * 1440 + 1440 * k)
    with ((daysFromCivil year 3 1 + (easterMarchDay year - 1 + k)) * 1440) by lia.
  rewrite format_from_march by lia. f_equal. f_equal. lia.
Qed.

Lemma nationalHolidays_dates (year : Z) :
  1583 <= year <= 9999 -> nationalHolidays year = nationalDates year.
Proof.
  intros Hy. unfold nationalHolidays, nationalDates. cbv zeta.
  rewrite !(easter_holiday_text year) by lia. reflexivity.
Qed.

Lemma alsaceMoselleHolidays_dates (year : Z) :
  1583 <= year <= 9999 -> alsaceMoselleHolidays year = alsaceMoselleDates year.
Proof.
  intros Hy. unfold alsaceMoselleHolidays, alsaceMoselleDates.
  rewrite (nationalHolidays_dates year Hy).
  rewrite (easter_holiday_text year (-2)) by lia. reflexivity.
Qed.

Lemma alsaceMoselleDates_distinct year :
  2020 <= year <= 2030 -> NoDup (alsaceMoselleDates year).
Proof.
  intros Hy. apply validated_year_cases in Hy. simpl in Hy.
  repeat (destruct Hy as [<- | Hy];
          [apply (bool_decide_unpack _); vm_compute; reflexivity |]).
  contradiction.
Qed.

(** C7 (amended). For every Gregorian year of four digits (1583 to
    9999), [getFrenchHolidays] returns exactly the set of the eleven
    national holiday dates of that year (January 1, May 1, May 8, July 14,
    August 15, November 1, November 11, December 25, Easter Monday,
    Ascension Thursday and Whit Monday, Easter being that of the calendar)
    for every region code other than FR-67, FR-68 and FR-57, unknown codes
    included, and exactly those plus Good Friday and December 26 for FR-67,
    FR-68 and FR-57.  The function is total, so no region raises an error.
    For the years the engine accepts (2020..2030) the thirteen dates are
    pairwise distinct. *)
Theorem getFrenchHolidays_by_region (year : Z) (region : string) :
  1583 <= year <= 9999 ->
  (region <> "FR-67" -> region <> "FR-68" -> region <> "FR-57" ->
   getFrenchHolidays year region = list_to_set (nationalDates year))
  /\ (region = "FR-67" \/ region = "FR-68" \/ region = "FR-57" ->
      getFrenchHolidays year region = list_to_set (alsaceMoselleDates year))
  /\ (2020 <= year <= 2030 -> NoDup (alsaceMoselleDates year)).
Proof.
  intros Hy. split; [| split].
  - intros H1 H2 H3. rewrite <- (nationalHolidays_dates year Hy).
    apply holidays_national, isAlsaceMoselle_false; assumption.
  - intros H. rewrite <- (alsaceMoselleHolidays_dates year Hy).
    apply holidays_regional, isAlsaceMoselle_true; assumption.
  - apply alsaceMoselleDates_distinct.
Qed.

Lemma getFrenchHolidays_by_region_witness :
  getFrenchHolidays 2024 "FR-99"
  = list_to_set ["2024-01-01"; "2024-05-01"; "2024-05-08"; "2024-07-14"; "2024-08-15";
                 "2024-11-01"; "2024-11-11"; "2024-12-25";
                 "2024-04-01"; "2024-05-09"; "2024-05-20"]
  /\ getFrenchHolidays 2024 "FR-67"
     = list_to_set ["2024-01-01"; "2024-05-01"; "2024-05-08"; "2024-07-14"; "2024-08-15";
                    "2024-11-01"; "2024-11-11"; "2024-12-25";
                    "2024-04-01"; "2024-05-09"; "2024-05-20";
                    "2024-03-29"; "2024-12-26"]
  /\ NoDup ["2024-01-01"; "2024-05-01"; "2024-05-08"; "2024-07-14"; "2024-08-15";
            "2024-11-01"; "2024-11-11"; "2024-12-25";
            "2024-04-01"; "2024-05-09"; "2024-05-20";
            "2024-03-29"; "2024-12-26"].
Proof.
  assert (N : nationalDates 2024
              = ["2024-01-01"; "2024-05-01"; "2024-05-08"; "2024-07-14"; "2024-08-15";
                 "2024-11-01"; "2024-11-11"; "2024-12-25";
                 "2024-04-01"; "2024-05-09"; "2024-05-20"])
    by (vm_compute; reflexivity).
  assert (A : alsaceMoselleDates 2024
              = ["2024-01-01"; "2024-05-01"; "2024-05-08"; "2024-07-14"; "2024-08-15";
                 "2024-11-01"; "2024-11-11"; "2024-12-25";
                 "2024-04-01"; "2024-05-09"; "2024-05-20";
                 "2024-03-29"; "2024-12-26"])
    by (vm_compute; reflexivity).
  rewrite <- N, <- A.
  split; [| split].
  - apply (proj1 (getFrenchHolidays_by_region 2024 "FR-99" ltac:(lia))); discriminate.
  - apply (proj1 (proj2 (getFrenchHolidays_by_region 2024 "FR-67" ltac:(lia)))).
    left; reflexivity.
  - apply (proj2 (proj2 (getFrenchHolidays_by_region 2024 "FR" ltac:(lia)))). lia.
Defined.

(** C7 fails as stated: a year from 0 to 99 is read by the Date
    constructor as 1900 + year, so for the year 50 the three Easter-based
    dates are dated 1950 while the fixed dates are dated 50, and the result
    is not the set of the holidays of the year 50. *)
Lemma getFrenchHolidays_two_digit_year :
  getFrenchHolidays 50 "FR"
  = list_to_set ["50-01-01"; "50-05-01"; "50-05-08"; "50-07-14"; "50-08-15";
                 "50-11-01"; "50-11-11"; "50-12-25";
                 "1950-03-28"; "1950-05-05"; "1950-05-16"]
  /\ getFrenchHolidays 50 "FR" <> list_to_set (nationalDates 50).
Proof.
  assert (E : getFrenchHolidays 50 "FR"
              = list_to_set ["50-01-01"; "50-05-01"; "50-05-08"; "50-07-14"; "50-08-15";
                             "50-11-01"; "50-11-11"; "50-12-25";
                             "1950-03-28"; "1950-05-05"; "1950-05-16"]).
  { rewrite (holidays_national 50 "FR" eq_refl). f_equal; vm_compute; reflexivity. }
  split; [exact E |].
  intros H. rewrite E in H.
  assert (Hin : "1950-03-28" ∈ (list_to_set (nationalDates 50) : gset string)).
  { rewrite <- H. apply elem_of_list_to_set, list_elem_of_In.
    apply In_by_eqb. vm_compute. reflexivity. }
  apply elem_of_list_to_set, list_elem_of_In in Hin.
  vm_compute in Hin. intuition discriminate.
Qed.

(** ** VAT split and postings *)

Lemma Qgtb_true_iff (x y : Q) : Qgtb x y = true <-> (y < x)%Q.
Proof.
  unfold Qgtb. rewrite negb_true_iff.
  destruct (Qle_bool x y) eqn:E.
  - apply Qle_bool_iff in E. split; [discriminate | intros H; lra].
  - split; [intros _ | reflexivity].
    apply Qnot_le_lt. intros H. apply Qle_bool_iff in H. congruence.
Qed.

Lemma Qgtb_false_iff (x y : Q) : Qgtb x y = false <-> (x <= y)%Q.
Proof.
  unfold Qgtb. rewrite negb_false_iff. apply Qle_bool_iff.
Qed.

Lemma createOccurrence_postings pattern company d :
  accountPostings (createOccurrence pattern company d) =
  match type (createOccurrence pattern company d) with
  | revenue => generateRevenuePostings (createOccurrence pattern company d)
  | expense => generateExpensePostings (createOccurrence pattern company d)
  end.
Proof.
  unfold createOccurrence. destruct (p_kind pattern) as [[r|]|c dd]; cbn; reflexivity.
Qed.

(** C6. The postings generated for an occurrence are exactly: for a revenue
    occurrence, operating +net then vat +VAT; for an expense occurrence,
    operating -net alone unless the expense is VAT-deductible with a positive
    VAT amount, in which case vat -VAT follows.  Every occurrence built by
    [createOccurrence] carries the postings of its kind. *)
Theorem postings_exact :
  (forall o, map entry (generateRevenuePostings o)
             = [(operating, netAmount o); (vat, vatAmount o)])
  /\ (forall o, vatDeductible o = Some true -> (0 < vatAmount o)%Q ->
        map entry (generateExpensePostings o)
        = [(operating, (- netAmount o)%Q); (vat, (- vatAmount o)%Q)])
  /\ (forall o, ~ (vatDeductible o = Some true /\ (0 < vatAmount o)%Q) ->
        map entry (generateExpensePostings o) = [(operating, (- netAmount o)%Q)])
  /\ (forall pattern company d,
        let o := createOccurrence pattern company d in
        accountPostings o = match type o with
                            | revenue => generateRevenuePostings o
                            | expense => generateExpensePostings o
                            end).
Proof.
  repeat split.
  - intros o Hd Hv. unfold generateExpensePostings.
    rewrite Hd. cbn [default].
    apply Qgtb_true_iff in Hv. rewrite Hv. reflexivity.
  - intros o Hn. unfold generateExpensePostings.
    destruct (vatDeductible o) as [[|]|]; cbn [default andb]; try reflexivity.
    destruct (Qgtb (vatAmount o) 0) eqn:E; [| reflexivity].
    exfalso. apply Hn. split; [reflexivity | apply Qgtb_true_iff; exact E].
  - intros. apply createOccurrence_postings.
Qed.

(** ** Daily expansion *)


Lemma nextDay_shift (t : Date) : setDate t (getDate t + 1) = t + 1440.
Proof. unfold setDate, Date. lia. Qed.

Lemma dailyLoop_candidates fuel pattern company holidays endDate :
  forall currentDate occurrences,
    dailyLoop fuel pattern company holidays endDate currentDate occurrences
    = (occurrences
       ++ map (createOccurrence pattern company)
              (List.filter (fun t => isDateActive t pattern holidays)
                           (dailyCandidates fuel endDate currentDate)))%list.
Proof.
  induction fuel as [| fuel IH]; intros cur occs; cbn [dailyLoop dailyCandidates].
  - rewrite app_nil_r. reflexivity.
  - destruct (cur <=? endDate); [| rewrite app_nil_r; reflexivity].
    rewrite IH. cbn [List.filter].
    destruct (isDateActive cur pattern holidays); cbn [map].
    + rewrite <- app_assoc. reflexivity.
    + reflexivity.
Qed.

Lemma dailyCandidates_shift fuel endDate :
  forall cur,
    (Z.of_nat fuel <= (endDate - cur) / 1440 + 1) ->
    dailyCandidates fuel endDate cur
    = map (fun k => cur + 1440 * Z.of_nat k) (seq 0 fuel).
Proof.
  induction fuel as [| fuel IH]; intros cur Hf; [reflexivity |].
  cbn [dailyCandidates].
  assert (Hle : cur <= endDate).
  { assert (0 <= (endDate - cur) / 1440) by lia.
    destruct (Z_le_gt_dec cur endDate) as [|Hgt]; [assumption |].
    assert ((endDate - cur) / 1440 < 0) by (apply Z.div_lt_upper_bound; lia). lia. }
  apply Z.leb_le in Hle. rewrite Hle. rewrite nextDay_shift.
  cbn [seq map]. f_equal; [unfold Date; lia |].
  rewrite IH.
  - rewrite <- seq_shift, map_map. apply map_ext. intros k. unfold Date. lia.
  - replace (endDate - (cur + 1440)) with ((endDate - cur) + (-1) * 1440) by (unfold Date; lia).
    rewrite Z.div_add by lia. lia.
Qed.

Lemma dailyCandidates_window endDate cur :
  dailyCandidates (dailyFuel endDate cur) endDate cur = daysFromTo cur endDate.
Proof.
  unfold daysFromTo, dailyFuel.
  destruct (Z_le_gt_dec 0 ((endDate - cur) / 1440 + 1)) as [Hp | Hn].
  - apply dailyCandidates_shift. rewrite Z2Nat.id; lia.
  - replace (Z.to_nat ((endDate - cur) / 1440 + 1)) with 0%nat by lia. reflexivity.
Qed.

(** The loop stops by its guard: more fuel visits no further date. *)
Lemma dailyCandidates_fuel_enough endDate cur extra :
  dailyCandidates (dailyFuel endDate cur + extra) endDate cur
  = dailyCandidates (dailyFuel endDate cur) endDate cur.
Proof.
  unfold dailyFuel.
  remember (Z.to_nat ((endDate - cur) / 1440 + 1)) as n eqn:Hn.
  revert cur Hn. induction n as [| n IH]; intros cur Hn.
  - cbn [Nat.add]. destruct extra; [reflexivity |]. cbn [dailyCandidates].
    assert (Hgt : endDate < cur).
    { destruct (Z_lt_le_dec endDate cur); [assumption |].
      assert (0 <= (endDate - cur) / 1440) by (apply Z.div_pos; lia). lia. }
    apply Z.leb_gt in Hgt. rewrite Hgt. reflexivity.
  - cbn [Nat.add dailyCandidates]. destruct (cur <=? endDate); [| reflexivity].
    f_equal. rewrite nextDay_shift. apply IH.
    replace (endDate - (cur + 1440)) with ((endDate - cur) + (-1) * 1440) by (unfold Date; lia).
    rewrite Z.div_add by lia. lia.
Qed.

Lemma expandDailyPattern_window tz pattern company year holidays :
  expandDailyPattern tz pattern company year holidays
  = map (createOccurrence pattern company)
        (List.filter (fun t => isDateActive t pattern holidays)
                     (dailyWindow tz pattern year)).
Proof.
  unfold expandDailyPattern, dailyWindow.
  destruct (if truthyText (p_startDate pattern) then _ else _) as [startDate|];
    [| reflexivity].
  destruct (getFullYear (if getFullYear startDate <? year then _ else _) >? year);
    [reflexivity |].
  rewrite dailyLoop_candidates, dailyCandidates_window. reflexivity.
Qed.

Lemma createOccurrence_date pattern company d :
  date (createOccurrence pattern company d) = formatDateISO d.
Proof.
  unfold createOccurrence. destruct (p_kind pattern) as [[r|]|c dd]; reflexivity.
Qed.

Lemma findOverride_first dateStr pre o post :
  o_date o = dateStr ->
  (forall o', In o' pre -> o_date o' <> dateStr) ->
  findOverride dateStr (pre ++ o :: post) = Some o.
Proof.
  intros Ho Hpre. unfold findOverride.
  induction pre as [| x pre IH]; cbn [app List.find].
  - rewrite Ho, String.eqb_refl. reflexivity.
  - assert (Hx : o_date x <> dateStr) by (apply Hpre; left; reflexivity).
    apply String.eqb_neq in Hx. rewrite Hx.
    apply IH. intros o' Ho'. apply Hpre. right. exact Ho'.
Qed.

Lemma isDateActive_override t pattern holidays overrides o :
  p_dayOffOverrides pattern = Some overrides ->
  findOverride (formatDateISO t) overrides = Some o ->
  isDateActive t pattern holidays = o_active o.
Proof.
  intros Hp Hf. unfold isDateActive. rewrite Hp, Hf. reflexivity.
Qed.

(** C3 (amended). When the override list of a daily pattern holds several
    entries for one date, the verdict of the expander for that date is the
    active flag of the first such entry: duplicates are resolved in favour of
    the first.  For a date of the expansion window, an occurrence is produced
    on it if and only if that first entry is active. *)
Theorem override_first_wins tz pattern company year holidays overrides pre o post t :
  p_dayOffOverrides pattern = Some overrides ->
  overrides = (pre ++ o :: post)%list ->
  o_date o = formatDateISO t ->
  (forall o', In o' pre -> o_date o' <> formatDateISO t) ->
  isDateActive t pattern holidays = o_active o
  /\ (In t (dailyWindow tz pattern year) ->
      ((exists occ, In occ (expandDailyPattern tz pattern company year holidays)
                    /\ date occ = formatDateISO t)
       <-> o_active o = true)).
Proof.
  intros Hp -> Ho Hpre.
  assert (Hfind : forall t', formatDateISO t' = formatDateISO t ->
                             isDateActive t' pattern holidays = o_active o).
  { intros t' Ht'. apply (isDateActive_override _ _ _ _ _ Hp).
    rewrite Ht'. apply findOverride_first; assumption. }
  split; [apply Hfind; reflexivity |].
  intros Hw. rewrite expandDailyPattern_window. split.
  - intros (occ & Hin & Hd). apply in_map_iff in Hin as (t' & <- & Hin).
    apply filter_In in Hin as [_ Hact].
    rewrite createOccurrence_date in Hd. rewrite <- (Hfind t' Hd). exact Hact.
  - intros Hact. exists (createOccurrence pattern company t). split.
    + apply in_map. apply filter_In. split; [exact Hw |].
      rewrite (Hfind t eq_refl). exact Hact.
    + apply createOccurrence_date.
Qed.

(** C3 fails as stated: with the overrides (2024-05-01, active) then
    (2024-05-01, inactive), the last entry is inactive, yet the date is
    active and an occurrence is produced on it. *)
Lemma override_last_loses :
  let t := mkDate 2024 4 1 in
  let holidays := getFrenchHolidays 2024 "FR" in
  p_frequency dailyDuplicateOverrides = "daily"
  /\ p_dayOffOverrides dailyDuplicateOverrides = Some [labourDayOn; labourDayOff]
  /\ o_date labourDayOn = o_date labourDayOff
  /\ formatDateISO t = "2024-05-01"
  /\ lastOverrideFor (formatDateISO t) [labourDayOn; labourDayOff] = Some labourDayOff
  /\ o_active labourDayOff = false
  /\ isDateActive t dailyDuplicateOverrides holidays = true
  /\ In "2024-05-01"
        (map date (expandDailyPattern 0 dailyDuplicateOverrides testCompany 2024 holidays)).
Proof.
  cbv zeta.
  split; [reflexivity |]. split; [reflexivity |]. split; [reflexivity |].
  split; [vm_compute; reflexivity |]. split; [vm_compute; reflexivity |].
  split; [reflexivity |]. split; [vm_compute; reflexivity |].
  apply In_by_eqb. vm_compute. reflexivity.
Qed.

Lemma override_first_wins_witness :
  let t := mkDate 2024 4 1 in
  let holidays := getFrenchHolidays 2024 "FR" in
  isDateActive t dailyDuplicateOverrides holidays = true
  /\ ((exists occ,
         In occ (expandDailyPattern 0 dailyDuplicateOverrides testCompany 2024 holidays)
         /\ date occ = formatDateISO t)
      <-> true = true).
Proof.
  cbv zeta.
  assert (Hw : In (mkDate 2024 4 1) (dailyWindow 0 dailyDuplicateOverrides 2024)).
  { apply (proj1 (list_elem_of_In _ _)).
    apply (bool_decide_unpack _). vm_compute. reflexivity. }
  destruct (override_first_wins 0 dailyDuplicateOverrides testCompany 2024
              (getFrenchHolidays 2024 "FR") [labourDayOn; labourDayOff]
              [] labourDayOn [labourDayOff] (mkDate 2024 4 1)
              eq_refl eq_refl ltac:(vm_compute; reflexivity)
              ltac:(intros o' [])) as [H1 H2].
  split; [exact H1 | exact (H2 Hw)].
Defined.

Lemma year_month_cases (year m : Z) :
  2020 <= year <= 2030 -> 1 <= m <= 12 ->
  In (year, m) (list_prod [2020; 2021; 2022; 2023; 2024; 2025; 2026; 2027; 2028; 2029; 2030]
                          [1; 2; 3; 4; 5; 6; 7; 8; 9; 10; 11; 12]).
Proof.
  intros Hy Hm. apply in_prod; simpl; lia.
Qed.

Lemma firstOfMonth_in_year (year m : Z) :
  2020 <= year <= 2030 -> 1 <= m <= 12 ->
  getFullYear (getFirstDayOfMonth year m) = year.
Proof.
  intros Hy Hm. pose proof (year_month_cases year m Hy Hm) as H.
  cbv [list_prod map app] in H.
  repeat (destruct H as [H | H]; [injection H as <- <-; vm_compute; reflexivity |]).
  contradiction.
Qed.

Lemma dailyWindow_no_startDate tz pattern year :
  truthyText (p_startDate pattern) = false ->
  2020 <= year <= 2030 -> 1 <= p_startMonth pattern <= 12 ->
  dailyWindow tz pattern year
  = daysFromTo (getFirstDayOfMonth year (p_startMonth pattern)) (mkDate year 11 31).
Proof.
  intros Hs Hy Hm. unfold dailyWindow. rewrite Hs.
  rewrite (firstOfMonth_in_year _ _ Hy Hm).
  rewrite Z.ltb_irrefl.
  rewrite (firstOfMonth_in_year _ _ Hy Hm).
  replace (year >? year) with false by (rewrite Z.gtb_ltb, Z.ltb_irrefl; reflexivity).
  reflexivity.
Qed.

Lemma getDay_range (t : Date) : 0 <= getDay t < 7.
Proof. unfold getDay. apply Z.mod_pos_bound. lia. Qed.

Lemma every_day_active (t : Date) (pattern : Pattern) (holidays : gset string) :
  p_daysMask pattern = Some 127 ->
  truthyInt (p_excludeWeekends pattern) = false ->
  truthyInt (p_excludeHolidays pattern) = false ->
  (p_dayOffOverrides pattern = None \/ p_dayOffOverrides pattern = Some []) ->
  isDateActive t pattern holidays = true.
Proof.
  intros Hm Hw Hh Ho. unfold isDateActive.
  assert (Hov : match p_dayOffOverrides pattern with
                | Some overrides => findOverride (formatDateISO t) overrides
                | None => None
                end = None) by (destruct Ho as [-> | ->]; reflexivity).
  rewrite Hov, Hm, Hw, Hh. rewrite !andb_false_r.
  pose proof (getDay_range t) as Hd.
  assert (Hc : getDay t = 0 \/ getDay t = 1 \/ getDay t = 2 \/ getDay t = 3
               \/ getDay t = 4 \/ getDay t = 5 \/ getDay t = 6) by lia.
  destruct Hc as [-> | [-> | [-> | [-> | [-> | [-> | ->]]]]]]; reflexivity.
Qed.

Lemma filter_all_true {A} (f : A -> bool) (l : list A) :
  (forall x, In x l -> f x = true) -> List.filter f l = l.
Proof.
  induction l as [| x l IH]; intros H; [reflexivity |]. cbn [List.filter].
  rewrite (H x (or_introl eq_refl)). f_equal. apply IH.
  intros y Hy. apply H. right. exact Hy.
Qed.

(** C4 (amended). For a daily pattern with no start date, in a year the
    engine accepts and with startMonth in 1..12, the expansion window runs
    from the first day of startMonth through December 31 inclusive (January 1
    only when startMonth is 1), and the occurrences are dated exactly on the
    active days of that window, in order.  In particular a pattern with
    daysMask 127, no weekend or holiday exclusion and no override produces
    one occurrence on every day from the first of startMonth to December 31,
    and none before. *)
Theorem daily_window_from_startMonth tz pattern company year holidays :
  truthyText (p_startDate pattern) = false ->
  2020 <= year <= 2030 -> 1 <= p_startMonth pattern <= 12 ->
  let firstDay := getFirstDayOfMonth year (p_startMonth pattern) in
  let lastDay := mkDate year 11 31 in
  dailyWindow tz pattern year = daysFromTo firstDay lastDay
  /\ map date (expandDailyPattern tz pattern company year holidays)
     = map formatDateISO
           (List.filter (fun t => isDateActive t pattern holidays)
                        (daysFromTo firstDay lastDay))
  /\ (p_daysMask pattern = Some 127 ->
      truthyInt (p_excludeWeekends pattern) = false ->
      truthyInt (p_excludeHolidays pattern) = false ->
      (p_dayOffOverrides pattern = None \/ p_dayOffOverrides pattern = Some []) ->
      map date (expandDailyPattern tz pattern company year holidays)
      = map formatDateISO (daysFromTo firstDay lastDay)).
Proof.
  intros Hs Hy Hm firstDay lastDay.
  pose proof (dailyWindow_no_startDate tz pattern year Hs Hy Hm) as Hw.
  fold firstDay lastDay in Hw.
  assert (Hdates : map date (expandDailyPattern tz pattern company year holidays)
                   = map formatDateISO
                         (List.filter (fun t => isDateActive t pattern holidays)
                                      (daysFromTo firstDay lastDay))).
  { rewrite expandDailyPattern_window, Hw, map_map.
    apply map_ext. intros t. apply createOccurrence_date. }
  split; [exact Hw |]. split; [exact Hdates |].
  intros Hmask Hwe Hho Hov. rewrite Hdates. f_equal.
  apply filter_all_true. intros t _. apply every_day_active; assumption.
Qed.

Lemma daily_window_from_startMonth_witness :
  map date (expandDailyPattern 60 dailyFromJuly testCompany 2024
                               (getFrenchHolidays 2024 "FR"))
  = map formatDateISO (daysFromTo (getFirstDayOfMonth 2024 7) (mkDate 2024 11 31)).
Proof.
  refine (proj2 (proj2 (daily_window_from_startMonth 60 dailyFromJuly testCompany 2024
                          (getFrenchHolidays 2024 "FR") eq_refl _ _))
                eq_refl eq_refl eq_refl (or_intror eq_refl)).
  - lia.
  - cbn. lia.
Defined.

(** C4 fails as stated: the daily pattern with startMonth 7, daysMask 127,
    no exclusion, no override and no start date yields 184 occurrences in
    2024, the first on July 1, and none on January 1 or June 30. *)
Lemma daily_window_ignores_first_half :
  let occurrences :=
    expandDailyPattern 60 dailyFromJuly testCompany 2024 (getFrenchHolidays 2024 "FR") in
  p_startDate dailyFromJuly = None
  /\ p_startMonth dailyFromJuly = 7
  /\ length occurrences = 184%nat
  /\ hd_error (map date occurrences) = Some "2024-07-01"
  /\ existsb (String.eqb "2024-01-01") (map date occurrences) = false
  /\ existsb (String.eqb "2024-06-30") (map date occurrences) = false.
Proof.
  cbv zeta. split; [reflexivity |]. split; [reflexivity |].
  split; [vm_compute; reflexivity |]. split; [vm_compute; reflexivity |].
  split; vm_compute; reflexivity.
Qed.

(** ** VAT split of the occurrences of a pattern *)

Lemma postings_exact_witness :
  let o := createOccurrence rent testCompany (mkDate 2024 0 1) in
  map entry (generateExpensePostings o)
  = [(operating, (- netAmount o)%Q); (vat, (- vatAmount o)%Q)]
  /\ map entry (generateExpensePostings (createOccurrence meals testCompany (mkDate 2024 3 1)))
     = [(operating, (- netAmount (createOccurrence meals testCompany (mkDate 2024 3 1)))%Q)].
Proof.
  cbv zeta. split.
  - apply (proj1 (proj2 postings_exact)).
    + reflexivity.
    + vm_compute. reflexivity.
  - apply (proj1 (proj2 (proj2 postings_exact))).
    intros [H _]. discriminate H.
Defined.

Lemma expandPattern_created tz pattern company year o :
  In o (expandPattern tz pattern company year) ->
  exists d, o = createOccurrence pattern company d.
Proof.
  unfold expandPattern.
  destruct (String.eqb (p_frequency pattern) "daily").
  { rewrite expandDailyPattern_window. intros H.
    apply in_map_iff in H as (d & <- & _). exists d. reflexivity. }
  destruct (String.eqb (p_frequency pattern) "monthly").
  { unfold expandMonthlyPattern. intros H.
    apply in_map_iff in H as (m & <- & _). eexists. reflexivity. }
  destruct (String.eqb (p_frequency pattern) "quarterly").
  { unfold expandQuarterlyPattern. intros H.
    apply in_map_iff in H as (m & <- & _). eexists. reflexivity. }
  destruct (String.eqb (p_frequency pattern) "yearly").
  { unfold expandYearlyPattern. intros [<- | []]. eexists. reflexivity. }
  intros [].
Qed.

Lemma parseFloat_truthy s r : JS.parseFloat s = Some r -> JS.truthyStr s = true.
Proof. destruct s; [discriminate | reflexivity]. Qed.

Lemma createOccurrence_revenue_split pattern company d s r :
  p_kind pattern = RevenueFields (Some s) ->
  JS.parseFloat s = Some r ->
  let o := createOccurrence pattern company d in
  type o = revenue
  /\ grossAmount o = num (JS.parseFloat (p_amount pattern))
  /\ vatRate o = (r / 100)%Q
  /\ vatAmount o = (grossAmount o * (r / 100) / (1 + r / 100))%Q
  /\ netAmount o = (grossAmount o - vatAmount o)%Q.
Proof.
  intros Hk Hr. unfold createOccurrence. rewrite Hk, Hr.
  rewrite (parseFloat_truthy _ _ Hr). cbn. repeat split; reflexivity.
Qed.

(** C5. Every occurrence produced from a revenue pattern whose configured
    vatRate text reads as r percent has vatAmount = gross * (r/100) / (1 + r/100)
    and netAmount = gross - vatAmount; with r = 0 the VAT amount is 0 and the
    net amount is the gross amount. *)
Theorem revenue_vat_split tz pattern company year s r0 r o :
  p_kind pattern = RevenueFields (Some s) ->
  JS.parseFloat s = Some r0 ->
  (r0 == r)%Q ->
  In o (expandPattern tz pattern company year) ->
  (vatAmount o == grossAmount o * (r / 100) / (1 + r / 100))%Q
  /\ netAmount o = (grossAmount o - vatAmount o)%Q
  /\ (r == 0 -> vatAmount o == 0 /\ netAmount o == grossAmount o)%Q.
Proof.
  intros Hk Hr Hrr Hin. apply expandPattern_created in Hin as (d & ->).
  destruct (createOccurrence_revenue_split pattern company d s r0 Hk Hr)
    as (_ & _ & _ & Hv & Hn).
  assert (E : (vatAmount (createOccurrence pattern company d)
               == grossAmount (createOccurrence pattern company d)
                  * (r / 100) / (1 + r / 100))%Q).
  { rewrite Hv, Hrr. reflexivity. }
  split; [exact E |]. split; [exact Hn |].
  intros H0.
  assert (E0 : (vatAmount (createOccurrence pattern company d) == 0)%Q).
  { rewrite E, H0. field. }
  split; [exact E0 |]. rewrite Hn, E0. ring.
Qed.

Lemma revenue_vat_split_witness :
  let o := createOccurrence revReduced testCompany (getFirstDayOfMonth 2024 1) in
  let z := createOccurrence revZeroRated testCompany (getFirstDayOfMonth 2024 6) in
  ((vatAmount o == grossAmount o * (5.5 / 100) / (1 + 5.5 / 100))%Q
   /\ netAmount o = (grossAmount o - vatAmount o)%Q)
  /\ (vatAmount z == 0 /\ netAmount z == grossAmount z)%Q.
Proof.
  cbv zeta. split.
  - destruct (revenue_vat_split 60 revReduced testCompany 2024 "5.50" (11 # 2) 5.5
                (createOccurrence revReduced testCompany (getFirstDayOfMonth 2024 1))
                eq_refl) as (H1 & H2 & _).
    + vm_compute. reflexivity.
    + vm_compute. reflexivity.
    + vm_compute. left. reflexivity.
    + split; assumption.
  - destruct (revenue_vat_split 60 revZeroRated testCompany 2024 "0.00" 0 0
                (createOccurrence revZeroRated testCompany (getFirstDayOfMonth 2024 6))
                eq_refl) as (_ & _ & H3).
    + vm_compute. reflexivity.
    + reflexivity.
    + vm_compute. left. reflexivity.
    + apply H3. reflexivity.
Defined.

(** ** The run monad *)

Lemma run_bind_unfold {A B} (m : Run A) (f : A -> Run B) tr :
  (m ≫= f) tr = match m tr with
                | (tr1, Ok a) => f a tr1
                | (tr1, Err e) => (tr1, Err e)
                end.
Proof. reflexivity. Qed.

Lemma run_bind_Ok {A B} (m : Run A) (f : A -> Run B) tr tr' b :
  (m ≫= f) tr = (tr', Ok b) ->
  exists a tr1, m tr = (tr1, Ok a) /\ f a tr1 = (tr', Ok b).
Proof.
  rewrite run_bind_unfold. destruct (m tr) as [tr1 [a | e]]; intros H.
  - exists a, tr1. split; [reflexivity | exact H].
  - discriminate H.
Qed.

Lemma emitsPrefixOf_bind {A B} vs1 vs2 (m : Run A) (f : A -> Run B) :
  emitsPrefixOf vs1 m -> (forall a, emitsPrefixOf vs2 (f a)) ->
  emitsPrefixOf (vs1 ++ vs2)%list (m ≫= f).
Proof.
  intros Hm Hf tr. destruct (Hm tr) as (ext1 & r1 & E1 & P1 & F1).
  rewrite run_bind_unfold, E1. destruct r1 as [a | e].
  - destruct (Hf a (tr ++ ext1)%list) as (ext2 & r2 & E2 & P2 & F2).
    exists (ext1 ++ ext2)%list, r2. rewrite E2, app_assoc.
    specialize (F1 eq_refl). rewrite map_app, F1.
    split; [reflexivity |]. split.
    + apply prefix_app. exact P2.
    + intros Hok. rewrite (F2 Hok). reflexivity.
  - exists ext1, (Err e). split; [reflexivity |]. split.
    + apply prefix_app_r. exact P1.
    + discriminate.
Qed.

Lemma emitsPrefixOf_liftRes {A} (r : res A) : emitsPrefixOf [] (liftRes r).
Proof.
  intros tr. exists [], r. rewrite app_nil_r. repeat split; reflexivity.
Qed.

Lemma emitsPrefixOf_ret {A} (a : A) : emitsPrefixOf [] (mret a : Run A).
Proof.
  intros tr. exists [], (Ok a). rewrite app_nil_r. repeat split; reflexivity.
Qed.

Lemma emitsPrefixOf_emit simulationId month p pb tx :
  truthyText simulationId = true ->
  emitsPrefixOf [p] (emitProgress true simulationId month p pb tx).
Proof.
  intros Hs tr. unfold emitProgress. rewrite Hs. cbn [andb].
  eexists [_], (Ok ()). repeat split; reflexivity.
Qed.

Lemma emitsPrefixOf_forEachR {A S} (v : A -> Q) (f : S -> A -> Run S) (l : list A) :
  (forall st x, emitsPrefixOf [v x] (f st x)) ->
  forall st, emitsPrefixOf (map v l) (forEachR f l st).
Proof.
  intros Hf. induction l as [| x l IH]; intros st; cbn [forEachR map].
  - apply emitsPrefixOf_ret.
  - change (v x :: map v l) with ([v x] ++ map v l)%list.
    apply emitsPrefixOf_bind; [apply Hf | apply IH].
Qed.

Lemma emitsPrefixOf_processMonth simulationId groups bm step :
  truthyText simulationId = true ->
  emitsPrefixOf [(20 + ((inject_Z (Z.of_nat (fst step)) + 1) / 12) * 60)%Q]
                (processMonth true simulationId groups bm step).
Proof.
  intros Hs. destruct step as [i month]. unfold processMonth. cbn [fst].
  change [(20 + (inject_Z (Z.of_nat i) + 1) / 12 * 60)%Q]
    with ([] ++ ([] ++ ([] ++ ([(20 + (inject_Z (Z.of_nat i) + 1) / 12 * 60)%Q] ++ []))))%list.
  apply emitsPrefixOf_bind; [apply emitsPrefixOf_liftRes | intros bm'].
  apply emitsPrefixOf_bind; [apply emitsPrefixOf_liftRes | intros rev].
  apply emitsPrefixOf_bind; [apply emitsPrefixOf_liftRes | intros ex].
  apply emitsPrefixOf_bind; [apply emitsPrefixOf_emit; exact Hs | intros _].
  apply emitsPrefixOf_ret.
Qed.

Lemma emitsPrefixOf_body tz inputs rev exp company cfg simulationId :
  truthyText simulationId = true ->
  emitsPrefixOf progressSchedule
                (simulationBody tz inputs rev exp company cfg simulationId true).
Proof.
  intros Hs. unfold simulationBody, progressSchedule.
  change ([10%Q; 20%Q] ++ ?l)%list with ([10%Q] ++ ([20%Q] ++ l))%list.
  apply emitsPrefixOf_bind; [apply emitsPrefixOf_emit; exact Hs | intros _].
  apply emitsPrefixOf_bind; [apply emitsPrefixOf_emit; exact Hs | intros _].
  apply emitsPrefixOf_bind.
  { set (f := processMonth _ _ _).
    set (steps := imap _ _).
    assert (E : map (fun i => 20 + (inject_Z (Z.of_nat i) + 1) / 12 * 60)%Q (seq 0 12)
                = map (fun st : nat * Z => (20 + (inject_Z (Z.of_nat (fst st)) + 1) / 12 * 60)%Q) steps).
    { subst steps. unfold getFiscalMonthOrder. reflexivity. }
    rewrite E. apply emitsPrefixOf_forEachR. intros st x.
    apply emitsPrefixOf_processMonth. exact Hs. }
  intros bm1.
  change [85%Q; 90%Q; 95%Q; 100%Q]
    with ([85%Q] ++ ([] ++ ([90%Q] ++ ([] ++ ([95%Q] ++ ([] ++ ([] ++ [100%Q])))))))%list.
  apply emitsPrefixOf_bind; [apply emitsPrefixOf_emit; exact Hs | intros _].
  apply emitsPrefixOf_bind; [apply emitsPrefixOf_liftRes | intros bm2].
  apply emitsPrefixOf_bind; [apply emitsPrefixOf_emit; exact Hs | intros _].
  apply emitsPrefixOf_bind; [apply emitsPrefixOf_liftRes | intros ms].
  apply emitsPrefixOf_bind; [apply emitsPrefixOf_emit; exact Hs | intros _].
  apply emitsPrefixOf_bind; [apply emitsPrefixOf_liftRes | intros e1].
  apply emitsPrefixOf_bind; [apply emitsPrefixOf_liftRes | intros e2].
  destruct (e1 ++ e2 ++ _)%list.
  - change [100%Q] with ([100%Q] ++ [])%list.
    apply emitsPrefixOf_bind; [apply emitsPrefixOf_emit; exact Hs | intros _].
    apply emitsPrefixOf_ret.
  - intros tr. exists [], (Err ("Critical simulation invariants violated: "
                                ++ join "; " (s :: l))).
    rewrite app_nil_r. split; [reflexivity |]. split.
    + apply prefix_nil.
    + discriminate.
Qed.

Lemma Sorted_app_l {A} (R : A -> A -> Prop) (l1 l2 : list A) :
  Sorted R (l1 ++ l2) -> Sorted R l1.
Proof.
  induction l1 as [| x l1 IH]; intros H; [constructor |].
  cbn [app] in H. inversion H as [| ? ? Hs Hh]; subst.
  constructor; [apply IH; exact Hs |].
  destruct l1 as [| y l1]; [constructor |].
  cbn [app] in Hh. inversion Hh; subst. constructor. assumption.
Qed.

Lemma progressSchedule_sorted : Sorted Qle progressSchedule.
Proof.
  unfold progressSchedule. cbn [map seq app].
  repeat (constructor; [| try constructor; vm_compute; discriminate]).
  constructor.
Qed.

Lemma progressSchedule_last : last progressSchedule = Some 100%Q.
Proof. reflexivity. Qed.

(** C9. In a run given a progress callback and a simulation id, the
    progress values passed to the callback form an initial part of the
    schedule 10, 20, 25, 30, ..., 80, 85, 90, 95, 100: they are non-decreasing,
    and when the run returns its results the last value passed is 100. *)
Theorem progress_non_decreasing tz inputs revenuePatterns expensePatterns company
        config simulationId :
  truthyText simulationId = true ->
  let run := runSimulation tz inputs revenuePatterns expensePatterns company
                           config simulationId true in
  Sorted Qle (map progress (fst run))
  /\ map progress (fst run) `prefix_of` progressSchedule
  /\ (isOk (snd run) = true -> last (map progress (fst run)) = Some 100%Q).
Proof.
  intros Hs run.
  assert (H : map progress (fst run) `prefix_of` progressSchedule
              /\ (isOk (snd run) = true -> map progress (fst run) = progressSchedule)).
  { subst run. unfold runSimulation.
    destruct (_ ++ _)%list; [| split; [apply prefix_nil | discriminate]].
    destruct (negb (JS.truthyStr (c_id company)));
      [split; [apply prefix_nil | discriminate] |].
    destruct (negb (JS.truthyStr (c_userId company)));
      [split; [apply prefix_nil | discriminate] |].
    destruct (emitsPrefixOf_body tz inputs revenuePatterns expensePatterns company
                (mergeConfig config) simulationId Hs []) as (ext & r & E & P & F).
    rewrite E. cbn [app]. destruct r as [results | message]; cbn [fst snd].
    - split; [exact P | exact F].
    - split; [exact P | discriminate]. }
  destruct H as [P F]. split; [| split].
  - destruct P as [k Hk]. apply (Sorted_app_l Qle _ k).
    rewrite <- Hk. apply progressSchedule_sorted.
  - exact P.
  - intros Hok. rewrite (F Hok). apply progressSchedule_last.
Qed.

Lemma progress_non_decreasing_witness :
  let run := runSimulation 60 pureRevenueInputs [] [] testCompany noConfig
                           (Some "sim-001") true in
  Sorted Qle (map progress (fst run))
  /\ map progress (fst run) `prefix_of` progressSchedule
  /\ (isOk (snd run) = true -> last (map progress (fst run)) = Some 100%Q).
Proof.
  exact (progress_non_decreasing 60 pureRevenueInputs [] [] testCompany noConfig
           (Some "sim-001") eq_refl).
Defined.

Lemma empty_run_completes :
  let run := runSimulation 60 pureRevenueInputs [] [] testCompany noConfig
                           (Some "sim-001") true in
  isOk (snd run) = true /\ map progress (fst run) = progressSchedule.
Proof. cbv zeta. split; vm_compute; reflexivity. Qed.

(** The ledger functions alone, applied to the occurrences of the pure-revenue
    scenario, do reach the expected figures: net revenue 170000, final operating
    balance 171000 and a positive VAT total. *)
Lemma pure_revenue_ledger :
  (let occurrences := expandAllPatterns 60 [rev001; rev002] [] testCompany 2024 in
   balanceMap ← forEachM (fun balanceMap occurrence =>
                            applyOccurrenceToBalances occurrence balanceMap)
                         occurrences
                         (createInitialBalances (startingBalances pureRevenueInputs) 1);
   balanceMap ← finalizeBalances balanceMap 1;
   monthlyTotals ← calculateMonthlySummaries balanceMap occurrences 1;
   let overall := calculateOverallSummary monthlyTotals in
   Ok (Qred (net (totalRevenue overall)),
       Qred (b_operating (finalAccountBalances overall)),
       Qgtb (totalVatCollected overall) 0))
  = Ok (170000%Q, 171000%Q, true).
Proof. vm_compute. reflexivity. Qed.

(** C2 (the code departs from the claim). On the pure-revenue scenario
    [runSimulation] does not return: while processing January it reads the
    property [postings] of an occurrence, which does not exist (the property
    is [accountPostings]), and the resulting TypeError is rethrown as
    "Simulation failed".  This holds in a zone at UTC+1 and at UTC. *)
Theorem pure_revenue_run_throws :
  runSimulation 60 pureRevenueInputs [rev001; rev002] [] testCompany noConfig None false
  = ([], Err "Simulation failed: Cannot read properties of undefined (reading 'reduce')")
  /\ runSimulation 0 pureRevenueInputs [rev001; rev002] [] testCompany noConfig None false
     = ([], Err "Simulation failed: Cannot read properties of undefined (reading 'reduce')").
Proof. split; vm_compute; reflexivity. Qed.

(** ** Ledger invariants *)

#[local] Arguments arrayGet : simpl never.

Lemma forEachM_invariant {A S} (P : S -> Prop) (f : S -> A -> res S) (l : list A) :
  (forall st x st', P st -> f st x = Ok st' -> P st') ->
  forall st st', P st -> forEachM f l st = Ok st' -> P st'.
Proof.
  intros Hf. induction l as [| x l IH]; intros st st' Hst H; cbn [forEachM] in H.
  - injection H as <-. exact Hst.
  - destruct (f st x) as [st1 | e] eqn:E; cbn in H; [| discriminate].
    apply (IH st1 st'); [apply (Hf st x); assumption | exact H].
Qed.

Lemma arrayGet_Some {A} (l : list A) (i : Z) (x : A) :
  arrayGet l (Some i) = Some x -> 0 <= i /\ l !! Z.to_nat i = Some x.
Proof.
  unfold arrayGet. destruct (i <? 0) eqn:E; [discriminate |].
  apply Z.ltb_ge in E. intros H. split; assumption.
Qed.

Lemma summaryOk_zero : summaryOk zeroSummary.
Proof. unfold summaryOk, zeroSummary. cbn. repeat split; lra. Qed.

Lemma rowOk_update a l n mb mb' :
  rowOk a l -> l !! n = Some mb ->
  mb_account mb' = mb_account mb -> month mb' = month mb ->
  summaryOk (summary mb') ->
  rowOk a (<[n := mb']> l).
Proof.
  intros [Hlen Hrow] Hn Ha Hm Hs. split.
  - rewrite length_insert. exact Hlen.
  - intros i x Hi. destruct (decide (n = i)) as [-> | Hne].
    + rewrite list_lookup_insert_eq in Hi by (apply lookup_lt_Some in Hn; exact Hn).
      injection Hi as <-. destruct (Hrow i mb Hn) as (H1 & H2 & _).
      rewrite Ha, Hm. split; [exact H1 | split; [exact H2 | exact Hs]].
    + rewrite list_lookup_insert_ne in Hi by exact Hne. apply Hrow. exact Hi.
Qed.

Lemma ledgerOk_update bm a l l' :
  ledgerOk bm -> bm !! a = Some l -> rowOk a l' -> ledgerOk (<[a := l']> bm).
Proof.
  intros Hbm Ha Hl' b. destruct (decide (a = b)) as [<- | Hne].
  - exists l'. rewrite lookup_insert_eq. split; [reflexivity | exact Hl'].
  - rewrite lookup_insert_ne by exact Hne. apply Hbm.
Qed.

Lemma createInitialBalances_ok sb s : ledgerOk (createInitialBalances sb s).
Proof.
  intros a. unfold createInitialBalances. cbn [fold_left accounts].
  eexists. split.
  - destruct a;
      repeat (rewrite lookup_insert_eq || (rewrite lookup_insert_ne by discriminate));
      reflexivity.
  - split; [destruct a; reflexivity |].
    intros i mb Hi.
    assert (Hlt : (i < 12)%nat).
    { apply lookup_lt_Some in Hi. destruct a; exact Hi. }
    do 12 (destruct i as [| i];
           [destruct a; cbn in Hi; injection Hi as <-;
            match goal with |- context [if ?c then _ else _] => destruct c end;
            cbn; repeat split; try reflexivity; apply summaryOk_zero |]).
    lia.
Qed.

Lemma postToBucket_ok occurrence posting mb :
  summaryOk (summary mb) ->
  mb_account (postToBucket occurrence posting mb) = mb_account mb
  /\ month (postToBucket occurrence posting mb) = month mb
  /\ summaryOk (summary (postToBucket occurrence posting mb)).
Proof.
  intros (Hd & Hc & Hn). unfold postToBucket. cbn.
  split; [reflexivity |]. split; [reflexivity |].
  unfold summaryOk. destruct (Qgtb (amount posting) 0) eqn:E; cbn.
  - apply Qgtb_true_iff in E. repeat split; [lra | lra |]. rewrite Hn. ring.
  - apply Qgtb_false_iff in E.
    assert (Ha : (Qabs (amount posting) == - amount posting)%Q)
      by (apply Qabs_neg; exact E).
    repeat split; [lra | rewrite Ha; lra |]. rewrite Hn, Ha. ring.
Qed.

Lemma applyOccurrenceToBalances_ok occurrence bm bm' :
  ledgerOk bm -> applyOccurrenceToBalances occurrence bm = Ok bm' -> ledgerOk bm'.
Proof.
  unfold applyOccurrenceToBalances. apply forEachM_invariant.
  intros st posting st' Hst H.
  destruct (Hst (account posting)) as (l & Hl & Hrow).
  rewrite Hl in H.
  destruct (monthOfDate (date occurrence)) as [m |]; cbn in H; [| discriminate].
  destruct (arrayGet l (Some (m - 1))) as [mb |] eqn:E; [| discriminate].
  injection H as <-. apply arrayGet_Some in E as [Hm E].
  destruct (proj2 Hrow _ _ E) as (_ & _ & Hs).
  destruct (postToBucket_ok occurrence posting mb Hs) as (H1 & H2 & H3).
  apply (ledgerOk_update _ _ l); [exact Hst | exact Hl |].
  apply (rowOk_update _ _ _ mb); assumption.
Qed.

Lemma rollForward_ok a order l l' :
  rowOk a l -> rollForward order l = Ok l' -> rowOk a l'.
Proof.
  unfold rollForward. apply forEachM_invariant.
  intros st [fiscalIndex m] st' Hst H.
  destruct (arrayGet st (Some (m - 1))) as [mb |] eqn:E; [| discriminate].
  apply arrayGet_Some in E as [Hm E].
  destruct (proj2 Hst _ _ E) as (_ & _ & Hs).
  destruct (fiscalIndex =? 0)%nat.
  - injection H as <-. apply (rowOk_update _ _ _ mb); try assumption; reflexivity.
  - destruct (arrayGet st _) as [prev |]; [| discriminate].
    injection H as <-. apply (rowOk_update _ _ _ mb); try assumption; reflexivity.
Qed.

Lemma finalizeBalances_ok bm s bm' :
  ledgerOk bm -> finalizeBalances bm s = Ok bm' -> ledgerOk bm'.
Proof.
  unfold finalizeBalances. apply forEachM_invariant.
  intros st a st' Hst H.
  destruct (Hst a) as (l & Hl & Hrow). rewrite Hl in H.
  destruct (rollForward _ l) as [l' |] eqn:E; cbn in H; [| discriminate].
  injection H as <-.
  apply (ledgerOk_update _ _ l); [exact Hst | exact Hl |].
  apply (rollForward_ok _ _ _ _ Hrow E).
Qed.


Lemma liftRes_Ok {A} (r : res A) tr tr' a :
  liftRes r tr = (tr', Ok a) -> r = Ok a /\ tr' = tr.
Proof. unfold liftRes. intros H. injection H as -> ->. split; reflexivity. Qed.

Lemma forEachR_invariant {A S} (P : S -> Prop) (f : S -> A -> Run S) (l : list A) :
  (forall st x tr tr' st', P st -> f st x tr = (tr', Ok st') -> P st') ->
  forall st tr tr' st', P st -> forEachR f l st tr = (tr', Ok st') -> P st'.
Proof.
  intros Hf. induction l as [| x l IH]; intros st tr tr' st' Hst H; cbn [forEachR] in H.
  - injection H as _ <-. exact Hst.
  - apply run_bind_Ok in H as (st1 & tr1 & H1 & H2).
    apply (IH st1 tr1 tr' st'); [apply (Hf st x tr tr1); assumption | exact H2].
Qed.

Lemma processMonth_ok cb sid groups bm step tr tr' bm' :
  ledgerOk bm -> processMonth cb sid groups bm step tr = (tr', Ok bm') -> ledgerOk bm'.
Proof.
  intros Hbm H. destruct step as [i m]. unfold processMonth in H.
  apply run_bind_Ok in H as (bm1 & tr1 & H1 & H).
  apply liftRes_Ok in H1 as [H1 ->].
  apply run_bind_Ok in H as (rev & tr2 & _ & H).
  apply run_bind_Ok in H as (ex & tr3 & _ & H).
  apply run_bind_Ok in H as (u & tr4 & _ & H).
  injection H as _ <-.
  revert H1. apply forEachM_invariant; [| exact Hbm].
  intros st o st' Hst Ho. apply (applyOccurrenceToBalances_ok o st st' Hst Ho).
Qed.

Lemma insertSorted_perm {A} (le : A -> A -> bool) x l :
  Permutation (JS.insertSorted le x l) (x :: l).
Proof.
  induction l as [| y l IH]; cbn [JS.insertSorted]; [reflexivity |].
  destruct (le y x); [| reflexivity].
  rewrite IH. apply perm_swap.
Qed.

Lemma sort_perm {A} (le : A -> A -> bool) l : Permutation (JS.sort le l) l.
Proof.
  unfold JS.sort.
  assert (H : forall acc, Permutation (fold_left (fun acc x => JS.insertSorted le x acc) l acc)
                                      (l ++ acc)).
  { induction l as [| x l IH]; intros acc; cbn [fold_left app]; [reflexivity |].
    rewrite IH, insertSorted_perm. symmetry. apply Permutation_middle. }
  rewrite H, app_nil_r. reflexivity.
Qed.

(** What a returned result was computed from. *)
Lemma simulationBody_Ok tz inputs rev exp company cfg sid cb tr0 tr results :
  simulationBody tz inputs rev exp company cfg sid cb tr0 = (tr, Ok results) ->
  let s := fiscalStartMonth inputs in
  let occurrences := expandAllPatterns tz rev exp company (year inputs) in
  exists bm1 bm2 monthlyTotals tr1 tr2,
    forEachR (processMonth cb sid (groupBy (fun o => localMonth tz (date o)) occurrences))
             (imap (fun i m => (i, m)) (getFiscalMonthOrder s))
             (createInitialBalances (startingBalances inputs) s) tr1 = (tr2, Ok bm1)
    /\ finalizeBalances bm1 s = Ok bm2
    /\ calculateMonthlySummaries bm2 occurrences s = Ok monthlyTotals
    /\ validateBalanceInvariants bm2 inputs s = Ok []
    /\ validateRollForwardInvariants bm2 s = Ok []
    /\ validateVATInvariants monthlyTotals (calculateOverallSummary monthlyTotals) = []
    /\ monthlyBalances results
       = JS.sort (fiscalLeb (getFiscalMonthOrder s)) (flattenBalances bm2)
    /\ Engine.monthlyTotals results = monthlyTotals
    /\ overallTotals results = calculateOverallSummary monthlyTotals.
Proof.
  intros H s occurrences. unfold simulationBody in H. cbv zeta in H.
  fold s occurrences in H.
  apply run_bind_Ok in H as (u1 & t1 & _ & H).
  apply run_bind_Ok in H as (u2 & t2 & _ & H).
  apply run_bind_Ok in H as (bm1 & t3 & Hloop & H).
  apply run_bind_Ok in H as (u3 & t4 & _ & H).
  apply run_bind_Ok in H as (bm2 & t5 & Hfin & H).
  apply liftRes_Ok in Hfin as [Hfin ->].
  apply run_bind_Ok in H as (u4 & t6 & _ & H).
  apply run_bind_Ok in H as (ms & t7 & Hms & H).
  apply liftRes_Ok in Hms as [Hms ->].
  apply run_bind_Ok in H as (u5 & t8 & _ & H).
  apply run_bind_Ok in H as (e1 & t9 & He1 & H).
  apply liftRes_Ok in He1 as [He1 ->].
  apply run_bind_Ok in H as (e2 & t10 & He2 & H).
  apply liftRes_Ok in He2 as [He2 ->].
  destruct (e1 ++ e2 ++ _)%list eqn:Eerr; [| discriminate H].
  apply app_eq_nil in Eerr as [-> Eerr]. apply app_eq_nil in Eerr as [-> Eerr].
  apply run_bind_Ok in H as (u6 & t11 & _ & H).
  injection H as _ <-.
  exists bm1, bm2, ms, t2, t3. cbn. repeat split; assumption.
Qed.

Lemma runSimulation_Ok tz inputs rev exp company config sid cb tr results :
  runSimulation tz inputs rev exp company config sid cb = (tr, Ok results) ->
  validateSimulationInputs inputs rev exp = []
  /\ validateCompanyForSimulation company = []
  /\ simulationBody tz inputs rev exp company (mergeConfig config) sid cb []
     = (tr, Ok results).
Proof.
  unfold runSimulation. intros H.
  destruct (_ ++ _)%list eqn:E; [| discriminate H].
  apply app_eq_nil in E as [E1 E2].
  destruct (negb _); [discriminate H |].
  destruct (negb _); [discriminate H |].
  destruct (simulationBody _ _ _ _ _ _ _ _ _) as [tr' [r | e]]; [| discriminate H].
  injection H as -> ->. repeat split; assumption.
Qed.

Lemma finalLedger_ok tz inputs rev exp company cfg sid cb tr0 tr results :
  simulationBody tz inputs rev exp company cfg sid cb tr0 = (tr, Ok results) ->
  exists bm,
    ledgerOk bm
    /\ monthlyBalances results
       = JS.sort (fiscalLeb (getFiscalMonthOrder (fiscalStartMonth inputs)))
                 (flattenBalances bm)
    /\ validateBalanceInvariants bm inputs (fiscalStartMonth inputs) = Ok [].
Proof.
  intros H. apply simulationBody_Ok in H.
  destruct H as (bm1 & bm2 & ms & tr1 & tr2 & Hloop & Hfin & _ & Hbal & _ & _ & Hmb & _).
  exists bm2. split; [| split; assumption].
  apply (finalizeBalances_ok bm1 (fiscalStartMonth inputs)); [| exact Hfin].
  revert Hloop. apply forEachR_invariant; [| apply createInitialBalances_ok].
  intros st x t t' st' Hst Hx. apply (processMonth_ok _ _ _ _ _ _ _ _ Hst Hx).
Qed.

Lemma flattenBalances_In bm mb :
  ledgerOk bm -> In mb (flattenBalances bm) ->
  exists l i, bm !! mb_account mb = Some l /\ l !! i = Some mb
              /\ month mb = Z.of_nat i + 1 /\ summaryOk (summary mb).
Proof.
  intros Hbm Hin. unfold flattenBalances in Hin.
  apply in_flat_map in Hin as (a & _ & Hin).
  destruct (Hbm a) as (l & Hl & Hrow). rewrite Hl in Hin. cbn in Hin.
  apply list_elem_of_In, list_elem_of_lookup in Hin as (i & Hi).
  destruct (proj2 Hrow i mb Hi) as (Ha & Hm & Hs).
  exists l, i. rewrite Ha. split; [exact Hl |]. split; [exact Hi |]. split; [exact Hm | exact Hs].
Qed.

#[local] Arguments getFiscalMonthOrder : simpl never.

(** ** The balance check *)

Lemma fold_left_Qplus_acc {A} (f : A -> Q) (l : list A) (acc : Q) :
  (fold_left (fun sum x => sum + f x) l acc == acc + reduceSum f l)%Q.
Proof.
  unfold reduceSum. revert acc. induction l as [| x l IH]; intros acc; cbn [fold_left].
  - ring.
  - rewrite IH. rewrite (IH (0 + f x)%Q). ring.
Qed.

Lemma reduceSum_cons {A} (f : A -> Q) (x : A) (l : list A) :
  (reduceSum f (x :: l) == f x + reduceSum f l)%Q.
Proof.
  unfold reduceSum at 1. cbn [fold_left]. rewrite fold_left_Qplus_acc. ring.
Qed.

Lemma reduceSum_perm {A} (f : A -> Q) (l l' : list A) :
  Permutation l l' -> (reduceSum f l == reduceSum f l')%Q.
Proof.
  induction 1 as [| x l l' _ IH | x y l | l l' l'' _ IH1 _ IH2].
  - reflexivity.
  - rewrite !reduceSum_cons, IH. reflexivity.
  - rewrite !reduceSum_cons. ring.
  - rewrite IH1. exact IH2.
Qed.

Lemma filter_perm {A} (P : A -> bool) (l l' : list A) :
  Permutation l l' -> Permutation (List.filter P l) (List.filter P l').
Proof.
  induction 1 as [| x l l' _ IH | x y l | l l' l'' _ IH1 _ IH2]; cbn [List.filter].
  - reflexivity.
  - destruct (P x); [apply perm_skip |]; exact IH.
  - destruct (P x), (P y); try reflexivity. apply perm_swap.
  - rewrite IH1. exact IH2.
Qed.

Lemma find_unique {A} (P : A -> bool) (l : list A) (x : A) :
  In x l -> P x = true -> (forall y, In y l -> P y = true -> y = x) ->
  List.find P l = Some x.
Proof.
  intros Hin Hx Hu. destruct (List.find P l) as [y |] eqn:E.
  - apply find_some in E as [Hy Py]. f_equal. apply Hu; assumption.
  - exfalso. pose proof (find_none _ _ E x Hin) as Hn. congruence.
Qed.

Lemma filter_none {A} (P : A -> bool) (l : list A) :
  (forall x, In x l -> P x = false) -> List.filter P l = [].
Proof.
  induction l as [| x l IH]; intros H; [reflexivity |]. cbn [List.filter].
  rewrite (H x (or_introl eq_refl)). apply IH. intros y Hy. apply H. right. exact Hy.
Qed.

Lemma rowOk_account a l mb : rowOk a l -> In mb l -> mb_account mb = a.
Proof.
  intros [_ H] Hin. apply list_elem_of_In, list_elem_of_lookup in Hin as (i & Hi).
  apply (H i mb Hi).
Qed.

Lemma filter_flatten bm a l :
  ledgerOk bm -> bm !! a = Some l ->
  List.filter (fun mb => bool_decide (mb_account mb = a)) (flattenBalances bm) = l.
Proof.
  intros Hbm Hl. unfold flattenBalances. cbn [flat_map accounts].
  assert (Hrow : forall b lb, bm !! b = Some lb ->
            List.filter (fun mb => bool_decide (mb_account mb = a)) lb
            = if decide (b = a) then lb else []).
  { intros b lb Hb. destruct (Hbm b) as (lb' & Hb' & Hrow).
    rewrite Hb in Hb'. injection Hb' as <-.
    destruct (decide (b = a)) as [-> | Hne].
    - apply filter_all_true. intros x Hx. apply bool_decide_eq_true.
      apply (rowOk_account _ _ _ Hrow Hx).
    - apply filter_none. intros x Hx. apply bool_decide_eq_false.
      rewrite (rowOk_account _ _ _ Hrow Hx). exact Hne. }
  destruct (Hbm operating) as (l1 & H1 & _). destruct (Hbm savings) as (l2 & H2 & _).
  destruct (Hbm personal) as (l3 & H3 & _). destruct (Hbm vat) as (l4 & H4 & _).
  rewrite H1, H2, H3, H4. cbn [default from_option]. unfold Datatypes.id.
  rewrite !List.filter_app, (Hrow _ _ H1), (Hrow _ _ H2), (Hrow _ _ H3), (Hrow _ _ H4).
  cbn [List.filter]. rewrite app_nil_r.
  destruct a; repeat case_decide; try discriminate; cbn [app];
    rewrite ?app_nil_r; congruence.
Qed.

Lemma validated_fiscalStartMonth inputs rev exp :
  validateSimulationInputs inputs rev exp = [] ->
  2020 <= year inputs <= 2030 /\ 1 <= fiscalStartMonth inputs <= 12.
Proof.
  unfold validateSimulationInputs. cbv zeta.
  destruct ((year inputs =? 0) || (year inputs <? 2020) || (year inputs >? 2030)) eqn:Ey;
    destruct ((fiscalStartMonth inputs =? 0) || (fiscalStartMonth inputs <? 1)
              || (fiscalStartMonth inputs >? 12)) eqn:Es;
    destruct (_ >? maxPatterns DEFAULT_ENGINE_CONFIG);
    cbn [app]; intros H; try discriminate H.
  lia.
Qed.

Lemma balanceErrorsFor_none inputs s a l :
  balanceErrorsFor inputs s (getFiscalMonthOrder s) a l = Ok [] ->
  exists lastBalance,
    arrayGet l (Some (lastFiscalMonth s - 1)) = Some lastBalance
    /\ (Qabs (closingBalance lastBalance
              - (balanceOf (startingBalances inputs) a
                 + reduceSum (fun mb => netChange (summary mb)) l)) <= tolerance)%Q.
Proof.
  unfold balanceErrorsFor. cbv zeta.
  destruct (arrayGet l (Some (s - 1))) as [fsb |]; [| discriminate].
  change (getFiscalMonthOrder s !! 11%nat) with (Some (lastFiscalMonth s)).
  cbn [fmap option_fmap option_map].
  destruct (arrayGet l (Some (lastFiscalMonth s - 1))) as [lastB |]; [| discriminate].
  intros H. exists lastB. split; [reflexivity |].
  apply Qgtb_false_iff.
  destruct (Qgtb (Qabs (closingBalance lastB - _)) tolerance); [| reflexivity].
  exfalso. injection H as H. apply app_eq_nil in H as [_ H]. discriminate H.
Qed.

Lemma validateBalanceInvariants_none bm inputs s a :
  ledgerOk bm ->
  validateBalanceInvariants bm inputs s = Ok [] ->
  exists l, bm !! a = Some l
            /\ balanceErrorsFor inputs s (getFiscalMonthOrder s) a l = Ok [].
Proof.
  intros Hbm. unfold validateBalanceInvariants. cbn [forEachM accounts].
  destruct (Hbm operating) as (l1 & H1 & _). destruct (Hbm savings) as (l2 & H2 & _).
  destruct (Hbm personal) as (l3 & H3 & _). destruct (Hbm vat) as (l4 & H4 & _).
  rewrite H1. destruct (balanceErrorsFor _ _ _ operating l1) as [e1 |] eqn:E1; [| discriminate].
  cbn. rewrite H2. destruct (balanceErrorsFor _ _ _ savings l2) as [e2 |] eqn:E2; [| discriminate].
  cbn. rewrite H3. destruct (balanceErrorsFor _ _ _ personal l3) as [e3 |] eqn:E3; [| discriminate].
  cbn. rewrite H4. destruct (balanceErrorsFor _ _ _ vat l4) as [e4 |] eqn:E4; [| discriminate].
  cbn. intros H. injection H as H.
  apply app_eq_nil in H as [H ->]. apply app_eq_nil in H as [H ->].
  apply app_eq_nil in H as [-> ->].
  destruct a; eexists; (split; [eassumption | assumption]).
Qed.

(** ** Monthly and overall summaries *)

Lemma overall_totals monthlySummaries :
  let o := calculateOverallSummary monthlySummaries in
  net (totalRevenue o) = reduceSum (fun m => net (ms_revenue m)) monthlySummaries
  /\ vatTotal (totalRevenue o) = reduceSum (fun m => vatTotal (ms_revenue m)) monthlySummaries
  /\ e_net (totalExpenses o) = reduceSum (fun m => e_net (ms_expenses m)) monthlySummaries
  /\ deductibleVat (totalExpenses o)
     = reduceSum (fun m => deductibleVat (ms_expenses m)) monthlySummaries.
Proof.
  unfold calculateOverallSummary, reduceSum. cbn.
  set (F := fun (acc : RevenueTotals * ExpenseTotals) monthly => _).
  assert (H : forall r e,
    let t := fold_left F monthlySummaries (r, e) in
    net (fst t) = fold_left (fun s m => (s + net (ms_revenue m))%Q) monthlySummaries (net r)
    /\ vatTotal (fst t)
       = fold_left (fun s m => (s + vatTotal (ms_revenue m))%Q) monthlySummaries (vatTotal r)
    /\ e_net (snd t)
       = fold_left (fun s m => (s + e_net (ms_expenses m))%Q) monthlySummaries (e_net e)
    /\ deductibleVat (snd t)
       = fold_left (fun s m => (s + deductibleVat (ms_expenses m))%Q) monthlySummaries
                   (deductibleVat e)).
  { induction monthlySummaries as [| m l IH]; intros r e; cbn [fold_left].
    - cbn. repeat split; reflexivity.
    - apply IH. }
  apply H.
Qed.

(** The figures of one month, as [monthlySummaryOf] computes them. *)
Lemma monthlySummaryOf_Ok bm groups s m ms :
  monthlySummaryOf bm groups s m = Ok ms ->
  let monthOccurrences := default [] (groups !! Some m) in
  ms_month ms = m
  /\ net (ms_revenue ms) = reduceSum netAmount (List.filter isRevenue monthOccurrences)
  /\ vatTotal (ms_revenue ms) = reduceSum vatAmount (List.filter isRevenue monthOccurrences)
  /\ e_net (ms_expenses ms) = reduceSum netAmount (List.filter isExpense monthOccurrences).
Proof.
  unfold monthlySummaryOf. cbv zeta.
  destruct (closingAt bm operating m); cbn; [| discriminate].
  destruct (closingAt bm savings m); cbn; [| discriminate].
  destruct (closingAt bm personal m); cbn; [| discriminate].
  destruct (closingAt bm vat m); cbn; [| discriminate].
  intros H. injection H as <-. cbn. repeat split; reflexivity.
Qed.

Lemma calculateMonthlySummaries_Ok bm occurrences s monthlyTotals :
  calculateMonthlySummaries bm occurrences s = Ok monthlyTotals ->
  Forall2 (fun m ms =>
             monthlySummaryOf bm (groupBy (fun occ => monthOfDate (date occ)) occurrences)
                              s m = Ok ms)
          (getFiscalMonthOrder s) monthlyTotals.
Proof.
  unfold calculateMonthlySummaries. cbv zeta.
  set (g := groupBy _ _). generalize (getFiscalMonthOrder s). intros order.
  assert (H : forall acc res,
            forEachM (fun monthlySummaries month =>
                        ms ← monthlySummaryOf bm g s month;
                        Ok (monthlySummaries ++ [ms])%list) order acc = Ok res ->
            exists mss, res = (acc ++ mss)%list
                        /\ Forall2 (fun m ms => monthlySummaryOf bm g s m = Ok ms) order mss).
  { induction order as [| m order IH]; intros acc res H; cbn [forEachM] in H.
    - injection H as <-. exists []. rewrite app_nil_r. split; [reflexivity | constructor].
    - destruct (monthlySummaryOf bm g s m) as [ms |] eqn:E; cbn in H; [| discriminate].
      apply IH in H as (mss & -> & HF). exists (ms :: mss).
      rewrite <- app_assoc. split; [reflexivity |]. constructor; assumption. }
  intros H0. apply H in H0 as (mss & -> & HF). exact HF.
Qed.

Lemma fiscalOrder_perm s :
  1 <= s <= 12 -> Permutation (getFiscalMonthOrder s) (getFiscalMonthOrder 1).
Proof.
  intros Hs.
  assert (H : exists k, (k < 12)%nat /\ s = 1 + Z.of_nat k)
    by (exists (Z.to_nat (s - 1)); lia).
  destruct H as (k & Hk & ->).
  assert (E : getFiscalMonthOrder (1 + Z.of_nat k)
              = (skipn k (getFiscalMonthOrder 1) ++ firstn k (getFiscalMonthOrder 1))%list).
  { do 12 (destruct k as [| k]; [vm_compute; reflexivity |]). lia. }
  rewrite E, Permutation_app_comm, firstn_skipn. reflexivity.
Qed.



(** ** When [runSimulation] returns *)

Lemma Qgtb_within (x y : Q) : (x == y)%Q -> Qgtb (Qabs (x - y)) tolerance = false.
Proof.
  intros H. apply Qgtb_false_iff.
  assert (E : (x - y == 0)%Q) by (rewrite H; ring).
  rewrite E. vm_compute. discriminate.
Qed.

Lemma fiscalStart_cases (s : Z) :
  1 <= s <= 12 -> In s [1; 2; 3; 4; 5; 6; 7; 8; 9; 10; 11; 12].
Proof. intros H. simpl. lia. Qed.

Ltac row_compute :=
  cbv -[Qplus Qminus Qabs Qgtb balanceOf tolerance accountName String.append].

Lemma initial_row_checks inputs a :
  let s := fiscalStartMonth inputs in
  let sb := startingBalances inputs in
  1 <= s <= 12 ->
  exists row,
    rollForward (getFiscalMonthOrder s) (initialRow sb s a) = Ok row
    /\ length row = 12%nat
    /\ balanceErrorsFor inputs s (getFiscalMonthOrder s) a row = Ok []
    /\ Forall (fun fi => rollForwardErrorsAt (getFiscalMonthOrder s) a row fi = Ok [])
              (seq 1 11).
Proof.
  intros s sb Hs. subst sb. destruct inputs as [y s0 sb]. cbn in s. subst s.
  cbn [startingBalances fiscalStartMonth].
  apply fiscalStart_cases in Hs. cbv [In] in Hs.
  repeat (destruct Hs as [<- | Hs];
    [eexists; split; [row_compute; reflexivity |];
     split; [reflexivity |];
     split; [row_compute; rewrite !Qgtb_within by ring; reflexivity |];
     repeat (constructor; [row_compute; rewrite !Qgtb_within by ring; reflexivity |]);
     constructor |]).
  contradiction.
Qed.

Lemma createInitialBalances_lookup sb s a :
  createInitialBalances sb s !! a = Some (initialRow sb s a).
Proof.
  unfold createInitialBalances. cbn [fold_left accounts].
  destruct a;
    repeat (rewrite lookup_insert_eq || (rewrite lookup_insert_ne by discriminate));
    reflexivity.
Qed.

Lemma rollForwardErrors_none order a row (l : list nat) errors :
  Forall (fun fi => rollForwardErrorsAt order a row fi = Ok []) l ->
  forEachM (fun errors fiscalIndex =>
              es ← rollForwardErrorsAt order a row fiscalIndex;
              Ok (errors ++ es)%list) l errors = Ok errors.
Proof.
  intros H. revert errors. induction H as [| fi l Hfi _ IH]; intros errors;
    cbn [forEachM]; [reflexivity |].
  rewrite Hfi. cbn. rewrite app_nil_r. apply IH.
Qed.

Lemma finalize_initial inputs :
  let s := fiscalStartMonth inputs in
  1 <= s <= 12 ->
  exists bm2,
    finalizeBalances (createInitialBalances (startingBalances inputs) s) s = Ok bm2
    /\ validateBalanceInvariants bm2 inputs s = Ok []
    /\ validateRollForwardInvariants bm2 s = Ok []
    /\ forall a, exists row, bm2 !! a = Some row /\ length row = 12%nat.
Proof.
  intros s Hs.
  destruct (initial_row_checks inputs operating Hs) as (r1 & R1 & L1 & B1 & F1).
  destruct (initial_row_checks inputs savings Hs) as (r2 & R2 & L2 & B2 & F2).
  destruct (initial_row_checks inputs personal Hs) as (r3 & R3 & L3 & B3 & F3).
  destruct (initial_row_checks inputs vat Hs) as (r4 & R4 & L4 & B4 & F4).
  fold s in R1, R2, R3, R4, B1, B2, B3, B4, F1, F2, F3, F4.
  set (bm0 := createInitialBalances (startingBalances inputs) s).
  exists (<[vat := r4]> (<[personal := r3]> (<[savings := r2]> (<[operating := r1]> bm0)))).
  assert (Hlk : forall a,
            (<[vat := r4]> (<[personal := r3]> (<[savings := r2]> (<[operating := r1]> bm0))))
              !! a = Some (match a with operating => r1 | savings => r2
                                   | personal => r3 | vat => r4 end)).
  { intros a. destruct a;
      repeat (rewrite lookup_insert_eq || (rewrite lookup_insert_ne by discriminate));
      reflexivity. }
  split; [| split; [| split]].
  - unfold finalizeBalances. cbn [forEachM accounts]. subst bm0.
    rewrite createInitialBalances_lookup, R1. cbn [mbind res_bind].
    rewrite lookup_insert_ne by discriminate.
    rewrite createInitialBalances_lookup, R2. cbn [mbind res_bind].
    rewrite !lookup_insert_ne by discriminate.
    rewrite createInitialBalances_lookup, R3. cbn [mbind res_bind].
    rewrite !lookup_insert_ne by discriminate.
    rewrite createInitialBalances_lookup, R4. cbn [mbind res_bind]. reflexivity.
  - unfold validateBalanceInvariants. cbn [forEachM accounts].
    rewrite !Hlk, B1, B2, B3, B4. reflexivity.
  - unfold validateRollForwardInvariants. cbn [forEachM accounts].
    rewrite !Hlk.
    rewrite (rollForwardErrors_none _ _ _ _ _ F1). cbn [mbind res_bind].
    rewrite (rollForwardErrors_none _ _ _ _ _ F2). cbn [mbind res_bind].
    rewrite (rollForwardErrors_none _ _ _ _ _ F3). cbn [mbind res_bind].
    rewrite (rollForwardErrors_none _ _ _ _ _ F4). reflexivity.
  - intros a. rewrite Hlk. eexists. split; [reflexivity |]. destruct a; assumption.
Qed.

Lemma fiscalOrder_range s m :
  1 <= s <= 12 -> In m (getFiscalMonthOrder s) -> 1 <= m <= 12.
Proof.
  intros Hs Hm. apply (Permutation_in _ (fiscalOrder_perm s Hs)) in Hm.
  vm_compute in Hm. lia.
Qed.

Lemma closingAt_Ok bm a row m :
  bm !! a = Some row -> length row = 12%nat -> 1 <= m <= 12 ->
  exists q, closingAt bm a m = Ok q.
Proof.
  intros Hl Hlen Hm. unfold closingAt, arrayGet. rewrite Hl.
  replace (m - 1 <? 0) with false by (symmetry; apply Z.ltb_ge; lia).
  destruct (row !! Z.to_nat (m - 1)) as [mb |] eqn:E.
  - eexists. reflexivity.
  - apply lookup_ge_None in E. lia.
Qed.

Lemma monthlySummaryOf_total bm groups s m :
  (forall a, exists row, bm !! a = Some row /\ length row = 12%nat) ->
  1 <= m <= 12 ->
  exists ms, monthlySummaryOf bm groups s m = Ok ms.
Proof.
  intros Hbm Hm. unfold monthlySummaryOf. cbv zeta.
  destruct (Hbm operating) as (r1 & H1 & L1). destruct (Hbm savings) as (r2 & H2 & L2).
  destruct (Hbm personal) as (r3 & H3 & L3). destruct (Hbm vat) as (r4 & H4 & L4).
  destruct (closingAt_Ok bm operating r1 m H1 L1 Hm) as (q1 & ->).
  destruct (closingAt_Ok bm savings r2 m H2 L2 Hm) as (q2 & ->).
  destruct (closingAt_Ok bm personal r3 m H3 L3 Hm) as (q3 & ->).
  destruct (closingAt_Ok bm vat r4 m H4 L4 Hm) as (q4 & ->).
  cbn [mbind res_bind]. eexists. reflexivity.
Qed.

Lemma calculateMonthlySummaries_total bm occurrences s :
  1 <= s <= 12 ->
  (forall a, exists row, bm !! a = Some row /\ length row = 12%nat) ->
  exists ms, calculateMonthlySummaries bm occurrences s = Ok ms.
Proof.
  intros Hs Hbm. unfold calculateMonthlySummaries. cbv zeta.
  set (g := groupBy _ _).
  assert (Hr : forall m, In m (getFiscalMonthOrder s) -> 1 <= m <= 12)
    by (intros m; apply fiscalOrder_range; exact Hs).
  revert Hr. generalize (getFiscalMonthOrder s). intros order Hr.
  assert (H : forall acc, exists ms,
            forEachM (fun monthlySummaries month =>
                        ms ← monthlySummaryOf bm g s month;
                        Ok (monthlySummaries ++ [ms])%list) order acc = Ok ms).
  { induction order as [| m order IH]; intros acc; cbn [forEachM].
    - eexists. reflexivity.
    - assert (Hm : 1 <= m <= 12) by (apply Hr; left; reflexivity).
      destruct (monthlySummaryOf_total bm g s m Hbm Hm) as (ms & ->).
      cbn [mbind res_bind]. apply IH. intros m' Hm'. apply Hr. right. exact Hm'. }
  apply H.
Qed.

Lemma validateVATInvariants_none ms :
  validateVATInvariants ms (calculateOverallSummary ms) = [].
Proof.
  unfold validateVATInvariants. cbv zeta.
  destruct (overall_totals ms) as (_ & Hv & _ & Hd).
  change (totalVatCollected (calculateOverallSummary ms))
    with (vatTotal (totalRevenue (calculateOverallSummary ms))).
  change (totalVatDeductible (calculateOverallSummary ms))
    with (deductibleVat (totalExpenses (calculateOverallSummary ms))).
  change (netVatOwed (calculateOverallSummary ms))
    with (vatTotal (totalRevenue (calculateOverallSummary ms))
          - deductibleVat (totalExpenses (calculateOverallSummary ms)))%Q.
  rewrite Hv, Hd. rewrite !Qgtb_within by reflexivity. reflexivity.
Qed.

Lemma sumPostings_cons o l :
  sumPostings (o :: l) = Err "Cannot read properties of undefined (reading 'reduce')".
Proof. reflexivity. Qed.

Lemma sumPostings_cases l :
  l = [] /\ sumPostings l = Ok 0%Q
  \/ sumPostings l = Err "Cannot read properties of undefined (reading 'reduce')".
Proof. destruct l; [left; split; reflexivity | right; reflexivity]. Qed.

Lemma notRevenue_isExpense o : isRevenue o = false -> isExpense o = true.
Proof.
  unfold isRevenue, isExpense. intros H. apply bool_decide_eq_false in H.
  apply bool_decide_eq_true. destruct (type o); [contradiction | reflexivity].
Qed.

(** A month without occurrences leaves the ledger as it is. *)
Lemma processMonth_empty cb sid groups bm i m tr :
  occurrencesOfMonth groups m = [] ->
  exists tr', processMonth cb sid groups bm (i, m) tr = (tr', Ok bm).
Proof.
  unfold occurrencesOfMonth. intros H. unfold processMonth. rewrite H.
  cbn [forEachM List.filter].
  rewrite !run_bind_unfold. unfold liftRes at 1.
  rewrite !run_bind_unfold. unfold liftRes at 1. cbn [sumPostings forEachM].
  rewrite !run_bind_unfold. unfold liftRes at 1.
  rewrite !run_bind_unfold. unfold emitProgress.
  destruct (cb && truthyText sid); eexists; reflexivity.
Qed.

(** A month with an occurrence makes the run throw. *)
Lemma processMonth_nonempty cb sid groups bm i m tr :
  occurrencesOfMonth groups m <> [] ->
  exists tr' e, processMonth cb sid groups bm (i, m) tr = (tr', Err e).
Proof.
  unfold occurrencesOfMonth. intros H. unfold processMonth.
  destruct (default [] (groups !! Some m)) as [| o rest]; [contradiction |].
  rewrite run_bind_unfold. unfold liftRes at 1.
  destruct (forEachM _ (o :: rest) bm) as [bm1 | e]; [| eexists; eexists; reflexivity].
  rewrite run_bind_unfold. unfold liftRes at 1.
  cbn [List.filter]. destruct (isRevenue o) eqn:Er.
  - rewrite sumPostings_cons. eexists; eexists; reflexivity.
  - destruct (sumPostings_cases (List.filter isRevenue rest)) as [[_ ->] | ->];
      [| eexists; eexists; reflexivity].
    rewrite run_bind_unfold. unfold liftRes at 1.
    rewrite (notRevenue_isExpense o Er), sumPostings_cons.
    eexists; eexists; reflexivity.
Qed.

Lemma monthLoop_outcome cb sid groups (steps : list (nat * Z)) bm tr :
  (Forall (fun m => occurrencesOfMonth groups m = []) (map snd steps) ->
   exists tr', forEachR (processMonth cb sid groups) steps bm tr = (tr', Ok bm))
  /\ (Exists (fun m => occurrencesOfMonth groups m <> []) (map snd steps) ->
      exists tr' e, forEachR (processMonth cb sid groups) steps bm tr = (tr', Err e)).
Proof.
  revert tr. induction steps as [| [i m] steps IH]; intros tr; cbn [map forEachR snd].
  - split; [intros _; eexists; reflexivity | intros H; inversion H].
  - split.
    + intros H. inversion H as [| ? ? Hm Hrest]; subst.
      destruct (processMonth_empty cb sid groups bm i m tr Hm) as (tr1 & E).
      rewrite run_bind_unfold, E. apply IH. exact Hrest.
    + intros H. rewrite run_bind_unfold.
      destruct (occurrencesOfMonth groups m) as [| o rest] eqn:Em.
      * destruct (processMonth_empty cb sid groups bm i m tr Em) as (tr1 & ->).
        apply IH. inversion H as [? ? Hm | ? ? Hrest]; subst;
          [rewrite Em in Hm; contradiction | exact Hrest].
      * assert (Hne : occurrencesOfMonth groups m <> []) by (rewrite Em; discriminate).
        destruct (processMonth_nonempty cb sid groups bm i m tr Hne) as (tr1 & e & ->).
        eexists; eexists; reflexivity.
Qed.

Lemma fiscalSteps_months s :
  map snd (imap (fun (i : nat) (m : Z) => (i, m)) (getFiscalMonthOrder s))
  = getFiscalMonthOrder s.
Proof. reflexivity. Qed.

Lemma emitProgress_Ok cb sid m p pb tx tr :
  exists tr', emitProgress cb sid m p pb tx tr = (tr', Ok ()).
Proof. unfold emitProgress. destruct (cb && truthyText sid); eexists; reflexivity. Qed.

(** [runSimulation] returns exactly when the inputs pass validation and no
    occurrence falls in a month of the month loop. *)
Lemma simulationBody_outcome tz inputs rev exp company cfg sid cb :
  1 <= fiscalStartMonth inputs <= 12 ->
  let occurrences := expandAllPatterns tz rev exp company (year inputs) in
  let groups := groupBy (fun o => localMonth tz (date o)) occurrences in
  (Forall (fun m => occurrencesOfMonth groups m = []) (getFiscalMonthOrder 1) ->
   exists tr results,
     simulationBody tz inputs rev exp company cfg sid cb [] = (tr, Ok results))
  /\ (Exists (fun m => occurrencesOfMonth groups m <> []) (getFiscalMonthOrder 1) ->
      exists tr e,
        simulationBody tz inputs rev exp company cfg sid cb [] = (tr, Err e)).
Proof.
  intros Hs occurrences groups.
  pose proof (fiscalOrder_perm _ Hs) as Hperm.
  unfold simulationBody. cbv zeta. fold occurrences groups.
  destruct (emitProgress_Ok cb sid 1 10%Q None None []) as (t1 & E1).
  destruct (emitProgress_Ok cb sid 1 20%Q None None t1) as (t2 & E2).
  rewrite run_bind_unfold, E1, run_bind_unfold, E2, run_bind_unfold.
  destruct (monthLoop_outcome cb sid groups
              (imap (fun (i : nat) (m : Z) => (i, m))
                    (getFiscalMonthOrder (fiscalStartMonth inputs)))
              (createInitialBalances (startingBalances inputs) (fiscalStartMonth inputs))
              t2) as [Hok Herr].
  rewrite fiscalSteps_months in Hok, Herr.
  split.
  - intros Hall. destruct Hok as (t3 & ->).
    { apply Forall_forall. intros m Hm. rewrite Forall_forall in Hall.
      apply Hall. rewrite <- Hperm. exact Hm. }
    destruct (finalize_initial inputs Hs) as (bm2 & Hfin & Hbal & Hroll & Hrows).
    destruct (calculateMonthlySummaries_total bm2 occurrences _ Hs Hrows) as (ms & Hms).
    destruct (emitProgress_Ok cb sid 12 85%Q None None t3) as (t4 & E4).
    destruct (emitProgress_Ok cb sid 12 90%Q None None t4) as (t5 & E5).
    destruct (emitProgress_Ok cb sid 12 95%Q None None t5) as (t6 & E6).
    destruct (emitProgress_Ok cb sid 12 100%Q None None t6) as (t7 & E7).
    rewrite run_bind_unfold, E4, run_bind_unfold. unfold liftRes at 1. rewrite Hfin.
    rewrite run_bind_unfold, E5, run_bind_unfold. unfold liftRes at 1. rewrite Hms.
    rewrite run_bind_unfold, E6, run_bind_unfold. unfold liftRes at 1. rewrite Hbal.
    rewrite run_bind_unfold. unfold liftRes at 1. rewrite Hroll.
    rewrite validateVATInvariants_none. cbn [app].
    rewrite run_bind_unfold, E7. eexists; eexists; reflexivity.
  - intros Hex. destruct Herr as (t3 & e & ->).
    { apply Exists_exists. rewrite Exists_exists in Hex.
      destruct Hex as (m & Hm & Hne). exists m. split; [| exact Hne].
      rewrite Hperm. exact Hm. }
    eexists; eexists; reflexivity.
Qed.

(** The ledger functions alone, applied to the occurrences of the
    roll-forward scenario, give the same net profit (9000) and the same VAT
    collected (3600) for a fiscal year from July as for the calendar year. *)
Lemma roll_forward_ledger :
  map (fun s =>
         let occurrences :=
           expandAllPatterns 60 [irregularRevenue] [variableCosts] fiscalCompany 2024 in
         balanceMap ← applyOccurrences
                        occurrences
                        (createInitialBalances (startingBalances rollForwardInputs) s);
         balanceMap ← finalizeBalances balanceMap s;
         monthlyTotals ← calculateMonthlySummaries balanceMap occurrences s;
         let overall := calculateOverallSummary monthlyTotals in
         Ok (Qred (netProfit overall), Qred (totalVatCollected overall)))
      [7; 1]
  = [Ok (9000%Q, 3600%Q); Ok (9000%Q, 3600%Q)].
Proof. vm_compute. reflexivity. Qed.

(** C8 (the code departs from the claim). On the roll-forward scenario of
    the integration tests (a fiscal year from July, one monthly revenue and
    one monthly expense from July) [runSimulation] returns no totals to
    compare, neither for the fiscal start month 7 of the scenario, nor for
    the fiscal start month 1, nor for any other: every one of the twelve
    runs throws on the first month that holds an occurrence, where the month
    loop reads the property [postings] that an occurrence does not have. *)
Theorem fiscal_start_runs_throw :
  Forall
    (fun s =>
       runSimulation 60 (withFiscalStart rollForwardInputs s)
                     [irregularRevenue] [variableCosts] fiscalCompany noConfig None false
       = ([], Err "Simulation failed: Cannot read properties of undefined (reading 'reduce')"))
    [1; 2; 3; 4; 5; 6; 7; 8; 9; 10; 11; 12].
Proof. repeat (constructor; [vm_compute; reflexivity |]). constructor. Qed.

(** ** The closing balance of the fiscal year *)

Lemma opensAt_initial sb s : 1 <= s <= 12 -> opensAt sb s (createInitialBalances sb s).
Proof.
  intros Hs a. rewrite createInitialBalances_lookup.
  apply fiscalStart_cases in Hs. cbv [In] in Hs.
  repeat (destruct Hs as [<- | Hs];
    [eexists; eexists; split; [reflexivity |]; split; [reflexivity |];
     split; [vm_compute; reflexivity | reflexivity] |]).
  contradiction.
Qed.

Lemma opensAt_apply sb s occurrence bm bm' :
  opensAt sb s bm -> applyOccurrenceToBalances occurrence bm = Ok bm' -> opensAt sb s bm'.
Proof.
  unfold applyOccurrenceToBalances. apply forEachM_invariant.
  intros st posting st' Hst H.
  destruct (Hst (account posting)) as (l & mb0 & Hl & Hlen & Hmb0 & Hopen0).
  rewrite Hl in H.
  destruct (monthOfDate (date occurrence)) as [m |]; cbn in H; [| discriminate].
  destruct (arrayGet l (Some (m - 1))) as [mb |] eqn:E; [| discriminate].
  injection H as <-. apply arrayGet_Some in E as [Hm E].
  intros a. destruct (decide (a = account posting)) as [-> | Hne].
  - rewrite lookup_insert_eq.
    destruct (decide (Z.to_nat (m - 1) = Z.to_nat (s - 1))) as [Heq | Hneq].
    + exists (<[Z.to_nat (m - 1) := postToBucket occurrence posting mb]> l),
             (postToBucket occurrence posting mb).
      split; [reflexivity |]. split; [rewrite length_insert; exact Hlen |].
      split.
      * rewrite <- Heq. apply list_lookup_insert_eq. apply lookup_lt_Some in E. exact E.
      * rewrite <- Heq in Hmb0. rewrite E in Hmb0. injection Hmb0 as <-. exact Hopen0.
    + exists (<[Z.to_nat (m - 1) := postToBucket occurrence posting mb]> l), mb0.
      split; [reflexivity |]. split; [rewrite length_insert; exact Hlen |].
      split; [| exact Hopen0].
      rewrite list_lookup_insert_ne by exact Hneq. exact Hmb0.
  - rewrite lookup_insert_ne by congruence. apply Hst.
Qed.

Lemma opensAt_applyOccurrences sb s occurrences bm bm' :
  opensAt sb s bm -> applyOccurrences occurrences bm = Ok bm' -> opensAt sb s bm'.
Proof.
  unfold applyOccurrences. apply forEachM_invariant.
  intros st o st' Hst H. apply (opensAt_apply sb s o st st' Hst H).
Qed.

Lemma row_closing s (row : list MonthlyAccountBalance) mb :
  1 <= s <= 12 ->
  length row = 12%nat ->
  row !! Z.to_nat (s - 1) = Some mb ->
  exists row' lastBucket,
    rollForward (getFiscalMonthOrder s) row = Ok row'
    /\ length row' = 12%nat
    /\ row' !! Z.to_nat (lastFiscalMonth s - 1) = Some lastBucket
    /\ closingBalance lastBucket = rolledBalance row' s (openingBalance mb).
Proof.
  intros Hs Hlen Hmb.
  do 12 (destruct row as [| [? ? ? ? ? [? ? ?]] row]; [discriminate Hlen |]).
  destruct row; [| discriminate Hlen]. clear Hlen.
  apply fiscalStart_cases in Hs. cbv [In] in Hs.
  repeat (destruct Hs as [<- | Hs];
    [cbn in Hmb; injection Hmb as <-;
     eexists; eexists; split; [row_compute; reflexivity |];
     split; [reflexivity |]; split; [reflexivity |];
     row_compute; reflexivity |]).
  contradiction.
Qed.

Lemma finalize_closing inputs bm :
  let s := fiscalStartMonth inputs in
  1 <= s <= 12 ->
  opensAt (startingBalances inputs) s bm ->
  exists bm2,
    finalizeBalances bm s = Ok bm2
    /\ forall a, exists row lastBucket,
         bm2 !! a = Some row /\ length row = 12%nat
         /\ row !! Z.to_nat (lastFiscalMonth s - 1) = Some lastBucket
         /\ closingBalance lastBucket
            = rolledBalance row s (balanceOf (startingBalances inputs) a).
Proof.
  intros s Hs Hbm.
  destruct (Hbm operating) as (l1 & m1 & K1 & N1 & M1 & O1).
  destruct (Hbm savings) as (l2 & m2 & K2 & N2 & M2 & O2).
  destruct (Hbm personal) as (l3 & m3 & K3 & N3 & M3 & O3).
  destruct (Hbm vat) as (l4 & m4 & K4 & N4 & M4 & O4).
  destruct (row_closing s l1 m1 Hs N1 M1) as (r1 & b1 & R1 & L1 & B1 & C1).
  destruct (row_closing s l2 m2 Hs N2 M2) as (r2 & b2 & R2 & L2 & B2 & C2).
  destruct (row_closing s l3 m3 Hs N3 M3) as (r3 & b3 & R3 & L3 & B3 & C3).
  destruct (row_closing s l4 m4 Hs N4 M4) as (r4 & b4 & R4 & L4 & B4 & C4).
  rewrite O1 in C1. rewrite O2 in C2. rewrite O3 in C3. rewrite O4 in C4.
  exists (<[vat := r4]> (<[personal := r3]> (<[savings := r2]> (<[operating := r1]> bm)))).
  split.
  - unfold finalizeBalances. cbn [forEachM accounts].
    rewrite K1, R1. cbn [mbind res_bind].
    rewrite lookup_insert_ne by discriminate.
    rewrite K2, R2. cbn [mbind res_bind].
    rewrite !lookup_insert_ne by discriminate.
    rewrite K3, R3. cbn [mbind res_bind].
    rewrite !lookup_insert_ne by discriminate.
    rewrite K4, R4. cbn [mbind res_bind]. reflexivity.
  - intros a. destruct a;
      repeat (rewrite lookup_insert_eq || (rewrite lookup_insert_ne by discriminate));
      eexists; eexists; (split; [reflexivity |]); (split; [eassumption |]);
      (split; eassumption).
Qed.

Lemma applyOccurrences_ok occurrences bm bm' :
  ledgerOk bm -> applyOccurrences occurrences bm = Ok bm' -> ledgerOk bm'.
Proof.
  unfold applyOccurrences. apply forEachM_invariant.
  intros st o st' Hst H. apply (applyOccurrenceToBalances_ok o st st' Hst H).
Qed.

(** C1. For every input on which [runSimulation] returns its results, and
    for every account, the results hold twelve buckets for the account, and
    the closing balance of the bucket of the last fiscal month differs by at
    most 0.01 from the configured starting balance plus the sum of the
    netChange of the twelve buckets.  Behind it, on every ledger the engine
    builds, whatever occurrences were posted (fiscal start month in 1..12):
    the closing balance of the last fiscal month of each account is the
    starting balance of the account to which the net changes of the twelve
    months were added one after the other in fiscal order; and when
    [validateBalanceInvariants] reports nothing on the ledger, as it must
    for a run to return, that closing balance is within 0.01 of the starting
    balance plus the sum, in calendar order, of the twelve net changes. *)
Theorem closing_balance_conservation :
  (forall tz inputs rev exp company config sid cb tr results,
     runSimulation tz inputs rev exp company config sid cb = (tr, Ok results) ->
     forall a, exists lastBucket,
       bucketAt results a (lastFiscalMonth (fiscalStartMonth inputs)) = Some lastBucket
       /\ length (bucketsOf results a) = 12%nat
       /\ (Qabs (closingBalance lastBucket
                 - (balanceOf (startingBalances inputs) a
                    + reduceSum (fun mb => netChange (summary mb))
                                (bucketsOf results a)))
           <= tolerance)%Q)
  /\ (forall inputs occurrences bm1 bm2,
        let s := fiscalStartMonth inputs in
        1 <= s <= 12 ->
        applyOccurrences occurrences (createInitialBalances (startingBalances inputs) s)
        = Ok bm1 ->
        finalizeBalances bm1 s = Ok bm2 ->
        forall a, exists row lastBucket,
          bm2 !! a = Some row
          /\ length row = 12%nat
          /\ bucket bm2 a (lastFiscalMonth s) = Some lastBucket
          /\ closingBalance lastBucket
             = rolledBalance row s (balanceOf (startingBalances inputs) a)
          /\ (validateBalanceInvariants bm2 inputs s = Ok [] ->
              (Qabs (closingBalance lastBucket
                     - (balanceOf (startingBalances inputs) a
                        + reduceSum (fun mb => netChange (summary mb)) row))
               <= tolerance)%Q)).
Proof.
  split.
  - intros tz inputs rev exp company config sid cb tr results H a.
    apply runSimulation_Ok in H as (Hv & _ & H).
    apply validated_fiscalStartMonth in Hv as [_ Hs].
    apply finalLedger_ok in H as (bm & Hbm & Hmb & Hbal).
    destruct (validateBalanceInvariants_none bm inputs _ a Hbm Hbal) as (l & Hl & He).
    apply balanceErrorsFor_none in He as (lastB & Hlast & Hq).
    destruct (Hbm a) as (l' & Hl' & Hrow). rewrite Hl in Hl'. injection Hl' as <-.
    apply arrayGet_Some in Hlast as [Hm Hlast].
    destruct (proj2 Hrow _ _ Hlast) as (Ha & Hmonth & _).
    assert (Hperm : Permutation (bucketsOf results a) l).
    { unfold bucketsOf. rewrite Hmb.
      rewrite (filter_perm _ _ _ (sort_perm _ _)).
      rewrite (filter_flatten bm a l Hbm Hl). reflexivity. }
    exists lastB. split; [| split].
    + unfold bucketAt. rewrite Hmb. apply find_unique.
      * apply (Permutation_in _ (Permutation_sym (sort_perm _ _))).
        unfold flattenBalances. apply in_flat_map. exists a. split.
        -- destruct a; cbn; tauto.
        -- rewrite Hl. cbn. apply list_elem_of_In, list_elem_of_lookup.
           eexists; eassumption.
      * rewrite Ha, Hmonth, Z2Nat.id by exact Hm.
        rewrite bool_decide_eq_true_2 by reflexivity.
        apply Z.eqb_eq. lia.
      * intros y Hy Py. apply andb_true_iff in Py as [Py1 Py2].
        apply bool_decide_eq_true in Py1. apply Z.eqb_eq in Py2.
        apply (Permutation_in _ (sort_perm _ _)) in Hy.
        destruct (flattenBalances_In bm y Hbm Hy) as (ly & i & Hly & Hi & Hmy & _).
        rewrite Py1, Hl in Hly. injection Hly as <-.
        assert (i = Z.to_nat (lastFiscalMonth (fiscalStartMonth inputs) - 1)) by lia.
        subst i. rewrite Hlast in Hi. injection Hi as <-. reflexivity.
    + rewrite (Permutation_length Hperm). apply Hrow.
    + rewrite (reduceSum_perm _ _ _ Hperm). exact Hq.
  - intros inputs occurrences bm1 bm2 s Hs H1 H2 a.
    assert (Hopen : opensAt (startingBalances inputs) s bm1).
    { apply (opensAt_applyOccurrences _ _ occurrences
               (createInitialBalances (startingBalances inputs) s)); [| exact H1].
      apply opensAt_initial. exact Hs. }
    destruct (finalize_closing inputs bm1 Hs Hopen) as (bm2' & Hfin & Hrows).
    fold s in Hfin. rewrite H2 in Hfin. injection Hfin as <-.
    destruct (Hrows a) as (row & lastBucket & Hrow & Hlen & Hlast & Hclosing).
    exists row, lastBucket. split; [exact Hrow |]. split; [exact Hlen |].
    split; [unfold bucket; rewrite Hrow; exact Hlast |].
    split; [exact Hclosing |].
    intros Hbal.
    assert (Hbm : ledgerOk bm2).
    { apply (finalizeBalances_ok bm1 s); [| exact H2].
      apply (applyOccurrences_ok occurrences
               (createInitialBalances (startingBalances inputs) s) bm1); [| exact H1].
      apply createInitialBalances_ok. }
    destruct (validateBalanceInvariants_none bm2 inputs s a Hbm Hbal) as (row' & Hrow' & He).
    rewrite Hrow in Hrow'. injection Hrow' as <-.
    apply balanceErrorsFor_none in He as (lastB & HlastB & Hq).
    apply arrayGet_Some in HlastB as [_ HlastB].
    assert (E : Some lastB = Some lastBucket)
      by (transitivity (row !! Z.to_nat (lastFiscalMonth s - 1));
          [symmetry; exact HlastB | exact Hlast]).
    injection E as <-. exact Hq.
Qed.

Lemma closing_balance_conservation_witness :
  (exists results,
     snd (runSimulation 60 pureRevenueInputs [] [] testCompany noConfig None false)
     = Ok results
     /\ forall a, exists lastBucket,
          bucketAt results a (lastFiscalMonth 1) = Some lastBucket
          /\ length (bucketsOf results a) = 12%nat
          /\ (Qabs (closingBalance lastBucket
                    - (balanceOf (startingBalances pureRevenueInputs) a
                       + reduceSum (fun mb => netChange (summary mb))
                                   (bucketsOf results a)))
              <= tolerance)%Q)
  /\ exists bm1 bm2 row lastBucket,
       applyOccurrences (expandAllPatterns 60 [rev001; rev002] [rent] testCompany 2024)
                        (createInitialBalances (startingBalances pureRevenueInputs) 1)
       = Ok bm1
       /\ finalizeBalances bm1 1 = Ok bm2
       /\ bm2 !! operating = Some row
       /\ bucket bm2 operating 12 = Some lastBucket
       /\ closingBalance lastBucket = rolledBalance row 1 1000
       /\ (Qabs (closingBalance lastBucket
                 - (1000 + reduceSum (fun mb => netChange (summary mb)) row))
           <= tolerance)%Q
       /\ Qred (reduceSum (fun mb => netChange (summary mb)) row) = 146000%Q
       /\ Qred (closingBalance lastBucket) = 147000%Q.
Proof.
  split.
  { destruct (runSimulation 60 pureRevenueInputs [] [] testCompany noConfig None false)
      as [tr [results | e]] eqn:E.
    - exists results. split; [reflexivity |].
      exact (proj1 closing_balance_conservation 60 pureRevenueInputs [] [] testCompany
               noConfig None false tr results E).
    - vm_compute in E. discriminate E. }
  set (occurrences := expandAllPatterns 60 [rev001; rev002] [rent] testCompany 2024).
  set (initial := createInitialBalances (startingBalances pureRevenueInputs) 1).
  assert (V : (bm1 ← applyOccurrences occurrences initial;
               bm2 ← finalizeBalances bm1 1;
               errors ← validateBalanceInvariants bm2 pureRevenueInputs 1;
               Ok (errors,
                   row ← bm2 !! operating;
                   lastBucket ← bucket bm2 operating 12;
                   Some (Qred (reduceSum (fun mb => netChange (summary mb)) row),
                         Qred (closingBalance lastBucket))))
              = Ok ([], Some (146000%Q, 147000%Q)))
    by (vm_compute; reflexivity).
  destruct (applyOccurrences occurrences initial) as [bm1 | e] eqn:E1;
    [| discriminate V].
  cbn [mbind res_bind] in V.
  destruct (finalizeBalances bm1 1) as [bm2 | e] eqn:E2; [| discriminate V].
  cbn [mbind res_bind] in V.
  destruct (validateBalanceInvariants bm2 pureRevenueInputs 1) as [errors | e] eqn:E3;
    [| discriminate V].
  cbn [mbind res_bind] in V. injection V as -> V.
  destruct (proj2 closing_balance_conservation pureRevenueInputs occurrences bm1 bm2
              ltac:(cbn; lia) E1 E2 operating)
    as (row & lastBucket & Hrow & _ & Hlast & Hrolled & Hq).
  change (lastFiscalMonth (fiscalStartMonth pureRevenueInputs)) with 12 in Hlast.
  rewrite Hrow, Hlast in V. cbn [mbind option_bind] in V. injection V as Vs Vc.
  exists bm1, bm2, row, lastBucket.
  split; [reflexivity |]. split; [exact E2 |]. split; [exact Hrow |].
  split; [exact Hlast |]. split; [exact Hrolled |]. split; [exact (Hq E3) |].
  split; [exact Vs | exact Vc].
Defined.

(** ** A property of every bucket, kept by the posting loop and the
    roll-forward *)

Lemma allBuckets_initial (P : MonthlyAccountBalance -> Prop) sb s :
  (forall a m x, P {| mb_account := a; month := m; openingBalance := x;
                      transactions := []; closingBalance := x;
                      summary := zeroSummary |}) ->
  allBuckets P (createInitialBalances sb s).
Proof.
  intros HP a row mb Hrow Hin. rewrite createInitialBalances_lookup in Hrow.
  injection Hrow as <-. unfold initialRow in Hin.
  apply in_map_iff in Hin as (m & <- & _).
  destruct (m =? s); apply HP.
Qed.

Lemma allBuckets_apply (P : MonthlyAccountBalance -> Prop) occurrence bm bm' :
  (forall o p mb, P mb -> P (postToBucket o p mb)) ->
  allBuckets P bm -> applyOccurrenceToBalances occurrence bm = Ok bm' ->
  allBuckets P bm'.
Proof.
  intros HP. unfold applyOccurrenceToBalances. apply forEachM_invariant.
  intros st posting st' Hst H.
  destruct (st !! account posting) as [l |] eqn:Hl; [| injection H as <-; exact Hst].
  destruct (arrayGet l _) as [mb0 |] eqn:E; [| discriminate].
  injection H as <-.
  intros a row mb Hrow Hin.
  destruct (decide (a = account posting)) as [-> | Hne].
  - rewrite lookup_insert_eq in Hrow. injection Hrow as <-.
    apply list_elem_of_In, list_elem_of_lookup in Hin as (i & Hi).
    apply list_lookup_insert_Some in Hi as [(_ & <- & _) | (_ & Hi)].
    + apply HP. destruct (monthOfDate (date occurrence)) as [m |]; [| discriminate E].
      cbn in E. apply arrayGet_Some in E as [_ E].
      apply (Hst _ _ _ Hl). apply list_elem_of_In, list_elem_of_lookup. eexists; exact E.
    + apply (Hst _ _ _ Hl). apply list_elem_of_In, list_elem_of_lookup. eexists; exact Hi.
  - rewrite lookup_insert_ne in Hrow by congruence. apply (Hst _ _ _ Hrow Hin).
Qed.

Lemma allBuckets_applyOccurrences (P : MonthlyAccountBalance -> Prop) occurrences bm bm' :
  (forall o p mb, P mb -> P (postToBucket o p mb)) ->
  allBuckets P bm -> applyOccurrences occurrences bm = Ok bm' -> allBuckets P bm'.
Proof.
  intros HP. unfold applyOccurrences. apply forEachM_invariant.
  intros st o st' Hst H. apply (allBuckets_apply P o st st' HP Hst H).
Qed.

Lemma allBuckets_rollForward (P : MonthlyAccountBalance -> Prop) order l l' :
  (forall mb o c, P mb ->
     P {| mb_account := mb_account mb; month := month mb; openingBalance := o;
          transactions := transactions mb; closingBalance := c;
          summary := summary mb |}) ->
  Forall P l -> rollForward order l = Ok l' -> Forall P l'.
Proof.
  intros HP. unfold rollForward. apply forEachM_invariant.
  intros st [i m] st' Hst H.
  destruct (arrayGet st (Some (m - 1))) as [mb |] eqn:E; [| discriminate].
  apply arrayGet_Some in E as [_ E].
  assert (Hmb : P mb).
  { rewrite List.Forall_forall in Hst. apply Hst.
    apply list_elem_of_In, list_elem_of_lookup. eexists; exact E. }
  destruct (i =? 0)%nat.
  - injection H as <-. apply Forall_insert; [exact Hst | apply HP; exact Hmb].
  - destruct (arrayGet st _) as [pm |]; [| discriminate].
    injection H as <-. apply Forall_insert; [exact Hst | apply HP; exact Hmb].
Qed.

Lemma allBuckets_finalize (P : MonthlyAccountBalance -> Prop) bm s bm' :
  (forall mb o c, P mb ->
     P {| mb_account := mb_account mb; month := month mb; openingBalance := o;
          transactions := transactions mb; closingBalance := c;
          summary := summary mb |}) ->
  allBuckets P bm -> finalizeBalances bm s = Ok bm' -> allBuckets P bm'.
Proof.
  intros HP. unfold finalizeBalances. apply forEachM_invariant.
  intros st a st' Hst H.
  destruct (st !! a) as [l |] eqn:Hl; [| injection H as <-; exact Hst].
  destruct (rollForward _ l) as [l' |] eqn:E; [| discriminate].
  injection H as <-.
  intros b row mb Hrow Hin.
  destruct (decide (b = a)) as [-> | Hne].
  - rewrite lookup_insert_eq in Hrow. injection Hrow as <-.
    assert (Hl' : Forall P l').
    { apply (allBuckets_rollForward P (getFiscalMonthOrder s) l l' HP); [| exact E].
      apply List.Forall_forall. intros x Hx. apply (Hst _ _ _ Hl Hx). }
    rewrite List.Forall_forall in Hl'. apply Hl'. exact Hin.
  - rewrite lookup_insert_ne in Hrow by congruence. apply (Hst _ _ _ Hrow Hin).
Qed.

(** The counters of a bucket follow its transactions. *)

Lemma reduceSum_snoc {A} (f : A -> Q) (l : list A) (x : A) :
  reduceSum f (l ++ [x]) = (reduceSum f l + f x)%Q.
Proof. unfold reduceSum. rewrite fold_left_app. reflexivity. Qed.

Lemma bookkept_initial a m x :
  bookkept {| mb_account := a; month := m; openingBalance := x;
              transactions := []; closingBalance := x; summary := zeroSummary |}.
Proof. repeat split. Qed.

Lemma bookkept_post o p mb : bookkept mb -> bookkept (postToBucket o p mb).
Proof.
  intros (Hd & Hc & Hn). unfold bookkept, postToBucket.
  cbn [summary transactions]. rewrite !List.filter_app. cbn [List.filter].
  match goal with |- context [(transactions mb ++ [?t])%list] => set (tx := t) end.
  change (isCredit tx) with (negb (isDebit tx)).
  change (isDebit tx) with (Qgtb (amount p) 0).
  destruct (Qgtb (amount p) 0); cbn [negb totalDebits totalCredits netChange];
    rewrite ?app_nil_r, !reduceSum_snoc; subst tx; cbn [t_amount];
    rewrite <- ?Hd, <- ?Hc, <- ?Hn; repeat split.
Qed.

Lemma reduceSum_nonneg {A} (f : A -> Q) (l : list A) :
  (forall x, In x l -> (0 <= f x)%Q) -> (0 <= reduceSum f l)%Q.
Proof.
  induction l as [| x l IH] using rev_ind; intros H.
  - unfold reduceSum. cbn. lra.
  - rewrite reduceSum_snoc.
    assert (0 <= reduceSum f l)%Q by (apply IH; intros y Hy; apply H, in_or_app; tauto).
    assert (0 <= f x)%Q by (apply H, in_or_app; right; left; reflexivity).
    lra.
Qed.

Lemma bookkept_nonneg mb :
  bookkept mb -> (0 <= totalDebits (summary mb))%Q /\ (0 <= totalCredits (summary mb))%Q.
Proof.
  intros (Hd & Hc & _). rewrite Hd, Hc. split; apply reduceSum_nonneg.
  - intros t Ht. apply filter_In in Ht as [_ Ht]. unfold isDebit in Ht.
    apply Qgtb_true_iff in Ht. lra.
  - intros t _. apply Qabs_nonneg.
Qed.

Lemma filter_all {A} (f : A -> bool) (l : list A) :
  Forall (fun x => f x = true) l -> List.filter f l = l.
Proof.
  induction 1 as [| x l Hx _ IH]; [reflexivity |]. cbn. rewrite Hx, IH. reflexivity.
Qed.

Lemma filter_nothing {A} (f : A -> bool) (l : list A) :
  Forall (fun x => f x = false) l -> List.filter f l = [].
Proof.
  induction 1 as [| x l Hx _ IH]; [reflexivity |]. cbn. rewrite Hx, IH. reflexivity.
Qed.

Lemma reduceSum_credits (l : list TransactionRecord) :
  Forall (fun t => isCredit t = true) l ->
  (reduceSum t_amount l == - reduceSum (fun t => Qabs (t_amount t)) l)%Q.
Proof.
  induction l as [| x l IH] using rev_ind; intros H.
  - unfold reduceSum. cbn. lra.
  - apply Forall_app in H as [Hl Hx]. apply Forall_inv in Hx.
    rewrite !reduceSum_snoc, (IH Hl).
    unfold isCredit, isDebit in Hx. apply negb_true_iff, Qgtb_false_iff in Hx.
    rewrite (Qabs_neg _ Hx). ring.
Qed.

(** A bucket that received only debits, or only credits: its net change is
    the difference of the two counters, one of which is zero. *)
Lemma bookkept_one_sided mb :
  bookkept mb ->
  Forall (fun t => isDebit t = true) (transactions mb)
  \/ Forall (fun t => isCredit t = true) (transactions mb) ->
  (netChange (summary mb) == totalDebits (summary mb) - totalCredits (summary mb))%Q.
Proof.
  intros (Hd & Hc & Hn) [H | H]; rewrite Hd, Hc, Hn.
  - rewrite (filter_all _ _ H).
    rewrite (filter_nothing isCredit)
      by (eapply List.Forall_impl; [| exact H]; intros t Ht; unfold isCredit;
          rewrite Ht; reflexivity).
    unfold reduceSum at 3. cbn. ring.
  - rewrite (filter_all _ _ H).
    rewrite (filter_nothing isDebit)
      by (eapply List.Forall_impl; [| exact H]; intros t Ht; unfold isCredit in Ht;
          apply negb_true_iff in Ht; exact Ht).
    rewrite (reduceSum_credits _ H). unfold reduceSum at 2. cbn. ring.
Qed.

Lemma ledger_bookkept sb s occurrences bm1 bm2 :
  applyOccurrences occurrences (createInitialBalances sb s) = Ok bm1 ->
  finalizeBalances bm1 s = Ok bm2 ->
  allBuckets bookkept bm2.
Proof.
  intros H1 H2.
  apply (allBuckets_finalize bookkept bm1 s bm2); [| | exact H2].
  - intros mb o c H. exact H.
  - apply (allBuckets_applyOccurrences bookkept occurrences
             (createInitialBalances sb s) bm1); [| | exact H1].
    + intros o p mb. apply bookkept_post.
    + apply allBuckets_initial. intros. apply bookkept_initial.
Qed.

(** C10. Every bucket of [monthlyBalances] in a result [runSimulation]
    returns has non-negative totalDebits and totalCredits and a netChange
    equal to totalDebits minus totalCredits.  The bookkeeping behind it
    holds of every ledger the engine builds, whatever occurrences are
    posted: in every bucket of the finalized ledger totalDebits is the sum,
    in posting order, of the positive amounts of its transactions,
    totalCredits the sum of the absolute values of the other amounts, and
    netChange the sum of all the amounts; both totals are non-negative; and
    in a bucket that received only debits, or only credits, netChange is
    totalDebits minus totalCredits. *)
Theorem summaries_consistent :
  (forall tz inputs rev exp company config sid cb tr results,
     runSimulation tz inputs rev exp company config sid cb = (tr, Ok results) ->
     forall mb, In mb (monthlyBalances results) ->
       (0 <= totalDebits (summary mb))%Q
       /\ (0 <= totalCredits (summary mb))%Q
       /\ (netChange (summary mb)
           == totalDebits (summary mb) - totalCredits (summary mb))%Q)
  /\ (forall sb s occurrences bm1 bm2,
        applyOccurrences occurrences (createInitialBalances sb s) = Ok bm1 ->
        finalizeBalances bm1 s = Ok bm2 ->
        forall a row mb, bm2 !! a = Some row -> In mb row ->
          bookkept mb
          /\ (0 <= totalDebits (summary mb))%Q
          /\ (0 <= totalCredits (summary mb))%Q
          /\ (Forall (fun t => isDebit t = true) (transactions mb)
              \/ Forall (fun t => isCredit t = true) (transactions mb) ->
              (netChange (summary mb)
               == totalDebits (summary mb) - totalCredits (summary mb))%Q)).
Proof.
  split.
  - intros tz inputs rev exp company config sid cb tr results H mb Hin.
    apply runSimulation_Ok in H as (_ & _ & H).
    apply finalLedger_ok in H as (bm & Hbm & Hmb & _).
    rewrite Hmb in Hin.
    apply (Permutation_in _ (sort_perm _ _)) in Hin.
    destruct (flattenBalances_In bm mb Hbm Hin) as (l & i & _ & _ & _ & Hs).
    exact Hs.
  - intros sb s occurrences bm1 bm2 H1 H2 a row mb Hrow Hin.
    pose proof (ledger_bookkept sb s occurrences bm1 bm2 H1 H2 a row mb Hrow Hin) as Hb.
    split; [exact Hb |].
    split; [apply bookkept_nonneg; exact Hb |].
    split; [apply bookkept_nonneg; exact Hb |].
    apply bookkept_one_sided. exact Hb.
Qed.

Lemma summaries_consistent_witness :
  (exists results,
     snd (runSimulation 60 pureRevenueInputs [] [] testCompany noConfig None false)
     = Ok results
     /\ forall mb, In mb (monthlyBalances results) ->
          (0 <= totalDebits (summary mb))%Q
          /\ (0 <= totalCredits (summary mb))%Q
          /\ (netChange (summary mb)
              == totalDebits (summary mb) - totalCredits (summary mb))%Q)
  /\ exists bm1 bm2 row march april,
       applyOccurrences (expandAllPatterns 60 [rev001; rev002] [meals] testCompany 2024)
                        (createInitialBalances (startingBalances pureRevenueInputs) 1)
       = Ok bm1
       /\ finalizeBalances bm1 1 = Ok bm2
       /\ bm2 !! operating = Some row
       /\ row !! 2%nat = Some march /\ row !! 3%nat = Some april
       /\ bookkept march /\ bookkept april
       /\ (0 <= totalCredits (summary april))%Q
       /\ (netChange (summary march)
           == totalDebits (summary march) - totalCredits (summary march))%Q
       /\ map Qred [totalDebits (summary march); totalCredits (summary march);
                    netChange (summary march)] = [10000; 0; 10000]%Q
       /\ map Qred [totalDebits (summary april); totalCredits (summary april);
                    netChange (summary april)] = [22500; 500; 22000]%Q.
Proof.
  split.
  { destruct (runSimulation 60 pureRevenueInputs [] [] testCompany noConfig None false)
      as [tr [results | e]] eqn:E.
    - exists results. split; [reflexivity |].
      exact (proj1 summaries_consistent 60 pureRevenueInputs [] [] testCompany noConfig
               None false tr results E).
    - vm_compute in E. discriminate E. }
  set (occurrences := expandAllPatterns 60 [rev001; rev002] [meals] testCompany 2024).
  set (initial := createInitialBalances (startingBalances pureRevenueInputs) 1).
  assert (V : (bm1 ← applyOccurrences occurrences initial;
               bm2 ← finalizeBalances bm1 1;
               Ok (row ← bm2 !! operating;
                   march ← row !! 2%nat;
                   april ← row !! 3%nat;
                   Some (map Qred [totalDebits (summary march);
                                   totalCredits (summary march);
                                   netChange (summary march)],
                         map Qred [totalDebits (summary april);
                                   totalCredits (summary april);
                                   netChange (summary april)],
                         forallb isDebit (transactions march))))
              = Ok (Some ([10000; 0; 10000]%Q, [22500; 500; 22000]%Q, true)))
    by (vm_compute; reflexivity).
  destruct (applyOccurrences occurrences initial) as [bm1 | e] eqn:E1;
    [| discriminate V].
  cbn [mbind res_bind] in V.
  destruct (finalizeBalances bm1 1) as [bm2 | e] eqn:E2; [| discriminate V].
  cbn [mbind res_bind] in V. injection V as V.
  destruct (bm2 !! operating) as [row |] eqn:Hrow; [| discriminate V].
  cbn [mbind option_bind] in V.
  destruct (row !! 2%nat) as [march |] eqn:Hmarch; [| discriminate V].
  cbn [mbind option_bind] in V.
  destruct (row !! 3%nat) as [april |] eqn:Hapril; [| discriminate V].
  cbn [mbind option_bind] in V.
  apply (f_equal (default ([], [], false))) in V. cbn [default from_option] in V.
  unfold Datatypes.id in V.
  apply pair_equal_spec in V as [V Vd]. apply pair_equal_spec in V as [Vm Va].
  assert (Im : In march row)
    by (apply list_elem_of_In, list_elem_of_lookup; eexists; exact Hmarch).
  assert (Ia : In april row)
    by (apply list_elem_of_In, list_elem_of_lookup; eexists; exact Hapril).
  destruct (proj2 summaries_consistent (startingBalances pureRevenueInputs) 1 occurrences
              bm1 bm2 E1 E2 operating row march Hrow Im)
    as (Bm & _ & _ & Om).
  destruct (proj2 summaries_consistent (startingBalances pureRevenueInputs) 1 occurrences
              bm1 bm2 E1 E2 operating row april Hrow Ia)
    as (Ba & _ & Ca & _).
  exists bm1, bm2, row, march, april.
  split; [reflexivity |]. split; [exact E2 |]. split; [exact Hrow |].
  split; [exact Hmarch |]. split; [exact Hapril |].
  split; [exact Bm |]. split; [exact Ba |]. split; [exact Ca |].
  split; [| split; [exact Vm | exact Va]].
  apply Om. left. apply List.Forall_forall. intros t Ht.
  rewrite forallb_forall in Vd. apply Vd. exact Ht.
Defined.

(** ** Fiscal months *)

Lemma rem12 (n : Z) : 0 <= n -> Z.rem n 12 = n mod 12.
Proof. intros H. apply Z.rem_mod_nonneg; lia. Qed.

(** X1. For a fiscal start month s and a month m, both in 1..12, the fiscal
    position of a calendar month is in 1..12, and calendarToFiscalMonth and
    fiscalToCalendarMonth are inverse to each other. *)
Theorem fiscal_calendar_round_trip (s m : Z) :
  1 <= s <= 12 -> 1 <= m <= 12 ->
  1 <= calendarToFiscalMonth m s <= 12
  /\ 1 <= fiscalToCalendarMonth m s <= 12
  /\ fiscalToCalendarMonth (calendarToFiscalMonth m s) s = m
  /\ calendarToFiscalMonth (fiscalToCalendarMonth m s) s = m.
Proof.
  intros Hs Hm. unfold calendarToFiscalMonth, fiscalToCalendarMonth.
  rewrite (rem12 (m - s + 12)), (rem12 (m - 1 + s - 1)) by lia.
  rewrite (rem12 ((m - s + 12) mod 12 + 1 - 1 + s - 1))
    by (pose proof (Z.mod_pos_bound (m - s + 12) 12); lia).
  rewrite (rem12 ((m - 1 + s - 1) mod 12 + 1 - s + 12))
    by (pose proof (Z.mod_pos_bound (m - 1 + s - 1) 12); lia).
  repeat split; try (apply Z.mod_pos_bound || idtac); 
    Z.div_mod_to_equations; lia.
Qed.

Lemma fiscal_calendar_round_trip_witness :
  fiscalToCalendarMonth (calendarToFiscalMonth 2 7) 7 = 2.
Proof.
  destruct (fiscal_calendar_round_trip 7 2) as (_ & _ & H & _); [lia | lia | exact H].
Defined.

(** X2. For a fiscal start month s in 1..12, getFiscalMonthOrder lists the
    twelve calendar months without repetition, starting at s; the month at
    position k is the calendar month of fiscal month k + 1, and a calendar
    month m sits at position calendarToFiscalMonth m s - 1. *)
Theorem fiscal_order_positions (s : Z) :
  1 <= s <= 12 ->
  length (getFiscalMonthOrder s) = 12%nat
  /\ head (getFiscalMonthOrder s) = Some s
  /\ NoDup (getFiscalMonthOrder s)
  /\ (forall k, (k < 12)%nat ->
        getFiscalMonthOrder s !! k = Some (fiscalToCalendarMonth (Z.of_nat k + 1) s))
  /\ (forall m, 1 <= m <= 12 ->
        getFiscalMonthOrder s !! Z.to_nat (calendarToFiscalMonth m s - 1) = Some m).
Proof.
  intros Hs. apply fiscalStart_cases in Hs. cbv [In] in Hs.
  assert (Hk : forall (P : nat -> Prop),
             P 0%nat -> P 1%nat -> P 2%nat -> P 3%nat -> P 4%nat -> P 5%nat -> P 6%nat ->
             P 7%nat -> P 8%nat -> P 9%nat -> P 10%nat -> P 11%nat ->
             forall k, (k < 12)%nat -> P k).
  { intros P ? ? ? ? ? ? ? ? ? ? ? ? k Hlt.
    do 12 (destruct k as [| k]; [assumption |]). lia. }
  assert (Hm : forall (P : Z -> Prop),
             P 1 -> P 2 -> P 3 -> P 4 -> P 5 -> P 6 -> P 7 -> P 8 -> P 9 -> P 10 ->
             P 11 -> P 12 -> forall m, 1 <= m <= 12 -> P m).
  { intros P ? ? ? ? ? ? ? ? ? ? ? ? m Hr.
    assert (C : m = 1 \/ m = 2 \/ m = 3 \/ m = 4 \/ m = 5 \/ m = 6 \/ m = 7 \/ m = 8
                \/ m = 9 \/ m = 10 \/ m = 11 \/ m = 12) by lia.
    repeat (destruct C as [-> | C]; [assumption |]). subst m. assumption. }
  repeat (destruct Hs as [<- | Hs];
    [split; [reflexivity |]; split; [reflexivity |];
     split; [apply NoDup_ListNoDup; vm_compute;
             repeat (constructor; [cbv [In]; lia |]); constructor |];
     split; [apply Hk; vm_compute; reflexivity | apply Hm; vm_compute; reflexivity] |]).
  contradiction.
Qed.

Lemma fiscal_order_positions_witness :
  head (getFiscalMonthOrder 7) = Some 7.
Proof.
  destruct (fiscal_order_positions 7) as (_ & H & _); [lia | exact H].
Defined.

(** ** The ledger checks on a ledger the engine built *)

Lemma row_checks inputs a (row : list MonthlyAccountBalance) mb :
  let s := fiscalStartMonth inputs in
  let sb := startingBalances inputs in
  1 <= s <= 12 ->
  length row = 12%nat ->
  row !! Z.to_nat (s - 1) = Some mb ->
  openingBalance mb = balanceOf sb a ->
  exists row',
    rollForward (getFiscalMonthOrder s) row = Ok row'
    /\ length row' = 12%nat
    /\ balanceErrorsFor inputs s (getFiscalMonthOrder s) a row' = Ok []
    /\ Forall (fun fi => rollForwardErrorsAt (getFiscalMonthOrder s) a row' fi = Ok [])
              (seq 1 11).
Proof.
  intros s sb Hs Hlen Hmb Hopen. subst sb. destruct inputs as [y s0 sb]. cbn in s. subst s.
  cbn [startingBalances fiscalStartMonth] in *.
  do 12 (destruct row as [| [? ? ? ? ? [? ? ?]] row]; [discriminate Hlen |]).
  destruct row; [| discriminate Hlen]. clear Hlen.
  apply fiscalStart_cases in Hs. cbv [In] in Hs.
  repeat (destruct Hs as [<- | Hs];
    [cbn in Hmb; injection Hmb as <-; cbn in Hopen; subst;
     eexists; split; [row_compute; reflexivity |];
     split; [reflexivity |];
     split; [row_compute; rewrite !Qgtb_within by ring; reflexivity |];
     repeat (constructor; [row_compute; rewrite !Qgtb_within by ring; reflexivity |]);
     constructor |]).
  contradiction.
Qed.

Lemma finalize_checks inputs bm :
  let s := fiscalStartMonth inputs in
  1 <= s <= 12 ->
  opensAt (startingBalances inputs) s bm ->
  exists bm2,
    finalizeBalances bm s = Ok bm2
    /\ validateBalanceInvariants bm2 inputs s = Ok []
    /\ validateRollForwardInvariants bm2 s = Ok []
    /\ forall a, exists row, bm2 !! a = Some row /\ length row = 12%nat.
Proof.
  intros s Hs Hbm.
  destruct (Hbm operating) as (l1 & m1 & K1 & N1 & M1 & O1).
  destruct (Hbm savings) as (l2 & m2 & K2 & N2 & M2 & O2).
  destruct (Hbm personal) as (l3 & m3 & K3 & N3 & M3 & O3).
  destruct (Hbm vat) as (l4 & m4 & K4 & N4 & M4 & O4).
  destruct (row_checks inputs operating l1 m1 Hs N1 M1 O1) as (r1 & R1 & L1 & B1 & F1).
  destruct (row_checks inputs savings l2 m2 Hs N2 M2 O2) as (r2 & R2 & L2 & B2 & F2).
  destruct (row_checks inputs personal l3 m3 Hs N3 M3 O3) as (r3 & R3 & L3 & B3 & F3).
  destruct (row_checks inputs vat l4 m4 Hs N4 M4 O4) as (r4 & R4 & L4 & B4 & F4).
  fold s in R1, R2, R3, R4, B1, B2, B3, B4, F1, F2, F3, F4.
  exists (<[vat := r4]> (<[personal := r3]> (<[savings := r2]> (<[operating := r1]> bm)))).
  assert (Hlk : forall a,
            (<[vat := r4]> (<[personal := r3]> (<[savings := r2]> (<[operating := r1]> bm))))
              !! a = Some (match a with operating => r1 | savings => r2
                                   | personal => r3 | vat => r4 end)).
  { intros a. destruct a;
      repeat (rewrite lookup_insert_eq || (rewrite lookup_insert_ne by discriminate));
      reflexivity. }
  split; [| split; [| split]].
  - unfold finalizeBalances. cbn [forEachM accounts].
    rewrite K1, R1. cbn [mbind res_bind].
    rewrite lookup_insert_ne by discriminate.
    rewrite K2, R2. cbn [mbind res_bind].
    rewrite !lookup_insert_ne by discriminate.
    rewrite K3, R3. cbn [mbind res_bind].
    rewrite !lookup_insert_ne by discriminate.
    rewrite K4, R4. cbn [mbind res_bind]. reflexivity.
  - unfold validateBalanceInvariants. cbn [forEachM accounts].
    rewrite !Hlk, B1, B2, B3, B4. reflexivity.
  - unfold validateRollForwardInvariants. cbn [forEachM accounts].
    rewrite !Hlk.
    rewrite (rollForwardErrors_none _ _ _ _ _ F1). cbn [mbind res_bind].
    rewrite (rollForwardErrors_none _ _ _ _ _ F2). cbn [mbind res_bind].
    rewrite (rollForwardErrors_none _ _ _ _ _ F3). cbn [mbind res_bind].
    rewrite (rollForwardErrors_none _ _ _ _ _ F4). reflexivity.
  - intros a. rewrite Hlk. eexists. split; [reflexivity |]. destruct a; assumption.
Qed.

(** X3. Whatever occurrences were posted to the ledger of
    createInitialBalances (fiscal start month in 1..12), finalizeBalances
    succeeds on it and validateRollForwardInvariants reports no error on the
    finalized ledger: each opening balance is the closing balance it was
    copied from, and each closing balance is the very sum the check
    recomputes.  validateBalanceInvariants runs to completion on it. *)
Theorem roll_forward_check_passes inputs occurrences bm1 :
  let s := fiscalStartMonth inputs in
  1 <= s <= 12 ->
  applyOccurrences occurrences (createInitialBalances (startingBalances inputs) s)
  = Ok bm1 ->
  exists bm2,
    finalizeBalances bm1 s = Ok bm2
    /\ validateRollForwardInvariants bm2 s = Ok []
    /\ exists errors, validateBalanceInvariants bm2 inputs s = Ok errors.
Proof.
  intros s Hs Happly.
  destruct (finalize_checks inputs bm1 Hs) as (bm2 & H1 & H2 & H3 & _).
  - apply (opensAt_applyOccurrences _ _ occurrences
             (createInitialBalances (startingBalances inputs) s)); [| exact Happly].
    apply opensAt_initial. exact Hs.
  - exists bm2. split; [exact H1 |]. split; [exact H3 |]. exists []. exact H2.
Qed.

Lemma roll_forward_check_passes_witness :
  exists bm1 bm2,
    applyOccurrences (expandAllPatterns 60 [rev001; rev002] [rent] testCompany 2024)
                     (createInitialBalances (startingBalances pureRevenueInputs) 1)
    = Ok bm1
    /\ finalizeBalances bm1 1 = Ok bm2
    /\ validateRollForwardInvariants bm2 1 = Ok []
    /\ exists errors, validateBalanceInvariants bm2 pureRevenueInputs 1 = Ok errors.
Proof.
  destruct (applyOccurrences (expandAllPatterns 60 [rev001; rev002] [rent] testCompany 2024)
              (createInitialBalances (startingBalances pureRevenueInputs) 1))
    as [bm1 | e] eqn:E.
  - exists bm1.
    destruct (roll_forward_check_passes pureRevenueInputs
                (expandAllPatterns 60 [rev001; rev002] [rent] testCompany 2024) bm1)
      as (bm2 & H); [cbn; lia | exact E |].
    exists bm2. split; [reflexivity | exact H].
  - vm_compute in E. discriminate E.
Defined.

(** ** One occurrence posted to the ledger *)

Lemma bucket_rows12 bm a m :
  rows12 bm -> 1 <= m <= 12 -> exists mb, bucket bm a m = Some mb.
Proof.
  intros H Hm. destruct (H a) as (row & Hrow & Hlen). unfold bucket. rewrite Hrow. cbn.
  destruct (row !! Z.to_nat (m - 1)) as [mb |] eqn:E; [eexists; reflexivity |].
  apply lookup_ge_None in E. lia.
Qed.

Lemma postings_effect o (month : option Z) m ps :
  month = Some m -> 1 <= m <= 12 ->
  forall bm, rows12 bm ->
  exists bm',
    forEachM
      (fun (balanceMap : gmap Account (list MonthlyAccountBalance)) posting =>
         match balanceMap !! account posting with
         | None => Ok balanceMap
         | Some accountBalances =>
             match arrayGet accountBalances ((fun m => m - 1) <$> month) with
             | None =>
                 Err "Cannot read properties of undefined (reading 'transactions')"
             | Some monthlyBalance =>
                 Ok (<[account posting :=
                        <[Z.to_nat (default 0 month - 1) :=
                            postToBucket o posting monthlyBalance]>
                          accountBalances]> balanceMap)
             end
         end) ps bm = Ok bm'
    /\ rows12 bm'
    /\ forall a m', 1 <= m' <= 12 ->
         exists mb mb',
           bucket bm a m' = Some mb /\ bucket bm' a m' = Some mb'
           /\ (m' <> m -> mb' = mb)
           /\ openingBalance mb' = openingBalance mb
           /\ closingBalance mb' = closingBalance mb
           /\ length (transactions mb')
              = (length (transactions mb)
                 + if (m' =? m)%Z
                   then length (List.filter (fun p => bool_decide (account p = a)) ps)
                   else 0)%nat
           /\ (netChange (summary mb')
               == netChange (summary mb)
                  + if m' =? m
                    then reduceSum (fun x => x)
                           (map amount (List.filter (fun p => bool_decide (account p = a)) ps))
                    else 0)%Q.
Proof.
  intros -> Hm. induction ps as [| p ps IH]; intros bm Hbm; cbn [forEachM].
  - exists bm. split; [reflexivity |]. split; [exact Hbm |].
    intros a m' Hm'. destruct (bucket_rows12 bm a m' Hbm Hm') as (mb & Hb).
    exists mb, mb. split; [exact Hb |]. split; [exact Hb |].
    split; [reflexivity |]. split; [reflexivity |]. split; [reflexivity |].
    split; [destruct (m' =? m); cbn; lia |].
    destruct (m' =? m); cbn; ring.
  - destruct (Hbm (account p)) as (row & Hrow & Hlen). rewrite Hrow.
    cbn [fmap option_fmap option_map default from_option]. unfold Datatypes.id.
    destruct (arrayGet row (Some (m - 1))) as [mb0 |] eqn:E.
    2:{ unfold arrayGet in E.
        replace (m - 1 <? 0) with false in E by (symmetry; apply Z.ltb_ge; lia).
        apply lookup_ge_None in E. lia. }
    apply arrayGet_Some in E as [_ E]. cbn [mbind res_bind].
    set (bm1 := <[account p := <[Z.to_nat (m - 1) := postToBucket o p mb0]> row]> bm).
    assert (Hbm1 : rows12 bm1).
    { intros a. subst bm1. destruct (decide (a = account p)) as [-> | Hne].
      - rewrite lookup_insert_eq. eexists. split; [reflexivity |].
        rewrite length_insert. exact Hlen.
      - rewrite lookup_insert_ne by congruence. apply Hbm. }
    destruct (IH bm1 Hbm1) as (bm' & Hrun & Hrows & Heff).
    exists bm'. split; [exact Hrun |]. split; [exact Hrows |].
    intros a m' Hm'.
    destruct (Heff a m' Hm') as (mb1 & mb' & Hb1 & Hb' & Hsame & Hop & Hcl & Htx & Hnet).
    destruct (bucket_rows12 bm a m' Hbm Hm') as (mb & Hb).
    exists mb, mb'. split; [exact Hb |]. split; [exact Hb' |].
    (* the bucket of [bm1] against that of [bm] *)
    assert (Hstep : (a = account p /\ m' = m /\ mb = mb0 /\ mb1 = postToBucket o p mb0)
                    \/ ((a <> account p \/ m' <> m) /\ mb1 = mb)).
    { subst bm1. unfold bucket in Hb1, Hb.
      destruct (decide (a = account p)) as [-> | Hne].
      - rewrite lookup_insert_eq in Hb1. rewrite Hrow in Hb. cbn in Hb1, Hb.
        destruct (decide (m' = m)) as [-> | Hnm].
        + left. rewrite list_lookup_insert_eq in Hb1
            by (apply lookup_lt_Some in E; exact E).
          rewrite E in Hb. injection Hb as <-. injection Hb1 as <-. tauto.
        + right. rewrite list_lookup_insert_ne in Hb1 by lia.
          rewrite Hb in Hb1. injection Hb1 as <-. tauto.
      - right. rewrite lookup_insert_ne in Hb1 by congruence.
        rewrite Hb in Hb1. injection Hb1 as <-. tauto. }
    cbn [List.filter].
    destruct Hstep as [(-> & -> & -> & ->) | [Hne ->]].
    + rewrite bool_decide_eq_true_2 by reflexivity.
      rewrite Z.eqb_refl in *. cbn [map length].
      split; [intros Hc; contradiction Hc; reflexivity |].
      split; [rewrite Hop; reflexivity |]. split; [rewrite Hcl; reflexivity |].
      split.
      * rewrite Htx. unfold postToBucket. cbn [transactions]. rewrite length_app. cbn. lia.
      * rewrite Hnet, reduceSum_cons. unfold postToBucket. cbn [summary netChange].
        destruct (Qgtb (amount p) 0); cbn [netChange]; ring.
    + split; [exact Hsame |]. split; [exact Hop |]. split; [exact Hcl |].
      destruct (m' =? m) eqn:Em.
      * apply Z.eqb_eq in Em. destruct Hne as [Hne | Hne]; [| contradiction].
        rewrite bool_decide_eq_false_2 by congruence. split; [exact Htx | exact Hnet].
      * destruct (bool_decide (account p = a)); split; assumption.
Qed.

(** X4. Posting one occurrence dated in month m (1..12) to a ledger of
    twelve-bucket rows succeeds and touches only the buckets of month m: a
    bucket of another month is unchanged, no opening or closing balance
    changes, and the bucket of account a and month m gains one transaction
    per posting to a and has its net change increased by the sum of those
    postings. *)
Theorem posting_effect o bm m :
  rows12 bm -> monthOfDate (date o) = Some m -> 1 <= m <= 12 ->
  exists bm',
    applyOccurrenceToBalances o bm = Ok bm'
    /\ rows12 bm'
    /\ forall a m', 1 <= m' <= 12 ->
         exists mb mb',
           bucket bm a m' = Some mb /\ bucket bm' a m' = Some mb'
           /\ (m' <> m -> mb' = mb)
           /\ openingBalance mb' = openingBalance mb
           /\ closingBalance mb' = closingBalance mb
           /\ (m' = m ->
               length (transactions mb')
               = (length (transactions mb) + length (postedTo a o))%nat
               /\ (netChange (summary mb')
                   == netChange (summary mb) + reduceSum (fun x => x) (postedTo a o))%Q).
Proof.
  intros Hbm Hmonth Hm.
  destruct (postings_effect o (monthOfDate (date o)) m (accountPostings o) Hmonth Hm bm Hbm)
    as (bm' & Hrun & Hrows & Heff).
  exists bm'. split; [exact Hrun |]. split; [exact Hrows |].
  intros a m' Hm'.
  destruct (Heff a m' Hm') as (mb & mb' & Hb & Hb' & Hsame & Hop & Hcl & Htx & Hnet).
  exists mb, mb'. split; [exact Hb |]. split; [exact Hb' |]. split; [exact Hsame |].
  split; [exact Hop |]. split; [exact Hcl |].
  intros ->. rewrite Z.eqb_refl in Htx, Hnet. unfold postedTo.
  rewrite length_map. split; [exact Htx | exact Hnet].
Qed.

Lemma posting_effect_witness :
  exists bm',
    applyOccurrenceToBalances
      (createOccurrence rev001 testCompany (mkDate 2024 2 1))
      (createInitialBalances (startingBalances pureRevenueInputs) 1) = Ok bm'
    /\ rows12 bm'.
Proof.
  destruct (posting_effect (createOccurrence rev001 testCompany (mkDate 2024 2 1))
              (createInitialBalances (startingBalances pureRevenueInputs) 1) 3)
    as (bm' & H1 & H2 & _).
  - intros a. destruct a; eexists; (split; [vm_compute; reflexivity | reflexivity]).
  - vm_compute. reflexivity.
  - lia.
  - exists bm'. split; [exact H1 | exact H2].
Defined.

(** X5. Posting an occurrence whose date text does not carry a month number
    in 1..12 at positions 5..6 throws a TypeError as soon as it has a posting:
    the bucket looked up does not exist.  This is what happens to a date with
    a five-digit year. *)
Theorem posting_invalid_month_throws o bm :
  rows12 bm -> accountPostings o <> [] ->
  match monthOfDate (date o) with
  | Some m => m < 1 \/ 12 < m
  | None => True
  end ->
  applyOccurrenceToBalances o bm
  = Err "Cannot read properties of undefined (reading 'transactions')".
Proof.
  intros Hbm Hps Hmonth. unfold applyOccurrenceToBalances.
  destruct (accountPostings o) as [| p ps]; [contradiction Hps; reflexivity |].
  cbn [forEachM]. destruct (Hbm (account p)) as (row & Hrow & Hlen). rewrite Hrow.
  replace (arrayGet row ((fun m => m - 1) <$> monthOfDate (date o))) with
    (@None MonthlyAccountBalance); [reflexivity |].
  symmetry. destruct (monthOfDate (date o)) as [m |]; [| reflexivity].
  cbn [fmap option_fmap option_map]. unfold arrayGet.
  destruct (m - 1 <? 0) eqn:E; [reflexivity |].
  apply Z.ltb_ge in E. apply lookup_ge_None. lia.
Qed.

Lemma posting_invalid_month_throws_witness :
  applyOccurrenceToBalances
    (createOccurrence rev001 testCompany (mkDate 12024 0 1))
    (createInitialBalances (startingBalances pureRevenueInputs) 1)
  = Err "Cannot read properties of undefined (reading 'transactions')".
Proof.
  apply posting_invalid_month_throws.
  - intros a. destruct a; eexists; (split; [vm_compute; reflexivity | reflexivity]).
  - vm_compute. discriminate.
  - vm_compute. left. reflexivity.
Defined.

(** ** The calendar kernel *)

Lemma yearStart_mono (a b : Z) :
  0 <= b < a -> a <= 399 ->
  365 * b + b / 4 - b / 100 + 365 <= 365 * a + a / 4 - a / 100.
Proof.
  intros H1 H2.
  assert (C : a / 100 = 0 \/ a / 100 = 1 \/ a / 100 = 2 \/ a / 100 = 3)
    by (Z.to_euclidean_division_equations; lia).
  assert (D : b / 100 = 0 \/ b / 100 = 1 \/ b / 100 = 2 \/ b / 100 = 3)
    by (Z.to_euclidean_division_equations; lia).
  destruct C as [C | [C | [C | C]]], D as [D | [D | [D | D]]];
    Z.to_euclidean_division_equations; lia.
Qed.

(** A day number split into its 400-year era, the year of the era and the
    day of that year, counted from March 1. *)
Lemma civil_parts (z : Z) :
  exists era yoe doy,
    z + 719468 = era * 146097 + (365 * yoe + yoe / 4 - yoe / 100) + doy
    /\ 0 <= 365 * yoe + yoe / 4 - yoe / 100 + doy < 146097
    /\ 0 <= yoe <= 399 /\ 0 <= doy <= 365
    /\ fst (fst (civilFromDays z)) = yoe + era * 400 + (if 306 <=? doy then 1 else 0)
    /\ 1 <= snd (fst (civilFromDays z)) <= 12
    /\ 1 <= snd (civilFromDays z) <= 31.
Proof.
  unfold civilFromDays. cbv zeta. cbn [fst snd].
  set (era := (z + 719468) / 146097).
  set (doe := z + 719468 - era * 146097).
  set (yoe := (doe - doe / 1460 + doe / 36524 - doe / 146096) / 365).
  set (doy := doe - (365 * yoe + yoe / 4 - yoe / 100)).
  assert (Hdoe : 0 <= doe < 146097) by (subst doe era; Z.to_euclidean_division_equations; lia).
  assert (Hy : 0 <= yoe <= 399 /\ 0 <= doy <= 365).
  { subst doy yoe. clearbody doe. clear era. Z.to_euclidean_division_equations. lia. }
  exists era, yoe, doy.
  split; [subst doy doe; lia |]. split; [subst doy; lia |].
  split; [apply Hy |]. split; [apply Hy |].
  destruct Hy as [_ Hy]. clearbody doy. clear Hdoe. clearbody yoe era.
  split; [| split].
  - destruct (306 <=? doy) eqn:F; [apply Z.leb_le in F | apply Z.leb_gt in F];
      destruct (_ <? 10) eqn:E; [apply Z.ltb_lt in E | apply Z.ltb_ge in E | apply Z.ltb_lt in E | apply Z.ltb_ge in E];
      match goal with |- context [(?a <=? 2)] => destruct (a <=? 2) eqn:G; [apply Z.leb_le in G | apply Z.leb_gt in G] end;
      Z.to_euclidean_division_equations; lia.
  - destruct (_ <? 10) eqn:E; [apply Z.ltb_lt in E | apply Z.ltb_ge in E];
      Z.to_euclidean_division_equations; lia.
  - Z.to_euclidean_division_equations; lia.
Qed.

Lemma civil_fields (z : Z) :
  1 <= snd (fst (civilFromDays z)) <= 12
  /\ 1 <= snd (civilFromDays z) <= 31
  /\ fst (fst (civilFromDays z)) <= fst (fst (civilFromDays (z + 1))).
Proof.
  destruct (civil_parts z) as (e1 & y1 & d1 & Hz1 & Hd1 & Hy1 & Hr1 & -> & Hm & Hd).
  destruct (civil_parts (z + 1)) as (e2 & y2 & d2 & Hz2 & Hd2 & Hy2 & Hr2 & -> & _ & _).
  split; [exact Hm |]. split; [exact Hd |].
  assert (He : e2 = e1 \/ e2 = e1 + 1) by lia.
  destruct (Z.lt_trichotomy y1 y2) as [Hlt | [Heq | Hgt]].
  - destruct (306 <=? d1), (306 <=? d2), He; lia.
  - subst y2. destruct He as [-> | ->].
    + assert (d2 = d1 + 1) by lia. subst d2.
      destruct (306 <=? d1) eqn:F1, (306 <=? d1 + 1) eqn:F2;
        rewrite ?Z.leb_le, ?Z.leb_gt in *; lia.
    + destruct (306 <=? d1), (306 <=? d2); lia.
  - pose proof (yearStart_mono y1 y2 ltac:(lia) ltac:(lia)) as Hs.
    destruct He as [-> | ->].
    + exfalso. lia.
    + destruct (306 <=? d1) eqn:F1, (306 <=? d2) eqn:F2;
        rewrite ?Z.leb_le, ?Z.leb_gt in *; try lia.
      all: exfalso; Z.to_euclidean_division_equations; lia.
Qed.

Lemma civil_year_mono (z1 z2 : Z) :
  z1 <= z2 -> fst (fst (civilFromDays z1)) <= fst (fst (civilFromDays z2)).
Proof.
  intros H. replace z2 with (z1 + Z.of_nat (Z.to_nat (z2 - z1))) by lia.
  induction (Z.to_nat (z2 - z1)) as [| n IH]; [rewrite Z.add_0_r; lia |].
  etransitivity; [exact IH |].
  replace (z1 + Z.of_nat (S n)) with (z1 + Z.of_nat n + 1) by lia.
  apply civil_fields.
Qed.

Lemma getFullYear_mono (t1 t2 : Date) :
  t1 <= t2 -> getFullYear t1 <= getFullYear t2.
Proof.
  intros H. unfold getFullYear, dayOf. apply civil_year_mono.
  apply Z.div_le_mono; [lia | exact H].
Qed.

Lemma getMonth_range (t : Date) : 0 <= getMonth t <= 11.
Proof. unfold getMonth. pose proof (civil_fields (dayOf t)). lia. Qed.

Lemma getDate_range (t : Date) : 1 <= getDate t <= 31.
Proof. unfold getDate. pose proof (civil_fields (dayOf t)). lia. Qed.

(** The month read back from a formatted date of a four-digit year. *)
Lemma monthOfDate_format (t : Date) :
  2020 <= getFullYear t <= 2030 ->
  monthOfDate (formatDateISO t) = Some (getMonth t + 1).
Proof.
  intros Hy. pose proof (getMonth_range t) as Hm.
  unfold monthOfDate, formatDateISO.
  generalize (JS.padStart2 (JS.toString (getDate t))). intros dd.
  assert (Hc : In (getFullYear t, getMonth t + 1)
                  (list_prod [2020; 2021; 2022; 2023; 2024; 2025; 2026; 2027; 2028; 2029;
                              2030]
                             [1; 2; 3; 4; 5; 6; 7; 8; 9; 10; 11; 12]))
    by (apply year_month_cases; lia).
  revert Hc. generalize (getFullYear t) (getMonth t + 1). intros y m Hc.
  cbv [list_prod map app] in Hc.
  repeat (destruct Hc as [Hc | Hc]; [injection Hc as <- <-; vm_compute; reflexivity |]).
  contradiction.
Qed.

(** ** The dates of an expansion *)

Lemma lastOfYear_in_year (year : Z) :
  2020 <= year <= 2030 -> getFullYear (mkDate year 11 31) = year.
Proof.
  intros Hy. apply validated_year_cases in Hy. cbv [In] in Hy.
  repeat (destruct Hy as [<- | Hy]; [vm_compute; reflexivity |]). contradiction.
Qed.

Lemma daysFromTo_bounds (a b d : Date) : In d (daysFromTo a b) -> a <= d <= b.
Proof.
  unfold daysFromTo. intros H. apply in_map_iff in H as (k & <- & Hk).
  apply in_seq in Hk. unfold Date in *.
  assert (Hq : Z.of_nat k <= (b - a) / 1440) by lia.
  pose proof (Z.mul_div_le (b - a) 1440 ltac:(lia)). lia.
Qed.

Lemma dailyWindow_in_year tz pattern year d :
  2020 <= year <= 2030 -> In d (dailyWindow tz pattern year) -> getFullYear d = year.
Proof.
  intros Hy. unfold dailyWindow.
  destruct (if truthyText (p_startDate pattern) then _ else _) as [startDate |];
    [| intros []].
  set (start := if getFullYear startDate <? year then mkDate year 0 1 else startDate).
  assert (Hlo : year <= getFullYear start).
  { subst start. destruct (getFullYear startDate <? year) eqn:E.
    - change (mkDate year 0 1) with (getFirstDayOfMonth year 1).
      rewrite firstOfMonth_in_year by lia. lia.
    - apply Z.ltb_ge in E. exact E. }
  destruct (getFullYear start >? year) eqn:E; [intros [] |].
  rewrite Z.gtb_ltb in E. apply Z.ltb_ge in E.
  intros H. apply daysFromTo_bounds in H as [H1 H2].
  pose proof (getFullYear_mono _ _ H1). pose proof (getFullYear_mono _ _ H2).
  rewrite lastOfYear_in_year in * by exact Hy. lia.
Qed.

Lemma expandPattern_dated tz pattern company year o :
  2020 <= year <= 2030 -> 1 <= p_startMonth pattern <= 12 ->
  In o (expandPattern tz pattern company year) ->
  exists d, o = createOccurrence pattern company d /\ getFullYear d = year.
Proof.
  intros Hy Hs. unfold expandPattern.
  destruct (String.eqb (p_frequency pattern) "daily").
  { rewrite expandDailyPattern_window. intros H.
    apply in_map_iff in H as (d & <- & Hd). exists d. split; [reflexivity |].
    apply filter_In in Hd as [Hd _]. apply (dailyWindow_in_year tz pattern); assumption. }
  destruct (String.eqb (p_frequency pattern) "monthly").
  { unfold expandMonthlyPattern, monthsFrom. intros H.
    apply in_map_iff in H as (m & <- & Hm). eexists. split; [reflexivity |].
    apply in_map_iff in Hm as (k & <- & Hk). apply in_seq in Hk.
    apply firstOfMonth_in_year; lia. }
  destruct (String.eqb (p_frequency pattern) "quarterly").
  { unfold expandQuarterlyPattern, quartersFrom, ceilDiv3. intros H.
    apply in_map_iff in H as (q & <- & Hq). eexists. split; [reflexivity |].
    apply in_map_iff in Hq as (k & <- & Hk). apply in_seq in Hk.
    apply firstOfMonth_in_year; [lia |]. Z.div_mod_to_equations. lia. }
  destruct (String.eqb (p_frequency pattern) "yearly").
  { unfold expandYearlyPattern. intros [<- | []]. eexists. split; [reflexivity |].
    apply firstOfMonth_in_year; lia. }
  intros [].
Qed.

(** X6. In a year of 2020..2030, every occurrence a pattern with start month
    in 1..12 expands to is dated in that year, whatever the frequency and the
    start date, and the month the ledger reads off its date text is the month
    of that date. *)
Theorem expansion_dates_in_year tz pattern company year o :
  2020 <= year <= 2030 -> 1 <= p_startMonth pattern <= 12 ->
  In o (expandPattern tz pattern company year) ->
  exists d,
    date o = formatDateISO d /\ getFullYear d = year
    /\ monthOfDate (date o) = Some (getMonth d + 1)
    /\ 1 <= getMonth d + 1 <= 12.
Proof.
  intros Hy Hs Ho.
  destruct (expandPattern_dated tz pattern company year o Hy Hs Ho) as (d & -> & Hd).
  exists d. rewrite createOccurrence_date.
  split; [reflexivity |]. split; [exact Hd |].
  split; [apply monthOfDate_format; lia |].
  pose proof (getMonth_range d). lia.
Qed.

Lemma expansion_dates_in_year_witness :
  exists d,
    date (createOccurrence revZeroRated testCompany (getFirstDayOfMonth 2024 6))
    = formatDateISO d
    /\ getFullYear d = 2024
    /\ monthOfDate
         (date (createOccurrence revZeroRated testCompany (getFirstDayOfMonth 2024 6)))
       = Some (getMonth d + 1)
    /\ 1 <= getMonth d + 1 <= 12.
Proof.
  apply (expansion_dates_in_year 60 revZeroRated testCompany 2024);
    [lia | cbn; lia | vm_compute; left; reflexivity].
Defined.

(** ** Dates read back *)

Lemma parseISO_zone tz s : parseISO tz s = (fun t => t + tz) <$> parseISO 0 s.
Proof.
  unfold parseISO.
  repeat match goal with
         | |- context [match ?x with _ => _ end] => destruct x; try reflexivity
         end.
  all: cbn; f_equal; lia.
Qed.

Lemma formatDateISO_day (t : Date) : formatDateISO t = formatDateISO (1440 * dayOf t).
Proof.
  unfold formatDateISO, getFullYear, getMonth, getDate.
  assert (E : forall k, dayOf (1440 * k) = k)
    by (intros k; unfold dayOf; rewrite Z.mul_comm, Z.div_mul by lia; reflexivity).
  rewrite E. reflexivity.
Qed.

Lemma dayOf_of_year (t : Date) :
  2020 <= getFullYear t <= 2030 -> 18262 <= dayOf t <= 22279.
Proof.
  intros Hy. unfold getFullYear in Hy. split.
  - destruct (Z_lt_le_dec (dayOf t) 18262) as [Hlt |]; [| assumption].
    pose proof (civil_year_mono (dayOf t) 18261 ltac:(lia)) as H.
    change (fst (fst (civilFromDays 18261))) with 2019 in H. lia.
  - destruct (Z_lt_le_dec 22279 (dayOf t)) as [Hlt |]; [| assumption].
    pose proof (civil_year_mono 22280 (dayOf t) ltac:(lia)) as H.
    change (fst (fst (civilFromDays 22280))) with 2031 in H. lia.
Qed.

Lemma parse_format_days (k : Z) :
  18262 <= k <= 22279 -> parseISO 0 (formatDateISO (1440 * k)) = Some (1440 * k).
Proof.
  intros Hk.
  pose proof (forallFrom_spec
                (fun k => match parseISO 0 (formatDateISO (1440 * k)) with
                          | Some t => t =? 1440 * k
                          | None => false
                          end) (Z.to_nat 4018) 18262) as H.
  specialize (H ltac:(vm_cast_no_check (eq_refl true)) k).
  rewrite Z2Nat.id in H by lia. specialize (H ltac:(lia)).
  cbv beta in H. destruct (parseISO 0 (formatDateISO (1440 * k))) as [t |];
    [| discriminate H].
  apply Z.eqb_eq in H. rewrite H. reflexivity.
Qed.

(** X7. The date text of a day of 2020..2030 read back with [new Date(text)]
    in a zone tz minutes east of UTC is UTC midnight of that day on the local
    clock.  So the month under which the month loop of runSimulation groups
    an occurrence is the month of its date in the zones from UTC to UTC+24h
    (exclusive), and in a zone west of UTC (down to UTC-24h) it is the month of
    the day before: an occurrence dated the first of a month is grouped under
    the previous month there, while the ledger posts it under its own month. *)
Theorem date_text_round_trip tz (t : Date) :
  2020 <= getFullYear t <= 2030 ->
  parseISO tz (formatDateISO t) = Some (1440 * dayOf t + tz)
  /\ (0 <= tz < 1440 ->
      localMonth tz (formatDateISO t) = monthOfDate (formatDateISO t))
  /\ (-1440 <= tz < 0 ->
      localMonth tz (formatDateISO t) = Some (getMonth (t - 1440) + 1)).
Proof.
  intros Hy. pose proof (dayOf_of_year t Hy) as Hk.
  assert (Hp : parseISO tz (formatDateISO t) = Some (1440 * dayOf t + tz)).
  { rewrite parseISO_zone, formatDateISO_day, parse_format_days by exact Hk. reflexivity. }
  split; [exact Hp |]. unfold localMonth. rewrite Hp. cbn [fmap option_fmap option_map].
  split; intros Htz.
  - rewrite monthOfDate_format by exact Hy. unfold getMonth.
    replace (dayOf (1440 * dayOf t + tz)) with (dayOf t); [reflexivity |].
    unfold dayOf, Date in *. Z.div_mod_to_equations. lia.
  - unfold getMonth.
    replace (dayOf (1440 * dayOf t + tz)) with (dayOf (t - 1440)); [reflexivity |].
    unfold dayOf, Date in *. Z.div_mod_to_equations. lia.
Qed.

Lemma date_text_round_trip_witness :
  localMonth (-300) (formatDateISO (mkDate 2024 2 1)) = Some 2
  /\ monthOfDate (formatDateISO (mkDate 2024 2 1)) = Some 3.
Proof.
  destruct (date_text_round_trip (-300) (mkDate 2024 2 1)) as (_ & _ & H).
  - vm_compute. split; discriminate.
  - split; [rewrite H by lia; vm_compute; reflexivity | vm_compute; reflexivity].
Defined.

(** ** Groups of occurrences *)

Lemma groupBy_acc (key : Occurrence -> option Z) (l : list Occurrence)
      (m : gmap (option Z) (list Occurrence)) k :
  (forall k', m !! k' <> Some []) ->
  default [] (fold_left
                (fun (m : gmap (option Z) (list Occurrence)) occ =>
                   let k := key occ in
                   match m !! k with
                   | None => <[k := [occ]]> m
                   | Some l => <[k := (l ++ [occ])%list]> m
                   end) l m !! k)
  = (default [] (m !! k) ++ List.filter (fun o => bool_decide (key o = k)) l)%list.
Proof.
  revert m. induction l as [| o l IH]; intros m Hm; cbn [fold_left List.filter].
  - rewrite app_nil_r. reflexivity.
  - cbv zeta. rewrite IH.
    + destruct (m !! key o) as [g |] eqn:Eg.
      * destruct (decide (key o = k)) as [<- | Hne].
        -- rewrite lookup_insert_eq, Eg, bool_decide_eq_true_2 by reflexivity.
           cbn [default from_option]. unfold Datatypes.id.
           rewrite <- app_assoc. reflexivity.
        -- rewrite lookup_insert_ne by exact Hne.
           rewrite bool_decide_eq_false_2 by exact Hne. reflexivity.
      * destruct (decide (key o = k)) as [<- | Hne].
        -- rewrite lookup_insert_eq, Eg, bool_decide_eq_true_2 by reflexivity.
           reflexivity.
        -- rewrite lookup_insert_ne by exact Hne.
           rewrite bool_decide_eq_false_2 by exact Hne. reflexivity.
    + intros k'. destruct (m !! key o) as [g |] eqn:Eg.
      * destruct (decide (key o = k')) as [<- | Hne].
        -- rewrite lookup_insert_eq. destruct g; discriminate.
        -- rewrite lookup_insert_ne by exact Hne. apply Hm.
      * destruct (decide (key o = k')) as [<- | Hne].
        -- rewrite lookup_insert_eq. discriminate.
        -- rewrite lookup_insert_ne by exact Hne. apply Hm.
Qed.

Lemma groupBy_lookup (key : Occurrence -> option Z) (l : list Occurrence) k :
  default [] (groupBy key l !! k) = List.filter (fun o => bool_decide (key o = k)) l.
Proof.
  unfold groupBy. rewrite groupBy_acc.
  - rewrite lookup_empty. reflexivity.
  - intros k'. rewrite lookup_empty. discriminate.
Qed.

Lemma fold_left_app_flat_map {A B} (f : A -> list B) (l : list A) (acc : list B) :
  fold_left (fun acc x => (acc ++ f x)%list) l acc = (acc ++ flat_map f l)%list.
Proof.
  revert acc. induction l as [| x l IH]; intros acc; cbn [fold_left flat_map].
  - rewrite app_nil_r. reflexivity.
  - rewrite IH, app_assoc. reflexivity.
Qed.

Lemma expandAllPatterns_perm tz rev exp company year :
  Permutation (expandAllPatterns tz rev exp company year)
              (flat_map (fun p => expandPattern tz p company year) (rev ++ exp)).
Proof.
  unfold expandAllPatterns. rewrite sort_perm, !fold_left_app_flat_map.
  rewrite flat_map_app. reflexivity.
Qed.

Lemma expandAllPatterns_months tz rev exp company year :
  2020 <= year <= 2030 ->
  Forall (fun p => 1 <= p_startMonth p <= 12) (rev ++ exp) ->
  Forall (fun o => exists d, date o = formatDateISO d /\ getFullYear d = year)
         (expandAllPatterns tz rev exp company year).
Proof.
  intros Hy Hp. apply List.Forall_forall. intros o Ho.
  apply (Permutation_in _ (expandAllPatterns_perm tz rev exp company year)) in Ho.
  apply in_flat_map in Ho as (p & Hin & Ho).
  rewrite List.Forall_forall in Hp.
  destruct (expandPattern_dated tz p company year o Hy (Hp p Hin) Ho) as (d & -> & Hd).
  exists d. rewrite createOccurrence_date. split; [reflexivity | exact Hd].
Qed.

Lemma applyOccurrences_total occurrences :
  Forall (fun o => exists m, monthOfDate (date o) = Some m /\ 1 <= m <= 12) occurrences ->
  forall bm, rows12 bm ->
  exists bm', applyOccurrences occurrences bm = Ok bm' /\ rows12 bm'.
Proof.
  unfold applyOccurrences.
  induction 1 as [| o l (m & Hm & Hr) _ IH]; intros bm Hbm; cbn [forEachM].
  - exists bm. split; [reflexivity | exact Hbm].
  - destruct (postings_effect o (monthOfDate (date o)) m (accountPostings o) Hm Hr bm Hbm)
      as (bm1 & Hrun & Hrows & _).
    unfold applyOccurrenceToBalances. rewrite Hrun. cbn [mbind res_bind].
    apply IH. exact Hrows.
Qed.

Lemma rows12_initial sb s : rows12 (createInitialBalances sb s).
Proof.
  intros a. rewrite createInitialBalances_lookup. eexists. split; reflexivity.
Qed.

Lemma dated_month_ok year o :
  2020 <= year <= 2030 ->
  (exists d, date o = formatDateISO d /\ getFullYear d = year) ->
  exists m, monthOfDate (date o) = Some m /\ 1 <= m <= 12.
Proof.
  intros Hy (d & -> & Hd). exists (getMonth d + 1).
  split; [apply monthOfDate_format; lia |]. pose proof (getMonth_range d). lia.
Qed.

(** X8. For a year in 2020..2030, a fiscal start month in 1..12 and patterns
    with start months in 1..12, the ledger part of the simulation never
    throws: the whole expansion is posted to the initial ledger, the
    roll-forward succeeds, the monthly summaries are computed and the
    balance check runs to completion; and the roll-forward and VAT checks
    report nothing, each comparing a figure with the same figure computed
    again in the same order. *)
Theorem ledger_pipeline_total tz inputs rev exp company :
  let s := fiscalStartMonth inputs in
  let occurrences := expandAllPatterns tz rev exp company (year inputs) in
  2020 <= year inputs <= 2030 -> 1 <= s <= 12 ->
  Forall (fun p => 1 <= p_startMonth p <= 12) (rev ++ exp) ->
  exists bm1 bm2 monthlyTotals errors,
    applyOccurrences occurrences (createInitialBalances (startingBalances inputs) s)
    = Ok bm1
    /\ finalizeBalances bm1 s = Ok bm2
    /\ calculateMonthlySummaries bm2 occurrences s = Ok monthlyTotals
    /\ validateBalanceInvariants bm2 inputs s = Ok errors
    /\ validateRollForwardInvariants bm2 s = Ok []
    /\ validateVATInvariants monthlyTotals (calculateOverallSummary monthlyTotals) = [].
Proof.
  intros s occurrences Hy Hs Hp.
  assert (Hm : Forall (fun o => exists m, monthOfDate (date o) = Some m /\ 1 <= m <= 12)
                      occurrences).
  { eapply List.Forall_impl; [| apply (expandAllPatterns_months tz rev exp company _ Hy Hp)].
    intros o. apply dated_month_ok. exact Hy. }
  destruct (applyOccurrences_total occurrences Hm _
              (rows12_initial (startingBalances inputs) s)) as (bm1 & Happly & _).
  assert (Hopen : opensAt (startingBalances inputs) s bm1).
  { apply (opensAt_applyOccurrences _ _ occurrences _ _ (opensAt_initial _ _ Hs) Happly). }
  destruct (finalize_checks inputs bm1 Hs Hopen) as (bm2 & Hfin & Hbal & Hroll & Hrows).
  destruct (calculateMonthlySummaries_total bm2 occurrences s Hs Hrows) as (ms & Hms).
  exists bm1, bm2, ms, [].
  split; [exact Happly |]. split; [exact Hfin |]. split; [exact Hms |].
  split; [exact Hbal |]. split; [exact Hroll |]. apply validateVATInvariants_none.
Qed.

Lemma ledger_pipeline_total_witness :
  exists bm1 bm2 monthlyTotals errors,
    applyOccurrences (expandAllPatterns 60 [rev001; rev002] [rent; meals] testCompany 2024)
                     (createInitialBalances (startingBalances pureRevenueInputs) 1)
    = Ok bm1
    /\ finalizeBalances bm1 1 = Ok bm2
    /\ calculateMonthlySummaries
         bm2 (expandAllPatterns 60 [rev001; rev002] [rent; meals] testCompany 2024) 1
       = Ok monthlyTotals
    /\ validateBalanceInvariants bm2 pureRevenueInputs 1 = Ok errors
    /\ validateRollForwardInvariants bm2 1 = Ok []
    /\ validateVATInvariants monthlyTotals (calculateOverallSummary monthlyTotals) = [].
Proof.
  apply (ledger_pipeline_total 60 pureRevenueInputs [rev001; rev002] [rent; meals]
           testCompany).
  - cbn. lia.
  - cbn. lia.
  - repeat constructor; cbn; lia.
Defined.

(** ** When the simulation returns *)

Lemma company_valid company :
  validateCompanyForSimulation company = [] ->
  JS.truthyStr (c_id company) = true /\ JS.truthyStr (c_userId company) = true.
Proof.
  unfold validateCompanyForSimulation. cbv zeta.
  destruct (JS.truthyStr (c_id company)), (JS.truthyStr (c_userId company));
    cbn [negb app]; intros H; try (split; reflexivity); exfalso;
    repeat match type of H with
           | context [if ?c then _ else _] => destruct c
           | context [match ?c with _ => _ end] => destruct c
           end; discriminate H.
Qed.

Lemma runSimulation_valid tz inputs rev exp company config sid cb :
  validateSimulationInputs inputs rev exp = [] ->
  validateCompanyForSimulation company = [] ->
  runSimulation tz inputs rev exp company config sid cb
  = match simulationBody tz inputs rev exp company (mergeConfig config) sid cb [] with
    | (tr, Ok results) => (tr, Ok results)
    | (tr, Err message) => (tr, Err ("Simulation failed: " ++ message))
    end.
Proof.
  intros Hi Hc. unfold runSimulation. cbv zeta. rewrite Hi, Hc. cbn [app].
  destruct (company_valid company Hc) as [-> ->]. reflexivity.
Qed.

Lemma processMonth_throws cb sid groups bm i m tr :
  rows12 bm ->
  occurrencesOfMonth groups m <> [] ->
  Forall (fun o => exists m, monthOfDate (date o) = Some m /\ 1 <= m <= 12)
         (occurrencesOfMonth groups m) ->
  exists tr',
    processMonth cb sid groups bm (i, m) tr
    = (tr', Err "Cannot read properties of undefined (reading 'reduce')").
Proof.
  unfold occurrencesOfMonth. intros Hbm H Hvalid. unfold processMonth.
  destruct (applyOccurrences_total _ Hvalid bm Hbm) as (bm1 & Happly & _).
  unfold applyOccurrences in Happly.
  destruct (default [] (groups !! Some m)) as [| o rest]; [contradiction |].
  rewrite run_bind_unfold. unfold liftRes at 1. rewrite Happly.
  rewrite run_bind_unfold. unfold liftRes at 1.
  cbn [List.filter]. destruct (isRevenue o) eqn:Er.
  - rewrite sumPostings_cons. eexists; reflexivity.
  - destruct (sumPostings_cases (List.filter isRevenue rest)) as [[_ ->] | ->];
      [| eexists; reflexivity].
    rewrite run_bind_unfold. unfold liftRes at 1.
    rewrite (notRevenue_isExpense o Er), sumPostings_cons.
    eexists; reflexivity.
Qed.

Lemma monthLoop_throws cb sid groups (steps : list (nat * Z)) bm tr :
  rows12 bm ->
  (forall m, Forall (fun o => exists m, monthOfDate (date o) = Some m /\ 1 <= m <= 12)
                    (occurrencesOfMonth groups m)) ->
  Exists (fun m => occurrencesOfMonth groups m <> []) (map snd steps) ->
  exists tr',
    forEachR (processMonth cb sid groups) steps bm tr
    = (tr', Err "Cannot read properties of undefined (reading 'reduce')").
Proof.
  intros Hbm Hvalid. revert tr.
  induction steps as [| [i m] steps IH]; intros tr H; cbn [map forEachR snd] in *.
  - inversion H.
  - rewrite run_bind_unfold.
    destruct (occurrencesOfMonth groups m) as [| o rest] eqn:Em.
    + destruct (processMonth_empty cb sid groups bm i m tr Em) as (tr1 & ->).
      apply IH. inversion H as [? ? Hm | ? ? Hrest]; subst;
        [rewrite Em in Hm; contradiction | exact Hrest].
    + assert (Hne : occurrencesOfMonth groups m <> []) by (rewrite Em; discriminate).
      destruct (processMonth_throws cb sid groups bm i m tr Hbm Hne (Hvalid m))
        as (tr1 & ->).
      eexists; reflexivity.
Qed.

Lemma localMonth_dated tz year o :
  2020 <= year <= 2030 ->
  (exists d, date o = formatDateISO d /\ getFullYear d = year) ->
  exists m, localMonth tz (date o) = Some m /\ 1 <= m <= 12.
Proof.
  intros Hy (d & -> & Hd). unfold localMonth.
  rewrite parseISO_zone, formatDateISO_day, parse_format_days
    by (apply dayOf_of_year; lia).
  cbn [fmap option_fmap option_map]. eexists. split; [reflexivity |].
  match goal with |- context [getMonth ?t] => pose proof (getMonth_range t) end. lia.
Qed.

(** X9. With inputs and a company that pass validation and patterns whose
    start months are in 1..12, runSimulation returns if and only if the
    patterns expand to no occurrence at all.  As soon as there is one
    occurrence the month loop reads the missing property [postings] of an
    occurrence, and the run throws "Simulation failed: Cannot read properties
    of undefined (reading 'reduce')", in every zone and for every fiscal
    start month. *)
Theorem run_returns_iff_no_occurrence tz inputs rev exp company config sid cb :
  validateSimulationInputs inputs rev exp = [] ->
  validateCompanyForSimulation company = [] ->
  Forall (fun p => 1 <= p_startMonth p <= 12) (rev ++ exp) ->
  let occurrences := expandAllPatterns tz rev exp company (year inputs) in
  (occurrences = [] ->
   exists tr results,
     runSimulation tz inputs rev exp company config sid cb = (tr, Ok results))
  /\ (occurrences <> [] ->
      exists tr,
        runSimulation tz inputs rev exp company config sid cb
        = (tr, Err ("Simulation failed: "
                    ++ "Cannot read properties of undefined (reading 'reduce')"))).
Proof.
  intros Hi Hc Hp occurrences.
  destruct (validated_fiscalStartMonth inputs rev exp Hi) as [Hy Hs].
  rewrite (runSimulation_valid tz inputs rev exp company config sid cb Hi Hc).
  pose proof (expandAllPatterns_months tz rev exp company _ Hy Hp) as Hdated.
  fold occurrences in Hdated.
  set (groups := groupBy (fun o => localMonth tz (date o)) occurrences).
  assert (Hgroup : forall m, occurrencesOfMonth groups m
                             = List.filter (fun o => bool_decide
                                              (localMonth tz (date o) = Some m))
                                           occurrences).
  { intros m. unfold occurrencesOfMonth, groups. apply groupBy_lookup. }
  split.
  - intros Hnil.
    destruct (simulationBody_outcome tz inputs rev exp company (mergeConfig config) sid cb Hs)
      as [Hok _].
    destruct Hok as (tr & results & ->).
    + fold occurrences groups. apply List.Forall_forall. intros m _.
      rewrite Hgroup, Hnil. reflexivity.
    + exists tr, results. reflexivity.
  - intros Hne.
    destruct occurrences as [| o rest] eqn:Eo; [contradiction Hne; reflexivity |].
    assert (Ho : exists m, localMonth tz (date o) = Some m /\ 1 <= m <= 12).
    { inversion Hdated; subst. apply (localMonth_dated tz (year inputs)); assumption. }
    destruct Ho as (m & Hm & Hr).
    unfold simulationBody. cbv zeta. fold occurrences. rewrite Eo. fold groups.
    destruct (emitProgress_Ok cb sid 1 10%Q None None []) as (t1 & E1).
    destruct (emitProgress_Ok cb sid 1 20%Q None None t1) as (t2 & E2).
    rewrite run_bind_unfold, E1, run_bind_unfold, E2, run_bind_unfold.
    destruct (monthLoop_throws cb sid groups
                (imap (fun (i : nat) (m : Z) => (i, m))
                      (getFiscalMonthOrder (fiscalStartMonth inputs)))
                (createInitialBalances (startingBalances inputs) (fiscalStartMonth inputs))
                t2) as (t3 & ->).
    + apply rows12_initial.
    + intros m'. rewrite Hgroup. apply List.Forall_forall. intros o' Ho'.
      apply filter_In in Ho' as [Ho' _]. rewrite List.Forall_forall in Hdated.
      apply (dated_month_ok (year inputs)); [exact Hy | apply Hdated; exact Ho'].
    + rewrite fiscalSteps_months. apply List.Exists_exists. exists m. split.
      * apply (Permutation_in _ (Permutation_sym (fiscalOrder_perm _ Hs))).
        vm_compute. lia.
      * rewrite Hgroup. cbn [List.filter].
        rewrite bool_decide_eq_true_2 by exact Hm. discriminate.
    + exists t3. reflexivity.
Qed.

Lemma run_returns_iff_no_occurrence_witness :
  exists tr,
    runSimulation (-300) pureRevenueInputs [] [meals] testCompany noConfig None false
    = (tr, Err ("Simulation failed: "
                ++ "Cannot read properties of undefined (reading 'reduce')")).
Proof.
  destruct (run_returns_iff_no_occurrence (-300) pureRevenueInputs [] [meals] testCompany
              noConfig None false) as [_ H].
  - vm_compute. reflexivity.
  - vm_compute. reflexivity.
  - repeat constructor; cbn; lia.
  - apply H. vm_compute. discriminate.
Defined.

(** ** The recurring expansions *)

Lemma firstOfMonth_format (year m : Z) :
  2020 <= year <= 2030 -> 1 <= m <= 12 ->
  formatDateISO (getFirstDayOfMonth year m)
  = (JS.toString year ++ "-" ++ JS.padStart2 (JS.toString m) ++ "-01")%string.
Proof.
  intros Hy Hm. pose proof (year_month_cases year m Hy Hm) as H.
  cbv [list_prod map app] in H.
  repeat (destruct H as [H | H]; [injection H as <- <-; vm_compute; reflexivity |]).
  contradiction.
Qed.

Lemma monthsFrom_In (s m : Z) : In m (monthsFrom s) <-> s <= m <= 12.
Proof.
  unfold monthsFrom. rewrite in_map_iff. split.
  - intros (k & <- & Hk). apply in_seq in Hk. lia.
  - intros H. exists (Z.to_nat (m - s)). split; [lia |]. apply in_seq. lia.
Qed.

(** X10. A monthly pattern with start month in 1..12 expands, in a year of
    2020..2030, to one occurrence on the first day of each month from the
    start month to December, in that order: 13 - startMonth occurrences. *)
Theorem monthly_expansion pattern company year :
  2020 <= year <= 2030 -> 1 <= p_startMonth pattern <= 12 ->
  map date (expandMonthlyPattern pattern company year)
  = map (fun m => (JS.toString year ++ "-" ++ JS.padStart2 (JS.toString m) ++ "-01")%string)
        (monthsFrom (p_startMonth pattern))
  /\ length (expandMonthlyPattern pattern company year)
     = Z.to_nat (13 - p_startMonth pattern)
  /\ forall m, In m (monthsFrom (p_startMonth pattern)) <-> p_startMonth pattern <= m <= 12.
Proof.
  intros Hy Hs. unfold expandMonthlyPattern. split; [| split].
  - rewrite map_map. apply map_ext_in. intros m Hm. apply monthsFrom_In in Hm.
    rewrite createOccurrence_date. apply firstOfMonth_format; lia.
  - rewrite length_map. unfold monthsFrom. rewrite length_map, length_seq. f_equal. lia.
  - intros m. apply monthsFrom_In.
Qed.

Lemma monthly_expansion_witness :
  map date (expandMonthlyPattern meals testCompany 2024)
  = map (fun m => (JS.toString 2024 ++ "-" ++ JS.padStart2 (JS.toString m) ++ "-01")%string)
        (monthsFrom 4)
  /\ length (expandMonthlyPattern meals testCompany 2024) = 9%nat.
Proof.
  destruct (monthly_expansion meals testCompany 2024) as (H1 & H2 & _);
    [lia | cbn; lia |].
  split; [exact H1 | exact H2].
Defined.

Lemma ceilDiv3_floor (n : Z) : ceilDiv3 n = (n + 2) / 3.
Proof. unfold ceilDiv3. Z.div_mod_to_equations. lia. Qed.

(** X11. A quarterly pattern with start month in 1..12 expands, in a year of
    2020..2030, to one occurrence on the first day of each quarter from the
    quarter that contains the start month: 5 - ceil(startMonth / 3)
    occurrences.  The first of them is dated on the first day of month
    3 * ceil(startMonth / 3) - 2, which lies before the start month
    whenever the start month is not the first month of its quarter. *)
Theorem quarterly_expansion pattern company year :
  2020 <= year <= 2030 -> 1 <= p_startMonth pattern <= 12 ->
  let q0 := (p_startMonth pattern + 2) / 3 in
  map date (expandQuarterlyPattern pattern company year)
  = map (fun q => (JS.toString year ++ "-" ++ JS.padStart2 (JS.toString (3 * q - 2))
                   ++ "-01")%string)
        (quartersFrom q0)
  /\ length (expandQuarterlyPattern pattern company year) = Z.to_nat (5 - q0)
  /\ head (map date (expandQuarterlyPattern pattern company year))
     = Some (JS.toString year ++ "-" ++ JS.padStart2 (JS.toString (3 * q0 - 2))
             ++ "-01")%string
  /\ 3 * q0 - 2 <= p_startMonth pattern
  /\ (p_startMonth pattern mod 3 <> 1 -> 3 * q0 - 2 < p_startMonth pattern).
Proof.
  intros Hy Hs q0. unfold expandQuarterlyPattern. rewrite ceilDiv3_floor. fold q0.
  assert (Hq0 : 1 <= q0 <= 4) by (subst q0; Z.div_mod_to_equations; lia).
  assert (Hdates :
    map date
      (map (fun quarter =>
              createOccurrence pattern company
                (getFirstDayOfMonth year ((quarter - 1) * 3 + 1))) (quartersFrom q0))
    = map (fun q => (JS.toString year ++ "-" ++ JS.padStart2 (JS.toString (3 * q - 2))
                     ++ "-01")%string) (quartersFrom q0)).
  { rewrite map_map. apply map_ext_in. intros q Hq.
    unfold quartersFrom in Hq. apply in_map_iff in Hq as (k & <- & Hk). apply in_seq in Hk.
    rewrite createOccurrence_date.
    replace ((q0 + Z.of_nat k - 1) * 3 + 1) with (3 * (q0 + Z.of_nat k) - 2) by lia.
    apply firstOfMonth_format; lia. }
  split; [exact Hdates |]. split; [| split; [| split]].
  - rewrite length_map. unfold quartersFrom. rewrite length_map, length_seq. f_equal. lia.
  - rewrite Hdates. unfold quartersFrom.
    destruct (Z.to_nat (4 - q0 + 1)) as [| n] eqn:E; [lia |].
    cbn [seq map head]. rewrite Z.add_0_r. reflexivity.
  - subst q0. Z.div_mod_to_equations. lia.
  - subst q0. Z.div_mod_to_equations. lia.
Qed.

Lemma quarterly_expansion_witness :
  map date (expandQuarterlyPattern rev002 testCompany 2024)
  = ["2024-01-01"; "2024-04-01"; "2024-07-01"; "2024-10-01"].
Proof.
  destruct (quarterly_expansion rev002 testCompany 2024) as (H & _); [lia | cbn; lia |].
  rewrite H. vm_compute. reflexivity.
Defined.

(** ** Sorting *)

Lemma insertSorted_sorted {A} (le : A -> A -> bool) x l :
  (forall a b, le a b = true \/ le b a = true) ->
  Sorted (fun a b => le a b = true) l ->
  Sorted (fun a b => le a b = true) (JS.insertSorted le x l).
Proof.
  intros Htot. induction l as [| y l IH]; intros Hs; cbn [JS.insertSorted].
  - constructor; constructor.
  - apply Sorted_inv in Hs as [Hs Hhd].
    destruct (le y x) eqn:E.
    + constructor; [apply IH; exact Hs |].
      destruct l as [| z l]; cbn [JS.insertSorted].
      * constructor. exact E.
      * apply HdRel_inv in Hhd. destruct (le z x); constructor; assumption.
    + constructor; [constructor; assumption |]. constructor.
      destruct (Htot x y) as [H | H]; [exact H | congruence].
Qed.

Lemma sort_sorted {A} (le : A -> A -> bool) l :
  (forall a b, le a b = true \/ le b a = true) ->
  Sorted (fun a b => le a b = true) (JS.sort le l).
Proof.
  intros Htot. unfold JS.sort.
  assert (H : forall acc, Sorted (fun a b => le a b = true) acc ->
                          Sorted (fun a b => le a b = true)
                                 (fold_left (fun acc x => JS.insertSorted le x acc) l acc)).
  { induction l as [| x l IH]; intros acc Hacc; cbn [fold_left]; [exact Hacc |].
    apply IH. apply insertSorted_sorted; assumption. }
  apply H. constructor.
Qed.

(** X12. expandAllPatterns returns the occurrences of all the patterns, the
    revenue patterns first, rearranged in non-decreasing order of date text:
    nothing is lost, added or merged. *)
Theorem expandAllPatterns_sorted tz rev exp company year :
  Sorted (fun a b => String.leb (date a) (date b) = true)
         (expandAllPatterns tz rev exp company year)
  /\ Permutation (expandAllPatterns tz rev exp company year)
                 (flat_map (fun p => expandPattern tz p company year) (rev ++ exp)).
Proof.
  split; [| apply expandAllPatterns_perm].
  unfold expandAllPatterns.
  apply (sort_sorted (fun a b => JS.localeLeb (date a) (date b))).
  intros a b. apply String.leb_total.
Qed.

(** ** Holiday queries *)

Lemma detailed_dates year region :
  Permutation (map h_date (getFrenchHolidaysDetailed year region))
              (if isAlsaceMoselle region then alsaceMoselleHolidays year
               else nationalHolidays year).
Proof.
  unfold getFrenchHolidaysDetailed. cbv zeta.
  rewrite (Permutation_map h_date (sort_perm _ _)).
  destruct (isAlsaceMoselle region); cbn [fold_left map app fst snd h_date];
    rewrite !addDays_shift; reflexivity.
Qed.

(** X13. getFrenchHolidaysDetailed and getFrenchHolidays agree: for every
    year and region the dates of the detailed list are exactly the members
    of the holiday set, so isFrenchHoliday holds of a date if and only if the
    detailed list has an entry for it; the list is in non-decreasing order of
    date and has eleven entries, or thirteen for FR-67, FR-68 and FR-57. *)
Theorem detailed_holidays_agree year region :
  list_to_set (map h_date (getFrenchHolidaysDetailed year region))
  = getFrenchHolidays year region
  /\ (forall dateStr,
        isFrenchHoliday dateStr year region = true
        <-> In dateStr (map h_date (getFrenchHolidaysDetailed year region)))
  /\ Sorted (fun a b => String.leb (h_date a) (h_date b) = true)
            (getFrenchHolidaysDetailed year region)
  /\ length (getFrenchHolidaysDetailed year region)
     = (if isAlsaceMoselle region then 13 else 11)%nat.
Proof.
  assert (Hset : list_to_set (map h_date (getFrenchHolidaysDetailed year region))
                 = getFrenchHolidays year region).
  { rewrite (list_to_set_perm_L _ _ (detailed_dates year region)).
    destruct (isAlsaceMoselle region) eqn:E;
      [rewrite holidays_regional by exact E | rewrite holidays_national by exact E];
      reflexivity. }
  split; [exact Hset |]. split; [| split].
  - intros dateStr. unfold isFrenchHoliday. rewrite bool_decide_eq_true, <- Hset.
    rewrite elem_of_list_to_set. apply list_elem_of_In.
  - unfold getFrenchHolidaysDetailed. cbv zeta.
    apply (sort_sorted (fun a b => JS.localeLeb (h_date a) (h_date b))).
    intros a b. apply String.leb_total.
  - rewrite <- (length_map h_date), (Permutation_length (detailed_dates year region)).
    destruct (isAlsaceMoselle region); reflexivity.
Qed.

(** X14. For every year from 1583 to 9999, the date getEasterSunday computes
    is a Sunday of that year, between March 22 and April 25 inclusive. *)
Theorem easter_is_a_spring_sunday (year : Z) :
  1583 <= year <= 9999 ->
  getDay (getEasterSunday year) = 0 /\ getFullYear (getEasterSunday year) = year
  /\ ((getMonth (getEasterSunday year) = 2 /\ 22 <= getDate (getEasterSunday year))
      \/ (getMonth (getEasterSunday year) = 3 /\ getDate (getEasterSunday year) <= 25)).
Proof.
  intros Hy. destruct (easter_checked year Hy) as (-> & Hn & Hsunday).
  unfold getDay, getFullYear, getMonth, getDate, dayOf.
  rewrite Z.div_mul by lia.
  rewrite (civil_from_march year (easterMarchDay year - 1)) by lia.
  cbn [fst snd]. replace (easterMarchDay year - 1 + 1) with (easterMarchDay year) by lia.
  split; [exact Hsunday |]. split; [reflexivity |].
  unfold marchDay. destruct (easterMarchDay year <=? 31) eqn:E31; cbn [fst snd].
  - left. apply Z.leb_le in E31. lia.
  - right. apply Z.leb_gt in E31.
    destruct (easterMarchDay year <=? 61) eqn:E61; cbn [fst snd];
      [lia | apply Z.leb_gt in E61; lia].
Qed.

Lemma easter_is_a_spring_sunday_witness :
  getDay (getEasterSunday 2024) = 0 /\ getFullYear (getEasterSunday 2024) = 2024
  /\ ((getMonth (getEasterSunday 2024) = 2 /\ 22 <= getDate (getEasterSunday 2024))
      \/ (getMonth (getEasterSunday 2024) = 3 /\ getDate (getEasterSunday 2024) <= 25)).
Proof. apply (easter_is_a_spring_sunday 2024). lia. Defined.

(** ** Counting working days *)

Lemma countLoop_filter fuel holidays endDate :
  forall current count,
    countLoop fuel holidays endDate current count
    = count + Z.of_nat (length (List.filter (isWorkingDay holidays)
                                            (dailyCandidates fuel endDate current))).
Proof.
  induction fuel as [| fuel IH]; intros cur count; cbn [countLoop dailyCandidates].
  - cbn. lia.
  - destruct (cur <=? endDate); [| cbn; lia].
    rewrite IH. cbn [List.filter].
    destruct (isWorkingDay holidays cur); cbn [length]; lia.
Qed.

Lemma yearsFromTo_In (a b y : Z) : In y (yearsFromTo a b) <-> a <= y <= b.
Proof.
  unfold yearsFromTo. rewrite in_map_iff. split.
  - intros (k & <- & Hk). apply in_seq in Hk. lia.
  - intros H. exists (Z.to_nat (y - a)). split; [lia |]. apply in_seq. lia.
Qed.

Lemma holidays_of_years region (l : list Z) (acc : gset string) x :
  x ∈ fold_left (fun hs year => getFrenchHolidays year region ∪ hs) l acc
  <-> x ∈ acc \/ exists y, In y l /\ x ∈ getFrenchHolidays y region.
Proof.
  revert acc. induction l as [| y0 l IH]; intros acc; cbn [fold_left].
  - split; [intros H; left; exact H | intros [H | (y & [] & _)]; exact H].
  - rewrite IH, elem_of_union. split.
    + intros [[H | H] | (y & Hy & H)].
      * right. exists y0. split; [left; reflexivity | exact H].
      * left. exact H.
      * right. exists y. split; [right; exact Hy | exact H].
    + intros [H | (y & [<- | Hy] & H)].
      * left. right. exact H.
      * left. left. exact H.
      * right. exists y. split; assumption.
Qed.

Lemma countWorkingDays_filter startDate endDate region :
  countWorkingDays startDate endDate region
  = Z.of_nat
      (length
         (List.filter
            (isWorkingDay
               (fold_left (fun hs year => getFrenchHolidays year region ∪ hs)
                          (yearsFromTo (getFullYear startDate) (getFullYear endDate))
                          (∅ : gset string)))
            (daysFromTo startDate endDate))).
Proof.
  unfold countWorkingDays. destruct (startDate >? endDate) eqn:E.
  - rewrite Z.gtb_ltb in E. apply Z.ltb_lt in E. unfold daysFromTo.
    replace (Z.to_nat ((endDate - startDate) / 1440 + 1)) with 0%nat; [reflexivity |].
    unfold Date in *. Z.div_mod_to_equations. lia.
  - cbv zeta. rewrite countLoop_filter.
    change (Z.to_nat ((endDate - startDate) / 1440 + 1)) with (dailyFuel endDate startDate).
    rewrite dailyCandidates_window. lia.
Qed.

(** X15. countWorkingDays counts exactly the days from the start date to the
    end date, both included, that are neither a Saturday, nor a Sunday, nor a
    holiday of one of the years from the start year to the end year; it is 0
    when the start date is after the end date, the range being empty. *)
Theorem countWorkingDays_counts startDate endDate region :
  exists holidays : gset string,
    (forall x, x ∈ holidays
               <-> exists y, getFullYear startDate <= y <= getFullYear endDate
                             /\ x ∈ getFrenchHolidays y region)
    /\ countWorkingDays startDate endDate region
       = Z.of_nat (length (List.filter (isWorkingDay holidays)
                                       (daysFromTo startDate endDate)))
    /\ (endDate < startDate -> countWorkingDays startDate endDate region = 0).
Proof.
  eexists. split; [| split; [apply countWorkingDays_filter |]].
  - intros x. rewrite holidays_of_years. split.
    + intros [H | (y & Hy & H)]; [apply elem_of_empty in H; contradiction |].
      exists y. split; [apply yearsFromTo_In; exact Hy | exact H].
    + intros (y & Hy & H). right. exists y. split; [apply yearsFromTo_In; exact Hy | exact H].
  - intros H. unfold countWorkingDays.
    replace (startDate >? endDate) with true; [reflexivity |].
    symmetry. rewrite Z.gtb_ltb. apply Z.ltb_lt. exact H.
Qed.

Lemma weekday_bit (m d : Z) :
  Z.land m 62 = 62 -> 1 <= d <= 5 -> (Z.land m (Z.shiftl 1 d) =? 0) = false.
Proof.
  intros Hm Hd.
  assert (E : Z.land m (Z.shiftl 1 d) = Z.shiftl 1 d).
  { assert (Hb : Z.land 62 (Z.shiftl 1 d) = Z.shiftl 1 d).
    { assert (C : d = 1 \/ d = 2 \/ d = 3 \/ d = 4 \/ d = 5) by lia.
      destruct C as [-> | [-> | [-> | [-> | ->]]]]; reflexivity. }
    rewrite <- Hb at 1. rewrite Z.land_assoc, Hm. exact Hb. }
  rewrite E. apply Z.eqb_neq.
  assert (C : d = 1 \/ d = 2 \/ d = 3 \/ d = 4 \/ d = 5) by lia.
  destruct C as [-> | [-> | [-> | [-> | ->]]]]; discriminate.
Qed.

Lemma workweek_active (t : Date) (pattern : Pattern) (holidays : gset string) :
  (p_daysMask pattern = None
   \/ exists m, p_daysMask pattern = Some m /\ Z.land m 62 = 62) ->
  truthyInt (p_excludeWeekends pattern) = true ->
  truthyInt (p_excludeHolidays pattern) = true ->
  (p_dayOffOverrides pattern = None \/ p_dayOffOverrides pattern = Some []) ->
  isDateActive t pattern holidays = isWorkingDay holidays t.
Proof.
  intros Hm Hw Hh Ho. unfold isDateActive, isWorkingDay.
  assert (Hov : match p_dayOffOverrides pattern with
                | Some overrides => findOverride (formatDateISO t) overrides
                | None => None
                end = None) by (destruct Ho as [-> | ->]; reflexivity).
  rewrite Hov, Hw, Hh. rewrite !andb_true_r.
  pose proof (getDay_range t) as Hd.
  destruct (Z.eq_dec (getDay t) 0) as [E0 | N0].
  { rewrite E0. cbn [Z.eqb orb negb andb].
    destruct (match p_daysMask pattern with Some _ => _ | None => _ end); reflexivity. }
  destruct (Z.eq_dec (getDay t) 6) as [E6 | N6].
  { rewrite E6. cbn [Z.eqb orb negb andb Pos.eqb].
    destruct (match p_daysMask pattern with Some _ => _ | None => _ end); reflexivity. }
  replace (getDay t =? 0) with false by (symmetry; apply Z.eqb_neq; exact N0).
  replace (getDay t =? 6) with false by (symmetry; apply Z.eqb_neq; exact N6).
  cbn [orb negb andb].
  assert (Hact : match p_daysMask pattern with
                 | Some daysMask => negb (Z.land daysMask (Z.shiftl 1 (getDay t)) =? 0)
                 | None => true
                 end = true).
  { destruct Hm as [-> | (m & -> & Hm)]; [reflexivity |].
    rewrite weekday_bit by (assumption || lia). reflexivity. }
  rewrite Hact. destruct (bool_decide _); reflexivity.
Qed.

(** X16. In a year of 2020..2030, a daily pattern with no start date, no
    override, both exclusions on and a mask that is absent or covers Monday
    to Friday expands to as many occurrences as countWorkingDays counts from
    the first day of the start month to December 31 in the company's holiday
    region (FR when the company has none). *)
Theorem daily_expansion_counts_working_days tz pattern company year :
  2020 <= year <= 2030 -> 1 <= p_startMonth pattern <= 12 ->
  p_frequency pattern = "daily" ->
  truthyText (p_startDate pattern) = false ->
  (p_daysMask pattern = None
   \/ exists m, p_daysMask pattern = Some m /\ Z.land m 62 = 62) ->
  truthyInt (p_excludeWeekends pattern) = true ->
  truthyInt (p_excludeHolidays pattern) = true ->
  (p_dayOffOverrides pattern = None \/ p_dayOffOverrides pattern = Some []) ->
  Z.of_nat (length (expandPattern tz pattern company year))
  = countWorkingDays (getFirstDayOfMonth year (p_startMonth pattern)) (mkDate year 11 31)
                     (if JS.truthyStr (c_holidayRegion company)
                      then c_holidayRegion company else "FR").
Proof.
  intros Hy Hs Hf Hsd Hm Hw Hh Ho.
  unfold expandPattern. rewrite Hf. cbn [String.eqb Ascii.eqb Bool.eqb].
  cbv zeta. set (region := if JS.truthyStr _ then _ else _).
  rewrite expandDailyPattern_window, dailyWindow_no_startDate by assumption.
  rewrite countWorkingDays_filter.
  rewrite firstOfMonth_in_year, lastOfYear_in_year by assumption.
  replace (yearsFromTo year year) with [year]
    by (unfold yearsFromTo; replace (year - year + 1) with 1 by lia;
        change (Z.to_nat 1) with 1%nat; cbn [seq map]; rewrite Z.add_0_r; reflexivity).
  cbn [fold_left]. rewrite (right_id_L ∅ (∪)).
  rewrite length_map. f_equal. f_equal.
  apply filter_ext. intros t. apply workweek_active; assumption.
Qed.

Lemma daily_expansion_counts_working_days_witness :
  Z.of_nat (length (expandPattern 60 workweekDaily testCompany 2024))
  = countWorkingDays (getFirstDayOfMonth 2024 1) (mkDate 2024 11 31) "FR"
  /\ countWorkingDays (getFirstDayOfMonth 2024 1) (mkDate 2024 11 31) "FR" = 252.
Proof.
  split; [| vm_compute; reflexivity].
  apply (daily_expansion_counts_working_days 60 workweekDaily testCompany 2024).
  - lia.
  - cbn. lia.
  - reflexivity.
  - reflexivity.
  - right. exists 62. split; reflexivity.
  - reflexivity.
  - reflexivity.
  - right. reflexivity.
Defined.

(** ** The next working day *)

Lemma holidays_list year region :
  getFrenchHolidays year region = list_to_set (holidayList year (isAlsaceMoselle region)).
Proof.
  unfold holidayList. destruct (isAlsaceMoselle region) eqn:E;
    [apply holidays_regional | apply holidays_national]; exact E.
Qed.

Lemma existsb_eqb_In (x : string) (l : list string) :
  existsb (String.eqb x) l = true <-> In x l.
Proof.
  rewrite existsb_exists. split.
  - intros (y & Hy & E). apply String.eqb_eq in E. subst y. exact Hy.
  - intros H. exists x. split; [exact H | apply String.eqb_refl].
Qed.

Lemma isWorkingDay_list (l : list string) (t : Date) :
  isWorkingDay (list_to_set l) t = workingL l t.
Proof.
  unfold isWorkingDay, workingL. f_equal. f_equal.
  destruct (existsb (String.eqb (formatDateISO t)) l) eqn:E.
  - apply bool_decide_eq_true. apply elem_of_list_to_set, list_elem_of_In.
    apply existsb_eqb_In. exact E.
  - apply bool_decide_eq_false. intros H.
    apply elem_of_list_to_set, list_elem_of_In, existsb_eqb_In in H. congruence.
Qed.

Lemma nextWorkingLoop_list fuel region year :
  forall (l : list string) (t : Date),
    nextWorkingLoop fuel region year (list_to_set l) t
    = nextWorkingLoopL fuel (isAlsaceMoselle region) year l t.
Proof.
  induction fuel as [| fuel IH]; intros l t; cbn [nextWorkingLoop nextWorkingLoopL];
    [reflexivity |].
  rewrite isWorkingDay_list. destruct (workingL l t); [reflexivity |].
  cbv zeta. rewrite addDays_shift, Z.mul_1_r.
  destruct (negb (getFullYear (t + 1440) =? year)).
  - rewrite holidays_list, <- list_to_set_app_L. apply IH.
  - apply IH.
Qed.

Lemma dayOf_aligned (k r : Z) : 0 <= r < 1440 -> dayOf (1440 * k + r) = k.
Proof. intros Hr. unfold dayOf. Z.div_mod_to_equations. lia. Qed.

Lemma getFullYear_aligned (k r : Z) :
  0 <= r < 1440 -> getFullYear (1440 * k + r) = getFullYear (1440 * k).
Proof.
  intros Hr. unfold getFullYear.
  rewrite (dayOf_aligned k r Hr), <- (dayOf_aligned k 0) at 1 by lia.
  rewrite Z.add_0_r. reflexivity.
Qed.

Lemma workingL_aligned l (k r : Z) :
  0 <= r < 1440 -> workingL l (1440 * k + r) = workingL l (1440 * k).
Proof.
  intros Hr. unfold workingL, getDay.
  rewrite (formatDateISO_day (1440 * k + r)), (formatDateISO_day (1440 * k)).
  rewrite (dayOf_aligned k r Hr).
  replace (dayOf (1440 * k)) with k
    by (rewrite <- (Z.add_0_r (1440 * k)); symmetry; apply dayOf_aligned; lia).
  reflexivity.
Qed.

Lemma nextWorkingLoopL_aligned fuel am year (r : Z) :
  0 <= r < 1440 ->
  forall l k,
    nextWorkingLoopL fuel am year l (1440 * k + r)
    = (fun d => d + r) <$> nextWorkingLoopL fuel am year l (1440 * k).
Proof.
  intros Hr. induction fuel as [| fuel IH]; intros l k; cbn [nextWorkingLoopL];
    [reflexivity |].
  rewrite (workingL_aligned l k r Hr). destruct (workingL l (1440 * k)); [reflexivity |].
  cbv zeta.
  replace (1440 * k + r + 1440) with (1440 * (k + 1) + r) by lia.
  replace (1440 * k + 1440) with (1440 * (k + 1)) by lia.
  rewrite (getFullYear_aligned (k + 1) r Hr). apply IH.
Qed.

Lemma nextWorkingLoopL_fuel fuel extra am year :
  forall l t d,
    nextWorkingLoopL fuel am year l t = Some d ->
    nextWorkingLoopL (fuel + extra) am year l t = Some d.
Proof.
  induction fuel as [| fuel IH]; intros l t d H; cbn [nextWorkingLoopL Nat.add] in *;
    [discriminate |].
  destruct (workingL l t); [exact H |]. apply IH. exact H.
Qed.

Lemma firstWorkingAfter_spec am (t : Date) n :
  forall j d,
    firstWorkingAfter am t n j = Some d ->
    exists i, j <= i < j + Z.of_nat n /\ d = t + 1440 * i
              /\ workingL (holidayList (getFullYear d) am) d = true
              /\ forall i', j <= i' < i ->
                   workingL (holidayList (getFullYear (t + 1440 * i')) am)
                            (t + 1440 * i') = false.
Proof.
  induction n as [| n IH]; intros j d H; cbn [firstWorkingAfter] in H; [discriminate |].
  destruct (workingL _ (t + 1440 * j)) eqn:E.
  - injection H as <-. exists j. split; [lia |]. split; [reflexivity |].
    split; [exact E |]. intros i' Hi'. lia.
  - destruct (IH (j + 1) d H) as (i & Hi & Hd & Hw & Hbefore).
    exists i. split; [lia |]. split; [exact Hd |]. split; [exact Hw |].
    intros i' Hi'. destruct (Z.eq_dec i' j) as [-> | Hne]; [exact E |].
    apply Hbefore. lia.
Qed.

Lemma sameDate_spec (a b : option Date) :
  sameDate a b = true -> exists d, a = Some d /\ b = Some d.
Proof.
  destruct a as [d |], b as [d' |]; cbn; try discriminate.
  intros H. apply Z.eqb_eq in H. subst d'. exists d. split; reflexivity.
Qed.

(** *** Working days by day number *)

Lemma getFullYear_day (k : Z) : getFullYear (1440 * k) = fst (fst (civilFromDays k)).
Proof.
  unfold getFullYear, dayOf. rewrite Z.mul_comm, Z.div_mul by lia. reflexivity.
Qed.

Lemma day_in_validated_year (c : Z) :
  18262 <= c <= 22279 -> 2020 <= getFullYear (1440 * c) <= 2030.
Proof.
  intros Hc. rewrite getFullYear_day. split.
  - pose proof (civil_year_mono 18262 c ltac:(lia)) as H.
    change (fst (fst (civilFromDays 18262))) with 2020 in H. exact H.
  - pose proof (civil_year_mono c 22279 ltac:(lia)) as H.
    change (fst (fst (civilFromDays 22279))) with 2030 in H. exact H.
Qed.

(** A day lies between the first and the last day of a year exactly when
    it is a day of that year. *)
Lemma span_of_year (a b year c : Z) :
  fst (fst (civilFromDays (a - 1))) = year - 1 ->
  fst (fst (civilFromDays a)) = year ->
  fst (fst (civilFromDays b)) = year ->
  fst (fst (civilFromDays (b + 1))) = year + 1 ->
  (a <=? c) && (c <=? b) = (getFullYear (1440 * c) =? year).
Proof.
  intros Ha' Ha Hb Hb'. rewrite getFullYear_day.
  destruct (a <=? c) eqn:E1; [apply Z.leb_le in E1 | apply Z.leb_gt in E1].
  - destruct (c <=? b) eqn:E2; [apply Z.leb_le in E2 | apply Z.leb_gt in E2];
      cbn [andb]; symmetry.
    + apply Z.eqb_eq.
      pose proof (civil_year_mono a c E1). pose proof (civil_year_mono c b E2). lia.
    + apply Z.eqb_neq. pose proof (civil_year_mono (b + 1) c ltac:(lia)). lia.
  - cbn [andb]. symmetry. apply Z.eqb_neq.
    pose proof (civil_year_mono c (a - 1) ltac:(lia)). lia.
Qed.

Lemma yearSpan_test am year c :
  In year validatedYears ->
  (fst (fst (yearSpan am year)) <=? c) && (c <=? snd (fst (yearSpan am year)))
  = (getFullYear (1440 * c) =? year).
Proof.
  intros Hy. unfold yearSpan. cbn [fst snd]. cbv [validatedYears In] in Hy.
  repeat (destruct Hy as [<- | Hy];
          [apply span_of_year; vm_compute; reflexivity |]).
  contradiction.
Qed.

Lemma holidaysOn_years am (ys : list Z) (c : Z) :
  (forall y, In y ys -> In y validatedYears) ->
  holidaysOn (map (yearSpan am) ys) c
  = if existsb (Z.eqb (getFullYear (1440 * c))) ys
    then holidayDays (getFullYear (1440 * c)) am else [].
Proof.
  unfold holidaysOn. induction ys as [| y ys IH]; intros Hys; [reflexivity |].
  cbn [map List.find existsb].
  rewrite (yearSpan_test am y c) by (apply Hys; left; reflexivity).
  destruct (getFullYear (1440 * c) =? y) eqn:E.
  - apply Z.eqb_eq in E. rewrite E. reflexivity.
  - cbn [orb]. apply IH. intros y' Hy'. apply Hys. right. exact Hy'.
Qed.

Lemma holidaysOn_validated am (c : Z) :
  18262 <= c <= 22279 ->
  holidaysOn (map (yearSpan am) validatedYears) c
  = holidayDays (getFullYear (1440 * c)) am.
Proof.
  intros Hc. rewrite holidaysOn_years by (intros y Hy; exact Hy).
  replace (existsb (Z.eqb (getFullYear (1440 * c))) validatedYears) with true;
    [reflexivity |].
  symmetry. apply existsb_exists. exists (getFullYear (1440 * c)).
  split; [| apply Z.eqb_refl].
  apply validated_year_cases, day_in_validated_year. exact Hc.
Qed.

Lemma firstWorkingH_ext (h h' : Z -> list Z) (k : Z) (n : nat) :
  forall j,
    (forall i, j <= i < j + Z.of_nat n -> h (k + i) = h' (k + i)) ->
    firstWorkingH h k n j = firstWorkingH h' k n j.
Proof.
  induction n as [| n IH]; intros j H; [reflexivity |].
  cbn [firstWorkingH]. rewrite (H j) by lia.
  destruct (workingZ _ _); [reflexivity |]. apply IH. intros i Hi. apply H. lia.
Qed.

(** Among the five days after a day of 2020..2030, the last five of 2030
    apart, one is a working day. *)
Lemma working_day_within_five (am : bool) (k : Z) :
  18262 <= k <= 22274 -> exists j, firstWorkingZ am k 5 1 = Some j.
Proof.
  intros Hk.
  assert (H : workingWithinFive am (Z.to_nat 4013) 18262 = true)
    by (destruct am; vm_cast_no_check (eq_refl true)).
  unfold workingWithinFive in H. cbv zeta in H.
  pose proof (forallFrom_spec _ _ _ H k) as Hk'.
  rewrite Z2Nat.id in Hk' by lia. specialize (Hk' ltac:(lia)). cbv beta in Hk'.
  rewrite (firstWorkingH_ext _ (fun c => holidayDays (getFullYear (1440 * c)) am)) in Hk'
    by (intros i Hi; apply holidaysOn_validated; cbn in Hi; lia).
  fold (firstWorkingZ am) in Hk'.
  destruct (firstWorkingZ am k 5 1) as [j |]; [exists j; reflexivity | discriminate Hk'].
Qed.

(** The holiday dates of a year are the texts of its holidays' days. *)
Lemma holidayList_days am year :
  2020 <= year <= 2030 ->
  holidayList year am = map (fun h => formatDateISO (1440 * h)) (holidayDays year am)
  /\ Forall (fun h => getFullYear (1440 * h) = year) (holidayDays year am).
Proof.
  intros Hy. apply validated_year_cases in Hy. simpl in Hy.
  repeat (destruct Hy as [<- | Hy];
          [destruct am;
           (split; [vm_compute; reflexivity |]);
           repeat (constructor; [vm_compute; reflexivity |]); constructor |]).
  contradiction.
Qed.

Lemma formatDateISO_days_inj (k h : Z) :
  18262 <= k <= 22279 -> 18262 <= h <= 22279 ->
  formatDateISO (1440 * k) = formatDateISO (1440 * h) -> k = h.
Proof.
  intros Hk Hh E.
  pose proof (parse_format_days k Hk) as Pk. pose proof (parse_format_days h Hh) as Ph.
  rewrite E, Ph in Pk. injection Pk as Pk. lia.
Qed.

Lemma holiday_text_of_day am (ys : list Z) (c : Z) :
  Forall (fun y => 2020 <= y <= 2030) ys -> 18262 <= c <= 22279 ->
  In (getFullYear (1440 * c)) ys ->
  existsb (String.eqb (formatDateISO (1440 * c))) (flat_map (fun y => holidayList y am) ys)
  = existsb (Z.eqb c) (holidayDays (getFullYear (1440 * c)) am).
Proof.
  intros Hys Hc Hin.
  pose proof (day_in_validated_year c Hc) as Hyc.
  destruct (holidayList_days am _ Hyc) as [Hl _].
  destruct (existsb (Z.eqb c) (holidayDays (getFullYear (1440 * c)) am)) eqn:E.
  - apply existsb_exists in E as (h & Hh & Eh). apply Z.eqb_eq in Eh. subst h.
    apply existsb_eqb_In, in_flat_map. exists (getFullYear (1440 * c)).
    split; [exact Hin |]. rewrite Hl. apply in_map_iff. exists c. split; [reflexivity | exact Hh].
  - destruct (existsb (String.eqb (formatDateISO (1440 * c))) _) eqn:F; [| reflexivity].
    exfalso. apply existsb_eqb_In, in_flat_map in F as (y & Hy & F).
    rewrite List.Forall_forall in Hys. specialize (Hys y Hy).
    destruct (holidayList_days am y Hys) as [Hly Hyear]. rewrite Hly in F.
    apply in_map_iff in F as (h & Eh & Hh).
    rewrite List.Forall_forall in Hyear. specialize (Hyear h Hh).
    assert (Hrange : 18262 <= h <= 22279).
    { pose proof (dayOf_of_year (1440 * h) ltac:(lia)) as R.
      replace (dayOf (1440 * h)) with h in R; [exact R |].
      rewrite <- (Z.add_0_r (1440 * h)). symmetry. apply dayOf_aligned. lia. }
    apply (formatDateISO_days_inj h c Hrange Hc) in Eh. subst h.
    rewrite Hyear in *.
    assert (T : existsb (Z.eqb c) (holidayDays y am) = true)
      by (apply existsb_exists; exists c; split; [exact Hh | apply Z.eqb_refl]).
    congruence.
Qed.

Lemma workingL_days am (ys : list Z) (c : Z) :
  Forall (fun y => 2020 <= y <= 2030) ys -> 18262 <= c <= 22279 ->
  In (getFullYear (1440 * c)) ys ->
  workingL (flat_map (fun y => holidayList y am) ys) (1440 * c)
  = workingZ (holidayDays (getFullYear (1440 * c)) am) c.
Proof.
  intros Hys Hc Hin. unfold workingL, workingZ.
  rewrite (holiday_text_of_day am ys c Hys Hc Hin). reflexivity.
Qed.

Lemma firstWorkingAfter_days am (k : Z) (n : nat) :
  forall j,
    18262 <= k + j -> k + j + Z.of_nat n <= 22280 ->
    firstWorkingAfter am (1440 * k) n j
    = (fun i => 1440 * k + 1440 * i) <$> firstWorkingZ am k n j.
Proof.
  induction n as [| n IH]; intros j Hlo Hhi; [reflexivity |].
  unfold firstWorkingZ in *. cbn [firstWorkingAfter firstWorkingH].
  replace (1440 * k + 1440 * j) with (1440 * (k + j)) by lia.
  assert (Hc : 18262 <= k + j <= 22279) by lia.
  pose proof (workingL_days am [getFullYear (1440 * (k + j))] (k + j)) as W.
  cbn [flat_map] in W. rewrite app_nil_r in W.
  rewrite W; [| constructor; [apply day_in_validated_year; exact Hc | constructor]
              | exact Hc | left; reflexivity].
  destruct (workingZ _ _).
  - cbn. f_equal. lia.
  - apply IH; lia.
Qed.

Lemma nextWorkingLoopL_days am year (k : Z) (n : nat) :
  forall (ys : list Z) j,
    Forall (fun y => 2020 <= y <= 2030) ys -> In year ys ->
    In (getFullYear (1440 * (k + j))) ys ->
    18262 <= k + j -> k + j + Z.of_nat n <= 22280 ->
    nextWorkingLoopL n am year (flat_map (fun y => holidayList y am) ys) (1440 * (k + j))
    = (fun i => 1440 * k + 1440 * i) <$> firstWorkingZ am k n j.
Proof.
  induction n as [| n IH]; intros ys j Hys Hyear Hin Hlo Hhi; [reflexivity |].
  unfold firstWorkingZ in *. cbn [nextWorkingLoopL firstWorkingH].
  assert (Hc : 18262 <= k + j <= 22279) by lia.
  rewrite (workingL_days am ys (k + j) Hys Hc Hin).
  destruct (workingZ _ _).
  - cbn. f_equal. lia.
  - cbv zeta. replace (1440 * (k + j) + 1440) with (1440 * (k + (j + 1))) by lia.
    destruct n as [| n']; [reflexivity |].
    assert (Hc' : 18262 <= k + (j + 1) <= 22279) by lia.
    destruct (negb (getFullYear (1440 * (k + (j + 1))) =? year)) eqn:E.
    + change (holidayList (getFullYear (1440 * (k + (j + 1)))) am
              ++ flat_map (fun y => holidayList y am) ys)%list
        with (flat_map (fun y => holidayList y am)
                       (getFullYear (1440 * (k + (j + 1))) :: ys)).
      apply IH; [| right; exact Hyear | left; reflexivity | lia | lia].
      constructor; [apply day_in_validated_year; exact Hc' | exact Hys].
    + apply negb_false_iff, Z.eqb_eq in E.
      apply IH; [exact Hys | exact Hyear | rewrite E; exact Hyear | lia | lia].
Qed.

Lemma next_working_checked (am : bool) (k : Z) :
  18262 <= k <= 22279 ->
  sameDate (nextWorkingLoopL 5 am (getFullYear (1440 * k + 1440))
                             (holidayList (getFullYear (1440 * k + 1440)) am)
                             (1440 * k + 1440))
           (firstWorkingAfter am (1440 * k) 5 1) = true.
Proof.
  intros Hk. destruct (Z_le_gt_dec k 22274) as [Hle | Hgt].
  - destruct (working_day_within_five am k ltac:(lia)) as (j & Hj).
    rewrite (firstWorkingAfter_days am k 5 1) by lia.
    replace (1440 * k + 1440) with (1440 * (k + 1)) by lia.
    pose proof (nextWorkingLoopL_days am (getFullYear (1440 * (k + 1))) k 5
                  [getFullYear (1440 * (k + 1))] 1) as L.
    cbn [flat_map] in L. rewrite app_nil_r in L.
    rewrite L; [| constructor; [apply day_in_validated_year; lia | constructor]
                | left; reflexivity | left; reflexivity | lia | lia].
    rewrite Hj. cbn. apply Z.eqb_refl.
  - destruct am.
    + apply (forallFrom_spec
               (fun k => sameDate
                           (nextWorkingLoopL 5 true (getFullYear (1440 * k + 1440))
                              (holidayList (getFullYear (1440 * k + 1440)) true)
                              (1440 * k + 1440))
                           (firstWorkingAfter true (1440 * k) 5 1))
               5 22275); [vm_cast_no_check (eq_refl true) | lia].
    + apply (forallFrom_spec
               (fun k => sameDate
                           (nextWorkingLoopL 5 false (getFullYear (1440 * k + 1440))
                              (holidayList (getFullYear (1440 * k + 1440)) false)
                              (1440 * k + 1440))
                           (firstWorkingAfter false (1440 * k) 5 1))
               5 22275); [vm_cast_no_check (eq_refl true) | lia].
Qed.

Lemma workingDay_list region (t : Date) :
  workingDay region t
  = workingL (holidayList (getFullYear t) (isAlsaceMoselle region)) t.
Proof. unfold workingDay. rewrite holidays_list. apply isWorkingDay_list. Qed.

(** X17. For a date of 2020..2030 and any region, the loop of
    getNextWorkingDay stops after at most five iterations, whatever room it is
    given beyond that, and returns the first of the following days that is
    neither a Saturday, nor a Sunday, nor a holiday of its own year in that
    region, at the same time of day. *)
Theorem getNextWorkingDay_first fuel (t : Date) region :
  2020 <= getFullYear t <= 2030 -> (5 <= fuel)%nat ->
  exists j,
    1 <= j <= 5
    /\ getNextWorkingDay fuel t region = Some (t + 1440 * j)
    /\ workingDay region (t + 1440 * j) = true
    /\ forall i, 1 <= i < j -> workingDay region (t + 1440 * i) = false.
Proof.
  intros Hy Hfuel. pose proof (dayOf_of_year t Hy) as Hk.
  set (k := dayOf t) in *. set (r := t - 1440 * k).
  assert (Hr : 0 <= r < 1440)
    by (subst r k; unfold dayOf, Date in *; Z.div_mod_to_equations; lia).
  assert (Ht : t = 1440 * k + r) by (subst r; unfold Date in *; lia).
  set (am := isAlsaceMoselle region).
  destruct (sameDate_spec _ _ (next_working_checked am k Hk)) as (d & Hloop & Hfirst).
  destruct (firstWorkingAfter_spec am (1440 * k) 5 1 d Hfirst)
    as (j & Hj & Hd & Hw & Hbefore).
  assert (Hshift : forall i, t + 1440 * i = 1440 * (k + i) + r)
    by (intros i; rewrite Ht; lia).
  assert (Hwork : forall i, workingDay region (t + 1440 * i)
                            = workingL (holidayList (getFullYear (1440 * k + 1440 * i)) am)
                                       (1440 * k + 1440 * i)).
  { intros i. rewrite workingDay_list, Hshift. fold am.
    rewrite getFullYear_aligned, workingL_aligned by exact Hr.
    replace (1440 * (k + i)) with (1440 * k + 1440 * i) by lia. reflexivity. }
  exists j. split; [lia |]. split; [| split].
  - unfold getNextWorkingDay. cbv zeta. rewrite addDays_shift, Z.mul_1_r.
    rewrite holidays_list, nextWorkingLoop_list. fold am.
    replace (t + 1440) with (1440 * (k + 1) + r) by lia.
    rewrite getFullYear_aligned, nextWorkingLoopL_aligned by exact Hr.
    replace fuel with (5 + (fuel - 5))%nat by lia.
    replace (1440 * (k + 1)) with (1440 * k + 1440) by lia.
    rewrite (nextWorkingLoopL_fuel 5 (fuel - 5) am _ _ _ d Hloop).
    cbn [fmap option_fmap option_map]. f_equal. lia.
  - rewrite Hwork, <- Hd. exact Hw.
  - intros i Hi. rewrite Hwork. apply Hbefore. lia.
Qed.

Lemma getNextWorkingDay_first_witness :
  exists j,
    1 <= j <= 5
    /\ getNextWorkingDay 10 (mkDate 2024 4 7) "FR-67" = Some (mkDate 2024 4 7 + 1440 * j)
    /\ workingDay "FR-67" (mkDate 2024 4 7 + 1440 * j) = true
    /\ forall i, 1 <= i < j -> workingDay "FR-67" (mkDate 2024 4 7 + 1440 * i) = false.
Proof.
  apply (getNextWorkingDay_first 10 (mkDate 2024 4 7) "FR-67").
  - vm_compute. split; discriminate.
  - lia.
Defined.

(** ** Day masks *)

Lemma bit_of_day (d i : Z) :
  0 <= d <= 6 -> 0 <= i <= 6 ->
  (Z.land (Z.shiftl 1 d) (Z.shiftl 1 i) =? 0) = negb (i =? d).
Proof.
  intros Hd Hi.
  assert (Cd : d = 0 \/ d = 1 \/ d = 2 \/ d = 3 \/ d = 4 \/ d = 5 \/ d = 6) by lia.
  assert (Ci : i = 0 \/ i = 1 \/ i = 2 \/ i = 3 \/ i = 4 \/ i = 5 \/ i = 6) by lia.
  destruct Cd as [-> | [-> | [-> | [-> | [-> | [-> | ->]]]]]];
    destruct Ci as [-> | [-> | [-> | [-> | [-> | [-> | ->]]]]]]; reflexivity.
Qed.

Lemma lor_eqb_0 (a b : Z) : (Z.lor a b =? 0) = (a =? 0) && (b =? 0).
Proof.
  destruct (Z.lor a b =? 0) eqn:E.
  - apply Z.eqb_eq, Z.lor_eq_0_iff in E as [-> ->]. reflexivity.
  - symmetry. apply andb_false_iff.
    destruct (a =? 0) eqn:Ea; [| left; reflexivity]. right.
    destruct (b =? 0) eqn:Eb; [| reflexivity].
    apply Z.eqb_eq in Ea, Eb. subst. discriminate E.
Qed.

Lemma mask_test (days : list Z) (i : Z) :
  Forall (fun d => 0 <= d <= 6) days -> 0 <= i <= 6 ->
  forall acc,
    (Z.land (fold_left (fun mask day => Z.lor mask (Z.shiftl 1 day)) days acc)
            (Z.shiftl 1 i) =? 0)
    = (Z.land acc (Z.shiftl 1 i) =? 0) && negb (existsb (Z.eqb i) days).
Proof.
  intros Hdays Hi. induction Hdays as [| d days Hd _ IH]; intros acc; cbn [fold_left existsb].
  - rewrite andb_true_r. reflexivity.
  - rewrite IH, Z.land_lor_distr_l, lor_eqb_0, bit_of_day by assumption.
    rewrite negb_orb, andb_assoc. reflexivity.
Qed.

Lemma mask_bound (days : list Z) :
  Forall (fun d => 0 <= d <= 6) days ->
  forall acc, 0 <= acc < 128 ->
    0 <= fold_left (fun mask day => Z.lor mask (Z.shiftl 1 day)) days acc < 128.
Proof.
  induction 1 as [| d days Hd _ IH]; intros acc Hacc; cbn [fold_left]; [exact Hacc |].
  apply IH.
  assert (Hb : 0 <= Z.shiftl 1 d < 128).
  { assert (Cd : d = 0 \/ d = 1 \/ d = 2 \/ d = 3 \/ d = 4 \/ d = 5 \/ d = 6) by lia.
    destruct Cd as [-> | [-> | [-> | [-> | [-> | [-> | ->]]]]]]; vm_compute;
      (split; [discriminate | reflexivity]). }
  split; [apply Z.lor_nonneg; lia |].
  destruct (Z.eq_dec (Z.lor acc (Z.shiftl 1 d)) 0) as [-> | Hne]; [lia |].
  assert (Hpos : 0 < Z.lor acc (Z.shiftl 1 d))
    by (pose proof (proj2 (Z.lor_nonneg acc (Z.shiftl 1 d)) ltac:(lia)); lia).
  change 128 with (2 ^ 7). apply Z.log2_lt_pow2; [exact Hpos |].
  rewrite Z.log2_lor by lia.
  assert (La : Z.log2 acc < 7).
  { destruct (Z.eq_dec acc 0) as [-> | ?]; [cbn; lia |].
    apply Z.log2_lt_pow2; [lia |]. change (2 ^ 7) with 128. lia. }
  assert (Lb : Z.log2 (Z.shiftl 1 d) < 7).
  { destruct (Z.eq_dec (Z.shiftl 1 d) 0) as [-> | ?]; [cbn; lia |].
    apply Z.log2_lt_pow2; [lia |]. change (2 ^ 7) with 128. lia. }
  lia.
Qed.

(** X18. daysMaskToArray and arrayToDaysMask are inverse to each other on
    the seven-bit masks: a mask in 0..127 is rebuilt from its list of days;
    and a list of days in 0..6, in any order and with repetitions, gives a
    mask in 0..127 whose list of days is the same days in increasing order
    without repetition. *)
Theorem daysMask_round_trip :
  (forall m, 0 <= m <= 127 -> arrayToDaysMask (daysMaskToArray m) = m)
  /\ (forall days, Forall (fun d => 0 <= d <= 6) days ->
        0 <= arrayToDaysMask days <= 127
        /\ daysMaskToArray (arrayToDaysMask days)
           = List.filter (fun i => existsb (Z.eqb i) days) [0; 1; 2; 3; 4; 5; 6]).
Proof.
  split.
  - intros m Hm.
    pose proof (forallFrom_spec (fun m => arrayToDaysMask (daysMaskToArray m) =? m)
                                128%nat 0 ltac:(vm_cast_no_check (eq_refl true)) m) as H.
    cbv beta in H. apply Z.eqb_eq. apply H. lia.
  - intros days Hdays. split.
    + unfold arrayToDaysMask. pose proof (mask_bound days Hdays 0 ltac:(lia)). lia.
    + unfold daysMaskToArray, arrayToDaysMask. apply filter_ext_in.
      intros i Hi. rewrite mask_test by (assumption || (cbv [In] in Hi; lia)).
      rewrite Z.land_0_l. cbn [Z.eqb andb]. apply negb_involutive.
Qed.

Lemma daysMask_round_trip_witness :
  arrayToDaysMask (daysMaskToArray 62) = 62
  /\ daysMaskToArray (arrayToDaysMask [5; 1; 5; 3]) = [1; 3; 5].
Proof.
  destruct daysMask_round_trip as [H1 H2]. split.
  - apply H1. lia.
  - destruct (H2 [5; 1; 5; 3]) as [_ H]; [repeat constructor; lia |].
    rewrite H. reflexivity.
Defined.

Lemma weekend_cleared (m d : Z) :
  0 <= d <= 6 ->
  (Z.land (applyExcludeWeekends m true) (Z.shiftl 1 d) =? 0)
  = if (d =? 0) || (d =? 6) then true else (Z.land m (Z.shiftl 1 d) =? 0).
Proof.
  intros Hd. unfold applyExcludeWeekends. cbn [negb].
  rewrite <- !Z.land_assoc.
  assert (Cd : d = 0 \/ d = 1 \/ d = 2 \/ d = 3 \/ d = 4 \/ d = 5 \/ d = 6) by lia.
  destruct Cd as [-> | [-> | [-> | [-> | [-> | [-> | ->]]]]]];
    cbn [Z.eqb orb Pos.eqb];
    match goal with
    | |- context [Z.land m ?x] =>
        let v := eval vm_compute in x in change x with v
    end;
    rewrite ?Z.land_0_r; reflexivity.
Qed.

(** X19. Clearing the weekend bits of a day mask with applyExcludeWeekends
    has the same effect on the expansion as the excludeWeekends flag: on
    every date, a pattern with mask m and the flag on is active exactly when
    the same pattern with mask applyExcludeWeekends m true and the flag off
    is. *)
Theorem applyExcludeWeekends_as_flag (t : Date) (pattern : Pattern)
        (holidays : gset string) (m : Z) :
  p_daysMask pattern = Some m ->
  truthyInt (p_excludeWeekends pattern) = true ->
  isDateActive t pattern holidays
  = isDateActive t
      {| p_id := p_id pattern; p_name := p_name pattern; p_amount := p_amount pattern;
         p_frequency := p_frequency pattern; p_startMonth := p_startMonth pattern;
         p_kind := p_kind pattern; p_isRecurring := p_isRecurring pattern;
         p_excludeWeekends := Some 0;
         p_excludeHolidays := p_excludeHolidays pattern;
         p_daysMask := Some (applyExcludeWeekends m true);
         p_dayOffOverrides := p_dayOffOverrides pattern;
         p_startDate := p_startDate pattern |}
      holidays.
Proof.
  intros Hm Hw. unfold isDateActive.
  cbn [p_dayOffOverrides p_daysMask p_excludeWeekends p_excludeHolidays].
  rewrite Hm, Hw. cbn [truthyInt].
  destruct (match p_dayOffOverrides pattern with Some _ => _ | None => _ end);
    [reflexivity |].
  rewrite weekend_cleared by (pose proof (getDay_range t); lia).
  change (truthyInt (Some 0)) with false. rewrite !andb_false_r, andb_true_r.
  destruct ((getDay t =? 0) || (getDay t =? 6)); cbn [negb andb].
  - destruct (negb (Z.land m (Z.shiftl 1 (getDay t)) =? 0)); reflexivity.
  - destruct (negb (Z.land m (Z.shiftl 1 (getDay t)) =? 0)); reflexivity.
Qed.

Lemma applyExcludeWeekends_as_flag_witness :
  isDateActive (mkDate 2024 5 1) workweekDaily ∅
  = isDateActive (mkDate 2024 5 1)
      {| p_id := p_id workweekDaily; p_name := p_name workweekDaily;
         p_amount := p_amount workweekDaily;
         p_frequency := p_frequency workweekDaily;
         p_startMonth := p_startMonth workweekDaily;
         p_kind := p_kind workweekDaily; p_isRecurring := p_isRecurring workweekDaily;
         p_excludeWeekends := Some 0;
         p_excludeHolidays := p_excludeHolidays workweekDaily;
         p_daysMask := Some (applyExcludeWeekends 62 true);
         p_dayOffOverrides := p_dayOffOverrides workweekDaily;
         p_startDate := p_startDate workweekDaily |}
      ∅.
Proof.
  apply (applyExcludeWeekends_as_flag (mkDate 2024 5 1) workweekDaily ∅ 62); reflexivity.
Defined.

(** ** The refinement of the insert schemas *)

(** X20. The refinement shared by insertRevenuePatternSchema and
    insertExpensePatternSchema accepts a pattern if and only if its frequency
    is daily and it carries a daysMask in 0..127.  It hands
    validateDailyPattern the two exclusion flags as booleans, which are never
    undefined, so every monthly, quarterly or yearly pattern is rejected with
    the message that the daily fields are ignored for its frequency. *)
Theorem refinement_accepts_only_daily (data : PatternInsertData) :
  (dailyFieldsRefinement data = Ok true
   <-> i_frequency data = "daily"
       /\ exists m, i_daysMask data = Some m /\ 0 <= m <= 127)
  /\ (i_frequency data <> "daily" ->
      dailyFieldsRefinement data
      = Err ("Daily pattern fields (daysMask, dayOffOverrides, excludeWeekends, "
             ++ "excludeHolidays) are ignored for " ++ i_frequency data ++ " frequency")).
Proof.
  unfold dailyFieldsRefinement, validateDailyPattern.
  cbn [dp_daysMask dp_excludeWeekends dp_excludeHolidays dp_dayOffOverrides].
  destruct (String.eqb (i_frequency data) "daily") eqn:Ef.
  - apply String.eqb_eq in Ef. split; [| intros H; contradiction].
    destruct (i_daysMask data) as [m |].
    + destruct ((m <? 0) || (m >? 127)) eqn:Em.
      * split; [discriminate |]. intros (_ & m' & Hm' & Hr). injection Hm' as <-.
        apply orb_true_iff in Em as [Em | Em];
          [apply Z.ltb_lt in Em | rewrite Z.gtb_ltb in Em; apply Z.ltb_lt in Em]; lia.
      * apply orb_false_iff in Em as [E1 E2]. apply Z.ltb_ge in E1.
        rewrite Z.gtb_ltb in E2. apply Z.ltb_ge in E2.
        split; [| reflexivity]. intros _. split; [exact Ef |]. exists m.
        split; [reflexivity | lia].
    + split; [discriminate |]. intros (_ & m' & Hm' & _). discriminate Hm'.
  - apply String.eqb_neq in Ef. rewrite !orb_true_r. split.
    + split; [discriminate |]. intros (H & _). contradiction.
    + intros _. reflexivity.
Qed.

Lemma refinement_accepts_only_daily_witness :
  dailyFieldsRefinement
    {| i_frequency := "monthly"; i_daysMask := None; i_excludeWeekends := None;
       i_excludeHolidays := None; i_dayOffOverrides := [] |}
  = Err ("Daily pattern fields (daysMask, dayOffOverrides, excludeWeekends, "
         ++ "excludeHolidays) are ignored for " ++ "monthly" ++ " frequency").
Proof.
  apply (proj2 (refinement_accepts_only_daily
                  {| i_frequency := "monthly"; i_daysMask := None;
                     i_excludeWeekends := None; i_excludeHolidays := None;
                     i_dayOffOverrides := [] |})).
  discriminate.
Defined.

(** ** Totals of a list of occurrences *)

Lemma monthlySummaryOf_fields bm groups s m ms :
  monthlySummaryOf bm groups s m = Ok ms ->
  let monthOccurrences := default [] (groups !! Some m) in
  ms_month ms = m
  /\ net (ms_revenue ms) = reduceSum netAmount (List.filter isRevenue monthOccurrences)
  /\ vatTotal (ms_revenue ms) = reduceSum vatAmount (List.filter isRevenue monthOccurrences)
  /\ e_net (ms_expenses ms) = reduceSum netAmount (List.filter isExpense monthOccurrences)
  /\ deductibleVat (ms_expenses ms)
     = reduceSum (fun occ => if default false (vatDeductible occ) then vatAmount occ else 0%Q)
                 (List.filter isExpense monthOccurrences)
  /\ ms_netProfit ms = (net (ms_revenue ms) - e_net (ms_expenses ms))%Q
  /\ netVatPosition ms = (vatTotal (ms_revenue ms) - deductibleVat (ms_expenses ms))%Q.
Proof.
  unfold monthlySummaryOf. cbv zeta.
  destruct (closingAt bm operating m); cbn; [| discriminate].
  destruct (closingAt bm savings m); cbn; [| discriminate].
  destruct (closingAt bm personal m); cbn; [| discriminate].
  destruct (closingAt bm vat m); cbn; [| discriminate].
  intros H. injection H as <-. cbn. repeat split; reflexivity.
Qed.

(** The four running totals of [calculateOccurrenceTotals], each as the
    loop over the occurrences it reads. *)
Lemma occurrenceTotals_fold (occurrences : list Occurrence) :
  forall a b c d,
    fold_left
      (fun '(totalRevenue, totalExpenses, collectedVAT, deductibleVAT) occ =>
         match type occ with
         | revenue =>
             ((totalRevenue + netAmount occ)%Q, totalExpenses,
              (collectedVAT + vatAmount occ)%Q, deductibleVAT)
         | expense =>
             (totalRevenue, (totalExpenses + netAmount occ)%Q, collectedVAT,
              if default false (vatDeductible occ)
              then (deductibleVAT + vatAmount occ)%Q else deductibleVAT)
         end)
      occurrences (a, b, c, d)
    = (fold_left (fun s o => (s + netAmount o)%Q) (List.filter isRevenue occurrences) a,
       fold_left (fun s o => (s + netAmount o)%Q) (List.filter isExpense occurrences) b,
       fold_left (fun s o => (s + vatAmount o)%Q) (List.filter isRevenue occurrences) c,
       fold_left (fun s o => if default false (vatDeductible o)
                             then (s + vatAmount o)%Q else s)
                 (List.filter isExpense occurrences) d).
Proof.
  induction occurrences as [| o l IH]; intros a b c d; [reflexivity |].
  cbn [fold_left List.filter].
  assert (Hr : isRevenue o = bool_decide (type o = revenue)) by reflexivity.
  assert (He : isExpense o = bool_decide (type o = expense)) by reflexivity.
  destruct (type o) eqn:Et.
  - rewrite bool_decide_eq_true_2 in Hr by reflexivity.
    rewrite bool_decide_eq_false_2 in He by discriminate.
    rewrite Hr, He, IH. reflexivity.
  - rewrite bool_decide_eq_false_2 in Hr by discriminate.
    rewrite bool_decide_eq_true_2 in He by reflexivity.
    rewrite Hr, He, IH. reflexivity.
Qed.

(** Adding zero for an expense whose VAT is not deductible, as the engine
    does, or skipping it, as [calculateOccurrenceTotals] does. *)
Lemma deductible_fold (l : list Occurrence) :
  forall d d' : Q,
    (d == d')%Q ->
    (fold_left (fun s o => if default false (vatDeductible o)
                           then (s + vatAmount o)%Q else s) l d
     == fold_left (fun s o => (s + (if default false (vatDeductible o)
                                    then vatAmount o else 0))%Q) l d')%Q.
Proof.
  induction l as [| o l IH]; intros d d' H; cbn [fold_left]; [exact H |].
  apply IH. destruct (default false (vatDeductible o)); rewrite H; ring.
Qed.

(** X21. Month by month, the totals calculateOccurrenceTotals draws from
    the occurrences of a month are the figures of that month in the
    engine's monthly summaries: the same net revenue, net expenses, net
    profit and VAT collected, number for number, and the same deductible
    VAT and net VAT, the engine adding a zero where calculateOccurrenceTotals
    skips an expense whose VAT is not deductible. *)
Theorem occurrence_totals_match_month bm occurrences s monthlyTotals :
  calculateMonthlySummaries bm occurrences s = Ok monthlyTotals ->
  Forall
    (fun ms =>
       let t := OccurrenceQueries.calculateOccurrenceTotals
                  (List.filter
                     (fun o => bool_decide (monthOfDate (date o) = Some (ms_month ms)))
                     occurrences) in
       OccurrenceQueries.totalRevenue t = net (ms_revenue ms)
       /\ OccurrenceQueries.totalExpenses t = e_net (ms_expenses ms)
       /\ OccurrenceQueries.netProfit t = ms_netProfit ms
       /\ OccurrenceQueries.totalVAT t = vatTotal (ms_revenue ms)
       /\ (OccurrenceQueries.deductibleVAT t == deductibleVat (ms_expenses ms))%Q
       /\ (OccurrenceQueries.netVAT t == netVatPosition ms)%Q)
    monthlyTotals.
Proof.
  intros H. apply calculateMonthlySummaries_Ok in H.
  induction H as [| m ms order mss Hms _ IH]; constructor; [| exact IH].
  apply monthlySummaryOf_fields in Hms. cbv zeta in Hms.
  rewrite groupBy_lookup in Hms.
  destruct Hms as (Hm & Hn & Hv & He & Hd & Hp & Hvp). rewrite Hm.
  set (l := List.filter _ occurrences) in *. cbv zeta.
  unfold OccurrenceQueries.calculateOccurrenceTotals.
  rewrite (occurrenceTotals_fold l 0 0 0 0)%Q.
  cbn [OccurrenceQueries.totalRevenue OccurrenceQueries.totalExpenses
       OccurrenceQueries.netProfit OccurrenceQueries.totalVAT
       OccurrenceQueries.deductibleVAT OccurrenceQueries.netVAT].
  assert (Hded : (fold_left (fun s o => if default false (vatDeductible o)
                                        then (s + vatAmount o)%Q else s)
                            (List.filter isExpense l) 0
                  == deductibleVat (ms_expenses ms))%Q).
  { rewrite Hd. apply deductible_fold. reflexivity. }
  split; [symmetry; exact Hn |]. split; [symmetry; exact He |].
  split; [rewrite Hp, Hn, He; reflexivity |]. split; [symmetry; exact Hv |].
  split; [exact Hded |].
  rewrite Hvp, Hded, Hv. reflexivity.
Qed.

Lemma occurrence_totals_match_month_witness :
  exists monthlyTotals,
    calculateMonthlySummaries
      (createInitialBalances zeroBalances 4)
      (expandPattern 60 revReduced testCompany 2024
       ++ expandPattern 60 meals testCompany 2024) 4
    = Ok monthlyTotals
    /\ Forall
         (fun ms =>
            let t := OccurrenceQueries.calculateOccurrenceTotals
                       (List.filter
                          (fun o => bool_decide (monthOfDate (date o) = Some (ms_month ms)))
                          (expandPattern 60 revReduced testCompany 2024
                           ++ expandPattern 60 meals testCompany 2024)) in
            OccurrenceQueries.totalRevenue t = net (ms_revenue ms)
            /\ OccurrenceQueries.totalExpenses t = e_net (ms_expenses ms)
            /\ OccurrenceQueries.netProfit t = ms_netProfit ms
            /\ OccurrenceQueries.totalVAT t = vatTotal (ms_revenue ms)
            /\ (OccurrenceQueries.deductibleVAT t == deductibleVat (ms_expenses ms))%Q
            /\ (OccurrenceQueries.netVAT t == netVatPosition ms)%Q)
         monthlyTotals
    /\ map (fun ms => Qred (ms_netProfit ms)) monthlyTotals
       = [500; 500; 500; 500; 500; 500; 500; 500; 500; 1000; 1000; 1000]%Q.
Proof.
  destruct (calculateMonthlySummaries
              (createInitialBalances zeroBalances 4)
              (expandPattern 60 revReduced testCompany 2024
               ++ expandPattern 60 meals testCompany 2024) 4)
    as [monthlyTotals | e] eqn:E.
  - exists monthlyTotals. split; [reflexivity |]. split.
    + exact (occurrence_totals_match_month _ _ _ _ E).
    + apply (f_equal (fun r => match r with
                               | Ok l => map (fun ms => Qred (ms_netProfit ms)) l
                               | Err _ => []
                               end)) in E.
      rewrite <- E. vm_compute. reflexivity.
  - vm_compute in E. discriminate E.
Defined.

(** ** Grouping and filtering occurrences *)

Lemma groupByMonth_acc (l : list Occurrence) (k : string) :
  forall (m : gmap string (list Occurrence)),
    (forall k', m !! k' <> Some []) ->
    fold_left
      (fun (grouped : gmap string (list Occurrence)) occ =>
         let monthKey := JS.substring 0 7 (date occ) in
         let grouped :=
           match grouped !! monthKey with
           | None => <[monthKey := []]> grouped
           | Some _ => grouped
           end in
         <[monthKey := (default [] (grouped !! monthKey) ++ [occ])%list]> grouped)
      l m !! k
    = match m !! k,
            List.filter (fun o => bool_decide (JS.substring 0 7 (date o) = k)) l with
      | None, [] => None
      | None, g => Some g
      | Some g0, g => Some (g0 ++ g)%list
      end.
Proof.
  induction l as [| o l IH]; intros m Hm; cbn [fold_left List.filter].
  - destruct (m !! k); [rewrite app_nil_r |]; reflexivity.
  - cbv zeta. set (key := JS.substring 0 7 (date o)).
    set (m1 := match m !! key with None => <[key := []]> m | Some _ => m end).
    assert (Hm1 : default [] (m1 !! key) = default [] (m !! key)).
    { subst m1. destruct (m !! key) eqn:E; [rewrite E; reflexivity |].
      rewrite lookup_insert_eq. reflexivity. }
    assert (Hother : forall k', k' <> key -> m1 !! k' = m !! k').
    { intros k' Hk. subst m1. destruct (m !! key); [reflexivity |].
      rewrite lookup_insert_ne by congruence. reflexivity. }
    rewrite IH.
    + destruct (decide (key = k)) as [E | Hne].
      * rewrite E in *. rewrite lookup_insert_eq, bool_decide_eq_true_2 by reflexivity.
        rewrite Hm1. destruct (m !! k) as [g0 |]; cbn [default from_option];
          unfold Datatypes.id; [rewrite <- app_assoc |]; reflexivity.
      * rewrite lookup_insert_ne by exact Hne.
        rewrite bool_decide_eq_false_2 by exact Hne.
        rewrite Hother by congruence. reflexivity.
    + intros k'. destruct (decide (key = k')) as [<- | Hne].
      * rewrite lookup_insert_eq. destruct (default [] (m1 !! key)); discriminate.
      * rewrite lookup_insert_ne by exact Hne. rewrite Hother by congruence. apply Hm.
Qed.

(** X22. groupOccurrencesByMonth maps each YYYY-MM key to the occurrences
    whose date starts with it, in their order in the list: no occurrence is
    lost or repeated, and a key with no occurrence is absent from the map. *)
Theorem groupOccurrencesByMonth_lookup (occurrences : list Occurrence) (k : string) :
  OccurrenceQueries.groupOccurrencesByMonth occurrences !! k
  = match List.filter (fun o => bool_decide (JS.substring 0 7 (date o) = k)) occurrences with
    | [] => None
    | g => Some g
    end.
Proof.
  unfold OccurrenceQueries.groupOccurrencesByMonth. rewrite groupByMonth_acc.
  - rewrite lookup_empty. reflexivity.
  - intros k'. rewrite lookup_empty. discriminate.
Qed.

(** ** The order of date texts *)

Lemma leb_trans (a b c : string) :
  String.leb a b = true -> String.leb b c = true -> String.leb a c = true.
Proof.
  unfold String.leb. intros Hab Hbc.
  destruct (String.compare a b) eqn:Eab; [| | discriminate].
  - apply String.compare_eq_iff in Eab. subst b. exact Hbc.
  - destruct (String.compare b c) eqn:Ebc; [| | discriminate].
    + apply String.compare_eq_iff in Ebc. subst c. rewrite Eab. reflexivity.
    + apply OrderedTypeEx.String_as_OT.cmp_lt in Eab, Ebc.
      pose proof (OrderedTypeEx.String_as_OT.lt_trans _ _ _ Eab Ebc) as H.
      apply OrderedTypeEx.String_as_OT.cmp_lt in H.
      unfold OrderedTypeEx.String_as_OT.cmp in H. rewrite H. reflexivity.
Qed.

Lemma next_day_text (k : Z) :
  18262 <= k <= 22279 ->
  String.leb (formatDateISO (1440 * k)) (formatDateISO (1440 * (k + 1))) = true
  /\ String.leb (formatDateISO (1440 * (k + 1))) (formatDateISO (1440 * k)) = false.
Proof.
  intros Hk.
  pose proof (forallFrom_spec
                (fun k => String.leb (formatDateISO (1440 * k))
                                     (formatDateISO (1440 * (k + 1)))
                          && negb (String.leb (formatDateISO (1440 * (k + 1)))
                                              (formatDateISO (1440 * k))))
                (Z.to_nat 4018) 18262 ltac:(vm_cast_no_check (eq_refl true)) k) as H.
  rewrite Z2Nat.id in H by lia. specialize (H ltac:(lia)). cbv beta in H.
  apply andb_true_iff in H as [H1 H2]. apply negb_true_iff in H2.
  split; assumption.
Qed.

Lemma day_texts_mono (k : Z) (n : nat) :
  18262 <= k -> k + Z.of_nat n <= 22280 ->
  String.leb (formatDateISO (1440 * k)) (formatDateISO (1440 * (k + Z.of_nat n))) = true.
Proof.
  intros Hk. induction n as [| n IH]; intros Hn.
  - rewrite Z.add_0_r. destruct (String.leb_total (formatDateISO (1440 * k))
                                                  (formatDateISO (1440 * k))); assumption.
  - apply (leb_trans _ (formatDateISO (1440 * (k + Z.of_nat n)))); [apply IH; lia |].
    replace (k + Z.of_nat (S n)) with (k + Z.of_nat n + 1) by lia.
    destruct (next_day_text (k + Z.of_nat n) ltac:(lia)) as [H _]. exact H.
Qed.

Lemma day_texts_strict (k : Z) (n : nat) :
  18262 <= k -> k + Z.of_nat (S n) <= 22280 ->
  String.leb (formatDateISO (1440 * (k + Z.of_nat (S n)))) (formatDateISO (1440 * k))
  = false.
Proof.
  intros Hk Hn.
  destruct (String.leb (formatDateISO (1440 * (k + Z.of_nat (S n))))
                       (formatDateISO (1440 * k))) eqn:E; [| reflexivity].
  exfalso.
  assert (H1 : String.leb (formatDateISO (1440 * (k + Z.of_nat n + 1)))
                          (formatDateISO (1440 * (k + Z.of_nat n))) = true).
  { replace (k + Z.of_nat (S n)) with (k + Z.of_nat n + 1) in E by lia.
    apply (leb_trans _ (formatDateISO (1440 * k))); [exact E |].
    apply day_texts_mono; lia. }
  destruct (next_day_text (k + Z.of_nat n) ltac:(lia)) as [_ H2]. congruence.
Qed.

Lemma formatDateISO_order (t1 t2 : Date) :
  2020 <= getFullYear t1 <= 2030 -> 2020 <= getFullYear t2 <= 2030 ->
  String.leb (formatDateISO t1) (formatDateISO t2) = (dayOf t1 <=? dayOf t2).
Proof.
  intros H1 H2. apply dayOf_of_year in H1, H2.
  rewrite (formatDateISO_day t1), (formatDateISO_day t2).
  destruct (dayOf t1 <=? dayOf t2) eqn:E.
  - apply Z.leb_le in E.
    replace (dayOf t2) with (dayOf t1 + Z.of_nat (Z.to_nat (dayOf t2 - dayOf t1))) by lia.
    apply day_texts_mono; lia.
  - apply Z.leb_gt in E.
    replace (dayOf t1)
      with (dayOf t2 + Z.of_nat (S (Z.to_nat (dayOf t1 - dayOf t2 - 1)))) by lia.
    apply day_texts_strict; lia.
Qed.

(** X23. On the days of 2020..2030 the order of the YYYY-MM-DD texts is
    the order of the days: the text of a day is at most the text of another
    exactly when the day is not later, and two days with the same text are
    the same day. *)
Theorem date_text_order (t1 t2 : Date) :
  2020 <= getFullYear t1 <= 2030 -> 2020 <= getFullYear t2 <= 2030 ->
  String.leb (formatDateISO t1) (formatDateISO t2) = (dayOf t1 <=? dayOf t2)
  /\ (formatDateISO t1 = formatDateISO t2 -> dayOf t1 = dayOf t2).
Proof.
  intros H1 H2. split; [apply formatDateISO_order; assumption |].
  intros E.
  pose proof (formatDateISO_order t1 t2 H1 H2) as A.
  pose proof (formatDateISO_order t2 t1 H2 H1) as B.
  rewrite E in A. rewrite E in B.
  assert (R : String.leb (formatDateISO t2) (formatDateISO t2) = true)
    by (destruct (String.leb_total (formatDateISO t2) (formatDateISO t2)); assumption).
  rewrite R in A, B. symmetry in A, B. apply Z.leb_le in A, B. lia.
Qed.

Lemma date_text_order_witness :
  String.leb (formatDateISO (mkDate 2024 1 29)) (formatDateISO (mkDate 2024 2 1)) = true.
Proof.
  destruct (date_text_order (mkDate 2024 1 29) (mkDate 2024 2 1)) as [H _].
  - vm_compute. split; discriminate.
  - vm_compute. split; discriminate.
  - rewrite H. vm_compute. reflexivity.
Defined.

(** X24. filterOccurrencesByDateRange, given as bounds the texts of two
    days of 2020..2030, keeps exactly the occurrences of an expansion of a
    year of 2020..2030 whose day lies between the two days, bounds included,
    in their order. *)
Theorem filter_by_date_range tz pattern company year (a b : Date) :
  2020 <= year <= 2030 -> 1 <= p_startMonth pattern <= 12 ->
  2020 <= getFullYear a <= 2030 -> 2020 <= getFullYear b <= 2030 ->
  OccurrenceQueries.filterOccurrencesByDateRange
    (expandPattern tz pattern company year) (formatDateISO a) (formatDateISO b)
  = List.filter
      (fun o => match parseISO 0 (date o) with
                | Some t => (dayOf a <=? dayOf t) && (dayOf t <=? dayOf b)
                | None => false
                end)
      (expandPattern tz pattern company year).
Proof.
  intros Hy Hs Ha Hb. unfold OccurrenceQueries.filterOccurrencesByDateRange.
  apply filter_ext_in. intros o Ho.
  destruct (expandPattern_dated tz pattern company year o Hy Hs Ho) as (d & -> & Hd).
  rewrite createOccurrence_date.
  assert (Hd' : 2020 <= getFullYear d <= 2030) by lia.
  rewrite !formatDateISO_order by assumption.
  rewrite (formatDateISO_day d), parse_format_days by (apply dayOf_of_year; exact Hd').
  replace (dayOf (1440 * dayOf d)) with (dayOf d); [reflexivity |].
  rewrite <- (Z.add_0_r (1440 * dayOf d)). symmetry. apply dayOf_aligned. lia.
Qed.

Lemma filter_by_date_range_witness :
  map date
    (OccurrenceQueries.filterOccurrencesByDateRange
       (expandPattern 60 rev001 testCompany 2024)
       (formatDateISO (mkDate 2024 2 15)) (formatDateISO (mkDate 2024 5 1)))
  = ["2024-04-01"; "2024-05-01"; "2024-06-01"].
Proof.
  rewrite (filter_by_date_range 60 rev001 testCompany 2024 (mkDate 2024 2 15)
             (mkDate 2024 5 1)).
  - vm_compute. reflexivity.
  - lia.
  - cbn. lia.
  - vm_compute. split; discriminate.
  - vm_compute. split; discriminate.
Defined.

(** ** The results of a run *)

Lemma simulationBody_fields tz inputs rev exp company cfg sid cb tr0 tr results :
  simulationBody tz inputs rev exp company cfg sid cb tr0 = (tr, Ok results) ->
  r_year results = year inputs
  /\ r_fiscalStartMonth results = fiscalStartMonth inputs
  /\ totalOccurrences (metadata results)
     = Z.of_nat (length (expandAllPatterns tz rev exp company (year inputs))).
Proof.
  intros H. unfold simulationBody in H. cbv zeta in H.
  apply run_bind_Ok in H as (u1 & t1 & _ & H).
  apply run_bind_Ok in H as (u2 & t2 & _ & H).
  apply run_bind_Ok in H as (bm1 & t3 & Hloop & H).
  apply run_bind_Ok in H as (u3 & t4 & _ & H).
  apply run_bind_Ok in H as (bm2 & t5 & Hfin & H).
  apply run_bind_Ok in H as (u4 & t6 & _ & H).
  apply run_bind_Ok in H as (ms & t7 & Hms & H).
  apply run_bind_Ok in H as (u5 & t8 & _ & H).
  apply run_bind_Ok in H as (e1 & t9 & He1 & H).
  apply run_bind_Ok in H as (e2 & t10 & He2 & H).
  destruct (e1 ++ e2 ++ _)%list eqn:Eerr; [| discriminate H].
  apply run_bind_Ok in H as (u6 & t11 & _ & H).
  injection H as _ <-. cbn. split; [reflexivity |]. split; reflexivity.
Qed.

(** ** Quarterly VAT *)

(** X26. generateQuarterlyVAT throws a TypeError on an empty list of
    monthly totals.  On a non-empty list it returns the four quarters, each
    with the months 3q-2, 3q-1 and 3q, the VAT collected and the deductible
    VAT summed in list order over the monthly totals of those months, and a
    net position equal to collected minus deductible; the year part of each
    due date is the month number of the first monthly total (plus one for
    the fourth quarter), not a year. *)
Theorem quarterlyVAT_quarters (monthlyTotals : list MonthlySummary) :
  (monthlyTotals = [] ->
   generateQuarterlyVAT monthlyTotals
   = Err "Cannot read properties of undefined (reading 'month')")
  /\ (forall first rest, monthlyTotals = first :: rest ->
      exists q1 q2 q3 q4,
        generateQuarterlyVAT monthlyTotals = Ok [q1; q2; q3; q4]
        /\ map quarter [q1; q2; q3; q4] = [1; 2; 3; 4]
        /\ map months [q1; q2; q3; q4] = [[1; 2; 3]; [4; 5; 6]; [7; 8; 9]; [10; 11; 12]]
        /\ map dueDate [q1; q2; q3; q4]
           = [ JS.toString (ms_month first) ++ "-04-19";
               JS.toString (ms_month first) ++ "-07-19";
               JS.toString (ms_month first) ++ "-10-19";
               JS.toString (ms_month first + 1) ++ "-01-19" ]%string
        /\ Forall (fun q =>
                     let quarterData :=
                       List.filter (fun m => existsb (Z.eqb (ms_month m)) (months q))
                                   monthlyTotals in
                     collected q = reduceSum (fun m => vatTotal (ms_revenue m)) quarterData
                     /\ deductible q
                        = reduceSum (fun m => deductibleVat (ms_expenses m)) quarterData
                     /\ netPosition q = (collected q - deductible q)%Q)
                  [q1; q2; q3; q4]).
Proof.
  split.
  - intros ->. reflexivity.
  - intros first rest ->. unfold generateQuarterlyVAT.
    cbn [forEachM head mbind res_bind app]. cbv zeta.
    do 4 eexists. split; [reflexivity |].
    split; [reflexivity |]. split; [reflexivity |]. split; [reflexivity |].
    repeat constructor.
Qed.

Lemma quarterlyVAT_quarters_witness :
  generateQuarterlyVAT [] = Err "Cannot read properties of undefined (reading 'month')"
  /\ exists q1 q2 q3 q4,
       generateQuarterlyVAT [marchSummary] = Ok [q1; q2; q3; q4]
       /\ map dueDate [q1; q2; q3; q4] = ["3-04-19"; "3-07-19"; "3-10-19"; "4-01-19"]
       /\ map (fun q => Qred (netPosition q)) [q1; q2; q3; q4] = [10; 0; 0; 0]%Q.
Proof.
  split.
  - apply (proj1 (quarterlyVAT_quarters [])). reflexivity.
  - destruct (proj2 (quarterlyVAT_quarters [marchSummary]) marchSummary [] eq_refl)
      as (q1 & q2 & q3 & q4 & H1 & _ & _ & H3 & _).
    exists q1, q2, q3, q4. split; [exact H1 |]. split; [exact H3 |].
    apply (f_equal (fun r => match r with
                             | Ok l => map (fun q => Qred (netPosition q)) l
                             | Err _ => []
                             end)) in H1.
    cbn [map] in H1 |- *. rewrite <- H1. vm_compute. reflexivity.
Defined.

(** ** Trends *)

Lemma countIncreases_from (vals pre l : list Q) (p : Q) :
  forall (off : nat) (acc : Z),
    vals = (pre ++ p :: l)%list -> length pre = off ->
    fold_left
      (fun count (iv : nat * Q) =>
         count + match vals !! fst iv with
                 | Some previous => if Qgtb (snd iv) previous then 1 else 0
                 | None => 0
                 end)
      (imap (fun i val => ((off + i)%nat, val)) l) acc
    = acc + Z.of_nat (length (List.filter (fun pv => Qgtb (snd pv) (fst pv))
                                          (combine (p :: l) l))).
Proof.
  revert pre p. induction l as [| x l IH]; intros pre p off acc Hvals Hoff.
  - cbn. lia.
  - cbn [imap fold_left fst snd].
    assert (Hp : vals !! (off + 0)%nat = Some p).
    { rewrite Hvals, Nat.add_0_r, <- Hoff. apply list_lookup_middle. reflexivity. }
    rewrite Hp.
    rewrite (imap_ext _ (fun i val => ((S off + i)%nat, val)))
      by (intros i y _; cbn; f_equal; lia).
    rewrite (IH (pre ++ [p])%list x (S off));
      [| rewrite Hvals, <- app_assoc; reflexivity | rewrite length_app; cbn; lia].
    cbn [combine List.filter fst snd].
    destruct (Qgtb x p); cbn [length]; lia.
Qed.

Lemma countIncreases_pairs (v : Q) (rest : list Q) :
  countIncreases (v :: rest)
  = Z.of_nat (length (List.filter (fun pv => Qgtb (snd pv) (fst pv))
                                  (combine (v :: rest) rest))).
Proof.
  unfold countIncreases. cbn [tail].
  rewrite (imap_ext _ (fun i val => ((0 + i)%nat, val))) by (intros; reflexivity).
  rewrite (countIncreases_from (v :: rest) [] rest v 0%nat 0) by reflexivity.
  lia.
Qed.

(** X27. calculateTrend is "stable" on fewer than two values; on two or
    more values with no rise from one value to the next, and so on a constant
    series, it is "decreasing"; and when every value is above the one before
    it is "increasing". *)
Theorem calculateTrend_edges (values : list Q) :
  ((length values < 2)%nat -> calculateTrend values = stable)
  /\ ((2 <= length values)%nat ->
      Forall (fun pv => Qgtb (snd pv) (fst pv) = false) (combine values (tail values)) ->
      calculateTrend values = decreasing)
  /\ ((2 <= length values)%nat ->
      Forall (fun pv => Qgtb (snd pv) (fst pv) = true) (combine values (tail values)) ->
      calculateTrend values = increasing).
Proof.
  unfold calculateTrend. split; [| split].
  - intros H. apply Nat.ltb_lt in H. rewrite H. reflexivity.
  - intros Hlen Hall. replace (length values <? 2)%nat with false
      by (symmetry; apply Nat.ltb_ge; exact Hlen).
    destruct values as [| v rest]; [cbn in Hlen; lia |].
    cbv zeta. rewrite countIncreases_pairs. cbn [tail] in Hall.
    rewrite filter_none by (intros pv Hin; rewrite List.Forall_forall in Hall;
                            apply Hall; exact Hin).
    cbn [length Z.of_nat].
    assert (E : (inject_Z 0 / inject_Z (Z.of_nat (length (v :: rest)) - 1) == 0)%Q)
      by (unfold Qdiv; apply Qmult_0_l).
    replace (Qgtb (inject_Z 0 / inject_Z (Z.of_nat (length (v :: rest)) - 1)) 0.6)
      with false
      by (symmetry; apply Qgtb_false_iff; rewrite E; vm_compute; discriminate).
    replace (Qgtb 0.4 (inject_Z 0 / inject_Z (Z.of_nat (length (v :: rest)) - 1)))
      with true
      by (symmetry; apply Qgtb_true_iff; rewrite E; reflexivity).
    reflexivity.
  - intros Hlen Hall. replace (length values <? 2)%nat with false
      by (symmetry; apply Nat.ltb_ge; exact Hlen).
    destruct values as [| v rest]; [cbn in Hlen; lia |].
    cbv zeta. rewrite countIncreases_pairs. cbn [tail] in Hall.
    rewrite filter_all_true by (intros pv Hin; rewrite List.Forall_forall in Hall;
                                apply Hall; exact Hin).
    assert (Hn : length (combine (v :: rest) rest) = length rest)
      by (rewrite length_combine; cbn [length]; lia).
    rewrite Hn. cbn [length] in *.
    replace (Z.of_nat (S (length rest)) - 1) with (Z.of_nat (length rest)) by lia.
    assert (E : (inject_Z (Z.of_nat (length rest)) / inject_Z (Z.of_nat (length rest))
                 == 1)%Q).
    { apply Qmult_inv_r. intros H0.
      assert (H1 : Z.of_nat (length rest) = 0).
      { unfold Qeq in H0. cbn in H0. lia. }
      lia. }
    replace (Qgtb (inject_Z (Z.of_nat (length rest)) / inject_Z (Z.of_nat (length rest)))
                  0.6)
      with true
      by (symmetry; apply Qgtb_true_iff; rewrite E; reflexivity).
    reflexivity.
Qed.

Lemma calculateTrend_edges_witness :
  calculateTrend [100; 100; 100]%Q = decreasing.
Proof.
  apply (proj1 (proj2 (calculateTrend_edges [100; 100; 100]%Q))).
  - cbn. lia.
  - repeat constructor.
Defined.

(** ** Validation and the shape of the results *)

(** X28. validateSimulationInputs accepts exactly a year in 2020..2030, a
    fiscal start month in 1..12 and at most 100 patterns, the default limit,
    whatever limit the configuration carries.  When it or
    validateCompanyForSimulation reports an error, runSimulation throws
    "Simulation validation failed" before anything is reported to the
    progress callback, for every configuration. *)
Theorem validation_gate inputs rev exp company :
  (validateSimulationInputs inputs rev exp = []
   <-> 2020 <= year inputs <= 2030 /\ 1 <= fiscalStartMonth inputs <= 12
       /\ (length rev + length exp <= 100)%nat)
  /\ ((validateSimulationInputs inputs rev exp ++ validateCompanyForSimulation company)%list
      <> [] ->
      forall tz config sid cb,
        runSimulation tz inputs rev exp company config sid cb
        = ([], Err ("Simulation validation failed: "
                    ++ join ", " (validateSimulationInputs inputs rev exp
                                  ++ validateCompanyForSimulation company)%list))).
Proof.
  split.
  - unfold validateSimulationInputs. cbv zeta.
    change (maxPatterns DEFAULT_ENGINE_CONFIG) with 100.
    destruct ((year inputs =? 0) || (year inputs <? 2020) || (year inputs >? 2030)) eqn:Ey;
      destruct ((fiscalStartMonth inputs =? 0) || (fiscalStartMonth inputs <? 1)
                || (fiscalStartMonth inputs >? 12)) eqn:Es;
      destruct (Z.of_nat (length rev) + Z.of_nat (length exp) >? 100) eqn:Ep;
      cbn [app]; (split; [intros H; try discriminate H | intros H]); try lia;
      try reflexivity.
  - intros Hne tz config sid cb. unfold runSimulation. cbv zeta.
    destruct (validateSimulationInputs inputs rev exp
              ++ validateCompanyForSimulation company)%list as [| e errs];
      [contradiction Hne; reflexivity | reflexivity].
Qed.

Lemma validation_gate_witness :
  runSimulation 60 (withFiscalStart pureRevenueInputs 13) [rev001] [] testCompany
                noConfig (Some "sim-001") true
  = ([], Err "Simulation validation failed: Fiscal start month must be between 1 and 12").
Proof.
  rewrite (proj2 (validation_gate (withFiscalStart pureRevenueInputs 13) [rev001] []
                                  testCompany)).
  - vm_compute. reflexivity.
  - vm_compute. discriminate.
Defined.

Lemma fiscalLeb_total order (a b : MonthlyAccountBalance) :
  fiscalLeb order a b = true \/ fiscalLeb order b a = true.
Proof.
  unfold fiscalLeb. cbv zeta.
  destruct (indexOf order (month a) =? indexOf order (month b)) eqn:E.
  - rewrite Z.eqb_sym in E. rewrite E. cbn [negb]. apply String.leb_total.
  - rewrite Z.eqb_sym in E. rewrite E. cbn [negb].
    destruct (indexOf order (month a) - indexOf order (month b) <=? 0) eqn:E1;
      [left; reflexivity | right].
    apply Z.leb_gt in E1. apply Z.leb_le. lia.
Qed.

Lemma flattenBalances_length bm : ledgerOk bm -> length (flattenBalances bm) = 48%nat.
Proof.
  intros Hbm. unfold flattenBalances. cbn [flat_map accounts].
  destruct (Hbm operating) as (l1 & -> & [L1 _]).
  destruct (Hbm savings) as (l2 & -> & [L2 _]).
  destruct (Hbm personal) as (l3 & -> & [L3 _]).
  destruct (Hbm vat) as (l4 & -> & [L4 _]).
  cbn [default from_option]. unfold Datatypes.id.
  rewrite !length_app, L1, L2, L3, L4. reflexivity.
Qed.

(** X29. In every result runSimulation returns, monthlyBalances holds the
    48 buckets of the four accounts over the twelve months, in the order of
    the fiscal year and, within a month, in the alphabetical order of the
    account names; metadata.totalOccurrences is the number of occurrences of
    the expansion, and the year and fiscal start month are those of the
    inputs. *)
Theorem results_shape tz inputs rev exp company config sid cb tr results :
  runSimulation tz inputs rev exp company config sid cb = (tr, Ok results) ->
  length (monthlyBalances results) = 48%nat
  /\ Sorted (fun a b => fiscalLeb (getFiscalMonthOrder (fiscalStartMonth inputs)) a b = true)
            (monthlyBalances results)
  /\ length (monthlyTotals results) = 12%nat
  /\ map ms_month (monthlyTotals results) = getFiscalMonthOrder (fiscalStartMonth inputs)
  /\ r_year results = year inputs
  /\ r_fiscalStartMonth results = fiscalStartMonth inputs
  /\ totalOccurrences (metadata results)
     = Z.of_nat (length (expandAllPatterns tz rev exp company (year inputs))).
Proof.
  intros H. apply runSimulation_Ok in H as (_ & _ & H).
  destruct (finalLedger_ok _ _ _ _ _ _ _ _ _ _ _ H) as (bm & Hbm & Hmb & _).
  destruct (simulationBody_fields _ _ _ _ _ _ _ _ _ _ _ H) as (Hy & Hs & Hn).
  destruct (simulationBody_Ok _ _ _ _ _ _ _ _ _ _ _ H)
    as (bm1 & bm2 & ms & t1 & t2 & _ & _ & Hms & _ & _ & _ & _ & Hmt & _).
  apply calculateMonthlySummaries_Ok in Hms.
  split; [| split; [| split; [| split; [| split; [| split]]]]].
  - rewrite Hmb, (Permutation_length (sort_perm _ _)). apply flattenBalances_length, Hbm.
  - rewrite Hmb. apply sort_sorted. apply fiscalLeb_total.
  - rewrite Hmt, <- (Forall2_length _ _ _ Hms). reflexivity.
  - rewrite Hmt. clear -Hms. induction Hms as [| m x order mss Hm _ IH]; [reflexivity |].
    cbn [map]. rewrite IH. f_equal. apply (monthlySummaryOf_Ok _ _ _ _ _ Hm).
  - exact Hy.
  - exact Hs.
  - exact Hn.
Qed.

Lemma results_shape_witness :
  exists results,
    snd (runSimulation 60 (withFiscalStart pureRevenueInputs 7) [] [] testCompany noConfig
                       None false)
    = Ok results
    /\ length (monthlyBalances results) = 48%nat
    /\ map ms_month (monthlyTotals results) = [7; 8; 9; 10; 11; 12; 1; 2; 3; 4; 5; 6].
Proof.
  destruct (runSimulation 60 (withFiscalStart pureRevenueInputs 7) [] [] testCompany noConfig
                          None false) as [tr [results | e]] eqn:E.
  - exists results. split; [reflexivity |].
    destruct (results_shape 60 (withFiscalStart pureRevenueInputs 7) [] [] testCompany
                noConfig None false tr results E) as (H1 & _ & _ & H4 & _).
    split; [exact H1 | exact H4].
  - vm_compute in E. discriminate E.
Defined.

(** ** Expense occurrences *)

(** X30. Every occurrence of an expense pattern is taxed at the default
    rate of 20%, whatever the pattern: its VAT is the gross amount times
    0.20 divided by 1 + 0.20, as calculateVAT computes it, and its net the
    gross amount minus that VAT.  It posts minus the net to the operating
    account and, only when the VAT is deductible and positive, minus the VAT
    to the VAT account; the VAT of a non-deductible expense is posted to no
    account. *)
Theorem expense_occurrence tz pattern company year c dd r0 o :
  p_kind pattern = ExpenseFields c dd ->
  JS.parseFloat (p_amount pattern) = Some r0 ->
  In o (expandPattern tz pattern company year) ->
  type o = expense
  /\ grossAmount o = r0
  /\ vatRate o = 0.20%Q
  /\ vatAmount o = (r0 * 0.20 / (1 + 0.20))%Q
  /\ netAmount o = (r0 - r0 * 0.20 / (1 + 0.20))%Q
  /\ vatDeductible o = Some (truthyInt dd)
  /\ map entry (accountPostings o)
     = if truthyInt dd && Qgtb (vatAmount o) 0
       then [(operating, (- netAmount o)%Q); (vat, (- vatAmount o)%Q)]
       else [(operating, (- netAmount o)%Q)].
Proof.
  intros Hk Ha Ho.
  destruct (expandPattern_created tz pattern company year o Ho) as (d & ->).
  unfold createOccurrence. rewrite Hk, Ha. cbn [num default from_option].
  unfold Datatypes.id, calculateVAT. cbn [type].
  unfold setPostings, generateExpensePostings.
  cbn [type vatDeductible vatAmount netAmount patternName default from_option
       grossAmount vatRate accountPostings].
  unfold Datatypes.id.
  split; [reflexivity |]. split; [reflexivity |]. split; [reflexivity |].
  split; [reflexivity |]. split; [reflexivity |]. split; [reflexivity |].
  destruct (truthyInt dd && Qgtb (r0 * 0.20 / (1 + 0.20)) 0); reflexivity.
Qed.

Lemma expense_occurrence_witness :
  vatAmount (createOccurrence meals testCompany (getFirstDayOfMonth 2024 4))
  = (600 * 0.20 / (1 + 0.20))%Q
  /\ netAmount (createOccurrence meals testCompany (getFirstDayOfMonth 2024 4))
     = (600 - 600 * 0.20 / (1 + 0.20))%Q
  /\ map entry (accountPostings
                  (createOccurrence meals testCompany (getFirstDayOfMonth 2024 4)))
     = [(operating,
         (- netAmount (createOccurrence meals testCompany (getFirstDayOfMonth 2024 4)))%Q)].
Proof.
  destruct (expense_occurrence 60 meals testCompany 2024 "general" (Some 0) 600
              (createOccurrence meals testCompany (getFirstDayOfMonth 2024 4)))
    as (_ & _ & _ & H4 & H5 & _ & H7);
    [reflexivity | vm_compute; reflexivity | vm_compute; left; reflexivity |].
  split; [exact H4 |]. split; [exact H5 | exact H7].
Defined.
